(** * ms-procedures: classification, port validation and analytics

    A shallow embedding of the decision logic of the service
    ([SurgeryService], [SurgeryController], [ProcedureController.validatePorte],
    [AnalyticsService.getEfficiencyMetrics]) together with the properties
    its specification states about it.

    Conventions of the embedding
    - a JavaScript [number] is an exact rational ([Q]); [Math.round] is
      [floor (x + 1/2)], which is what ECMAScript prescribes (ties go up).
      Binary rounding of doubles is not modelled: the rounding of a price
      is characterised for whole minutes, on which the two arithmetics
      agree, and nothing is stated of the order in which numbers with a
      fraction are added;
    - a column keeps what its type lets it keep: an INTEGER column takes
      whole numbers of 32 bits, a DECIMAL(10,2) column rounds to two
      decimals, an enum column takes the labels of its enum;
    - a [Date] is its [getTime ()] value, an integer count of milliseconds;
      the instant [new Date()] gives in a method that stores it is a
      parameter [now] of the method's embedding;
    - a string is the sequence of the bytes of its UTF-8 encoding;
    - the Prisma tables with a primary key are finite maps keyed by it; a
      table that is scanned ([findFirst], [findMany]) is a list of rows in
      scan order;
    - [async] methods of the services are computations in a state and
      exception monad over the [World] (tables, audit trail, delivered
      events); what a [throw] leaves behind in the tables stays there;
    - calls to [logger] have no effect on any result and are left out. *)

From Stdlib Require Import ZArith QArith Qround Qminmax Lia Lqa String Ascii List Bool.
From stdpp Require Import gmap strings list fin_maps pretty.

Local Open Scope string_scope.
Local Open Scope Z_scope.

(** ** JavaScript numbers and values *)

Definition number : Type := Q.

Definition Math_max (a b : number) : number :=
  if Qle_bool a b then b else a.

Definition Math_round (x : number) : number :=
  inject_Z (Qfloor (x + (1 # 2))%Q).

(** [x || d] where [x] is a number or [undefined]: [0] is falsy too. *)
Definition or_number (x : option number) (d : number) : number :=
  match x with
  | Some v => if Qeq_bool v 0 then d else v
  | None => d
  end.

(** The range of an [Int] column. *)
Definition is_int32 (n : Z) : bool := (- 2 ^ 31 <=? n) && (n <? 2 ^ 31).

(** How evaluating a call ends: normally with a value, or by a [throw]. *)
Inductive Exn : Type :=
| Error (message : string)          (* new Error(message) *)
| PrismaError (code : string)       (* thrown by the Prisma client *)
| ServiceBusError (topic : string). (* raised by the event-bus client *)

Inductive Completion (A : Type) : Type :=
| Return (a : A)
| Throw (e : Exn).
Arguments Return {A} a.
Arguments Throw {A} e.

(** ** Enumerations *)

(** The Postgres enum [ProcedureComplexity] after both migrations. The
    TypeScript enum [SurgeryComplexity] names the five [PORTE_*] labels. *)
Inductive Complexity : Type :=
| LOW_COMPLEXITY | MEDIUM_COMPLEXITY | HIGH_COMPLEXITY | VERY_HIGH_COMPLEXITY
| PORTE_1 | PORTE_2 | PORTE_3 | PORTE_4 | PORTE_ESPECIAL.

#[global] Instance Complexity_eq_dec : EqDecision Complexity.
Proof. solve_decision. Defined.

Definition SurgeryComplexity : list Complexity :=
  [PORTE_1; PORTE_2; PORTE_3; PORTE_4; PORTE_ESPECIAL].

(** The Postgres enum [ProcedureStatus] after both migrations; the
    TypeScript enum [SurgeryStatus] names six of its labels. *)
Inductive Status : Type :=
| SCHEDULED | CONFIRMED | IN_PROGRESS | COMPLETED | CANCELLED | POSTPONED
| PENDING_APPROVAL | APPROVED_STATUS | REJECTED_STATUS.

#[global] Instance Status_eq_dec : EqDecision Status.
Proof. solve_decision. Defined.

Inductive AuthorizationStatus : Type :=
| AUTH_NOT_REQUIRED | AUTH_PENDING | AUTHORIZED | DENIED | EXPIRED.

Inductive AuditStatus : Type :=
| AUDIT_NOT_REQUIRED | PENDING_AUDIT | IN_AUDIT | AUDIT_APPROVED
| AUDIT_REJECTED | REQUIRES_REVIEW.

(** The [priority] of an audit request and the [severity] of a port
    verdict both have a label [HIGH]; each enumeration has its module. *)
Module Priority.
Inductive t : Type := URGENT | HIGH.
End Priority.

Module Severity.
Inductive t : Type := INFO | LOW | MEDIUM | HIGH.
End Severity.

(** ** PriceModel: [SurgeryService.calculateBasePrice] *)

Definition baseRates : list (Complexity * number) :=
  [ (PORTE_1, 500%Q); (PORTE_2, 1500%Q); (PORTE_3, 3000%Q);
    (PORTE_4, 5000%Q); (PORTE_ESPECIAL, 8000%Q) ].

(** [baseRates[complexity]]: [undefined] for a key the object lacks. *)
Definition baseRates_get (complexity : Complexity) : option number :=
  snd <$> List.find (fun kv => bool_decide (fst kv = complexity)) baseRates.

(** The arithmetic is that of the rationals. On a whole number of
    minutes of 32 bits it gives what the arithmetic of doubles gives: the
    product is then a multiple of a third, never within a sixth of the
    tie at which [Math.round] turns, and the rounding error of the
    division and of the product is far smaller. On a duration with a
    fraction the two can differ by one unit at such a tie. *)
Definition calculateBasePrice (complexity : Complexity) (duration : number)
  : number :=
  let baseRate := or_number (baseRates_get complexity) 1000%Q in
  let durationMultiplier := Math_max 1%Q (duration / 60)%Q in
  Math_round (baseRate * durationMultiplier)%Q.

(** The body of [calculateBasePrice] has no [throw] statement and calls
    only [Math.max] and [Math.round]: a call always completes normally. *)
Definition price (complexity : Complexity) (duration : number)
  : Completion number :=
  Return (calculateBasePrice complexity duration).

(** ** AuditPolicy: [SurgeryService.requiresAudit] *)

Definition requiresAudit (complexity : Complexity) : bool :=
  bool_decide (complexity ∈ [PORTE_3; PORTE_4; PORTE_ESPECIAL]).

(** The price model in the specification's words: a fixed rate per tier,
    times [max(1, minutes / 60)], rounded to the nearest unit. *)
Definition tier_rate (complexity : Complexity) : Z :=
  match complexity with
  | PORTE_1 => 500
  | PORTE_2 => 1500
  | PORTE_3 => 3000
  | PORTE_4 => 5000
  | PORTE_ESPECIAL => 8000
  | _ => 1000
  end.

Definition hours_billed (duration : number) : number :=
  Qmax 1%Q (duration / 60)%Q.

(** ** Records of the data model

    Each record is declared in a module of its own, so that the fields keep
    the names they have in the source ([Procedure.basePrice],
    [SurgeryProcedure.basePrice], ...). Descriptive fields on which no
    decision depends (description, subcategory, team members, anaesthesia,
    createdAt) are left out. *)

Record Patient : Type := { patient_id : string; fullName : string }.

(** A row of the table [procedures]. [updatedAt] is the instant at which
    the service last wrote the row; it is [None] for a row that holds the
    stamp the database client gave it when it was created, which no code
    of the service sets or reads. *)
Module Procedure.
Record t : Type := mk {
    id : string;
    code : string;
    name : string;
    category : string;
    complexity : Complexity;
    estimatedDuration : option number;    (* INTEGER, nullable *)
    basePrice : option number;            (* DECIMAL(10,2), nullable *)
    status : Status;
    patientId : string;
    requiresAuthorization : bool;
    suggestedPort : Z;
    tags : list string;
    scheduledDate : option Z;
    performedDate : option Z;
    duration : option number;
    hospitalId : option string;
    updatedAt : option Z
  }.
End Procedure.

(** The interface [SurgeryProcedure] of surgery.types.ts. *)
Module SurgeryProcedure.
Record t : Type := mk {
    id : string;
    patientId : string;
    patientName : string;
    procedureCode : string;
    procedureName : string;
    category : string;
    complexity : Complexity;
    estimatedDuration : number;
    basePrice : number;
    status : Status;
    scheduledDate : option Z;
    performedDate : option Z;
    surgeonId : string;
    surgeonName : string;
    operatingRoom : option string;
    hospital : string;
    requiresAuthorization : bool;
    authorizationStatus : AuthorizationStatus;
    auditStatus : AuditStatus;
    createdBy : string
  }.
End SurgeryProcedure.

(** The interface [CreateSurgeryRequest]. A date string is represented by
    the instant it denotes. *)
Module CreateSurgeryRequest.
Record t : Type := mk {
    patientId : string;
    procedureCode : string;
    procedureName : string;
    category : string;
    complexity : Complexity;
    estimatedDuration : number;
    scheduledDate : option Z;
    surgeonId : string;
    surgeonName : string;
    operatingRoom : option string;
    hospital : string;
    requiresAuthorization : option bool;
    createdBy : string
  }.
End CreateSurgeryRequest.

(** The interface [ConfirmPorteRequest]. *)
Module ConfirmPorteRequest.
Record t : Type := mk {
    complexity : Complexity;
    estimatedDuration : number;
    basePrice : number;
    confirmedBy : string;
    notes : option string
  }.
End ConfirmPorteRequest.

(** The JSON objects written to [oldValues] and [newValues]. *)
Inductive AuditValues : Type :=
| ClassificationValues (complexity : Complexity)
    (estimatedDuration basePrice : option number)
| ConfirmationValues (complexity : Complexity)
    (estimatedDuration basePrice : number) (notes : option string)
    (action : string)
| StatusValues (status : Status).

(** A row of the table [audit_logs]. *)
Module AuditLog.
Record t : Type := mk {
    action : string;
    entity : string;
    entityId : string;
    userId : string;
    userName : string;
    userRole : string;
    oldValues : AuditValues;
    newValues : AuditValues;
    patientId : string;
    procedureId : string
  }.
End AuditLog.

(** The payload of [publishAuditRequested]. *)
Module AuditRequest.
Record t : Type := mk {
    patientId : string;
    procedureId : string;
    type : string;
    priority : Priority.t;
    description : string;
    requestedBy : string;
    metadata : Complexity * number * number
  }.
End AuditRequest.

(** What the service hands to the event bus, one constructor for each of
    the four publishers it calls. *)
Inductive Event : Type :=
| SurgeryCreated (surgery : SurgeryProcedure.t)
| PorteConfirmed (surgery : SurgeryProcedure.t)
| SurgeryStatusUpdated (surgery : SurgeryProcedure.t)
| AuditRequested (request : AuditRequest.t).

Module ApiResponse.
Record t (A : Type) : Type := mk {
    success : bool;
    data : option A;
    message : string
  }.
Arguments mk {A} _ _ _.
Arguments success {A} _.
Arguments data {A} _.
Arguments message {A} _.
End ApiResponse.

(** ** The world outside the engine

    The tables the service reads and writes, the events it has handed to the
    event bus (in call order), and the bus itself: [busAccepts e] tells
    whether a publisher called with [e] returns or throws; it is a
    parameter of every property below. *)

Record World : Type := mkWorld {
  patients : gmap string Patient;
  procedures : gmap string Procedure.t;
  auditLogs : list AuditLog.t;
  outbox : list Event;
  busAccepts : Event -> bool
}.

Definition M (A : Type) : Type := World -> Completion A * World.

Definition ret {A : Type} (a : A) : M A := fun w => (Return a, w).

Definition throw {A : Type} (e : Exn) : M A := fun w => (Throw e, w).

Definition bind {A B : Type} (m : M A) (k : A -> M B) : M B :=
  fun w =>
    match m w with
    | (Return a, w') => k a w'
    | (Throw e, w') => (Throw e, w')
    end.

(** [try { m } catch (error) { handler error }] *)
Definition try_catch {A : Type} (m : M A) (handler : Exn -> M A) : M A :=
  fun w =>
    match m w with
    | (Return a, w') => (Return a, w')
    | (Throw e, w') => handler e w'
    end.

Notation "'await' x <- m ; k" := (bind m (fun x => k))
  (at level 10, x name, m at level 100, k at level 200,
   format "'[v' 'await'  x  <-  m ; '/' k ']'").

Definition set_procedures (tbl : gmap string Procedure.t) (w : World) : World :=
  mkWorld (patients w) tbl (auditLogs w) (outbox w) (busAccepts w).

Definition set_auditLogs (logs : list AuditLog.t) (w : World) : World :=
  mkWorld (patients w) (procedures w) logs (outbox w) (busAccepts w).

Definition set_outbox (evs : list Event) (w : World) : World :=
  mkWorld (patients w) (procedures w) (auditLogs w) evs (busAccepts w).

(** *** The Prisma client *)

Definition prisma_patient_findUnique (id : string) : M (option Patient) :=
  fun w => (Return (patients w !! id), w).

(** [procedures_code_key] is a unique index. *)
Definition code_taken (code : string) (tbl : gmap string Procedure.t) : bool :=
  existsb (fun kv => String.eqb (Procedure.code (snd kv)) code)
          (map_to_list tbl).

(** *** The types of the columns

    From the migrations: [category] is of the enum [ProcedureCategory],
    [suggestedPort], [estimatedDuration] and [duration] are INTEGER,
    [basePrice] is DECIMAL(10,2). *)

Definition ProcedureCategory : list string :=
  [ "GENERAL_SURGERY"; "CARDIAC_SURGERY"; "ORTHOPEDIC_SURGERY";
    "NEUROSURGERY"; "PLASTIC_SURGERY"; "GYNECOLOGICAL_SURGERY";
    "UROLOGICAL_SURGERY"; "OPHTHALMOLOGICAL_SURGERY";
    "OTOLARYNGOLOGICAL_SURGERY"; "VASCULAR_SURGERY"; "THORACIC_SURGERY";
    "PEDIATRIC_SURGERY"; "EMERGENCY_SURGERY"; "DIAGNOSTIC_PROCEDURE";
    "THERAPEUTIC_PROCEDURE" ].

Definition is_ProcedureCategory (label : string) : bool :=
  bool_decide (label ∈ ProcedureCategory).

(** What an [Int] field takes: a number without a fraction that fits 32
    bits. The client refuses any other number with a validation error. *)
Definition is_Int (x : number) : bool :=
  Qeq_bool x (inject_Z (Qfloor x)) && is_int32 (Qfloor x).

(** The whole number an accepted [Int] is. *)
Definition Int_of (x : number) : number := inject_Z (Qfloor x).

Definition is_Int_or_null (x : option number) : bool :=
  match x with
  | Some v => is_Int v
  | None => true
  end.

(** Postgres rounds a numeric to the scale of its column, halves away
    from zero. *)
Definition round_half_away (x : Q) : Z :=
  if Qle_bool 0 x then Qfloor (x + (1 # 2))%Q
  else - Qfloor (- x + (1 # 2))%Q.

(** The hundredths a DECIMAL(10,2) column keeps of a number, and the
    number it gives back. *)
Definition cents (x : number) : Z := round_half_away (x * 100)%Q.

Definition Decimal_10_2 (x : number) : number :=
  Qred (inject_Z (cents x) / 100)%Q.

(** Ten digits, two of them decimals: from [10^8] on the column overflows
    (error P2020, "value out of range for the type"). *)
Definition fits_Decimal_10_2 (x : number) : bool :=
  Z.abs (cents x) <? 10 ^ 10.

Definition fits_Decimal_10_2_or_null (x : option number) : bool :=
  match x with
  | Some v => fits_Decimal_10_2 v
  | None => true
  end.

(** The row as the table holds it and as the client returns it. *)
Definition stored_row (row : Procedure.t) : Procedure.t :=
  {| Procedure.id := Procedure.id row;
     Procedure.code := Procedure.code row;
     Procedure.name := Procedure.name row;
     Procedure.category := Procedure.category row;
     Procedure.complexity := Procedure.complexity row;
     Procedure.estimatedDuration := Int_of <$> Procedure.estimatedDuration row;
     Procedure.basePrice := Decimal_10_2 <$> Procedure.basePrice row;
     Procedure.status := Procedure.status row;
     Procedure.patientId := Procedure.patientId row;
     Procedure.requiresAuthorization := Procedure.requiresAuthorization row;
     Procedure.suggestedPort := Procedure.suggestedPort row;
     Procedure.tags := Procedure.tags row;
     Procedure.scheduledDate := Procedure.scheduledDate row;
     Procedure.performedDate := Procedure.performedDate row;
     Procedure.duration := Int_of <$> Procedure.duration row;
     Procedure.hospitalId := Procedure.hospitalId row;
     Procedure.updatedAt := Procedure.updatedAt row |}.

(** The arguments the client checks against the types of the fields
    before it sends anything to the database. *)
Definition valid_create_data (row : Procedure.t) : bool :=
  is_ProcedureCategory (Procedure.category row)
  && is_int32 (Procedure.suggestedPort row)
  && is_Int_or_null (Procedure.estimatedDuration row)
  && is_Int_or_null (Procedure.duration row).

(** [prisma.procedure.create]: the client checks the arguments, the
    database picks an unused id, refuses a price that overflows its
    column (P2020) and a code that is taken, which violates the unique
    index (P2002). *)
Definition prisma_procedure_create (data : string -> Procedure.t)
  : M Procedure.t :=
  fun w =>
    let row := data (fresh (dom (procedures w))) in
    if negb (valid_create_data row)
    then (Throw (PrismaError "PrismaClientValidationError"), w)
    else if negb (fits_Decimal_10_2_or_null (Procedure.basePrice row))
    then (Throw (PrismaError "P2020"), w)
    else if code_taken (Procedure.code row) (procedures w)
    then (Throw (PrismaError "P2002"), w)
    else (Return (stored_row row),
          set_procedures
            (<[Procedure.id row := stored_row row]> (procedures w)) w).

(** [findUnique({ where: { id }, include: { patient: true } })] *)
Definition prisma_procedure_findUnique (id : string)
  : M (option (Procedure.t * option Patient)) :=
  fun w =>
    (Return (match procedures w !! id with
             | Some row => Some (row, patients w !! Procedure.patientId row)
             | None => None
             end), w).

(** The [data] of an [update] of the service: a key that is absent
    leaves its column as it is. *)
Module ProcedureUpdateInput.
Record t : Type := mk {
    complexity : option Complexity;
    estimatedDuration : option number;
    basePrice : option number;
    status : option Status;
    updatedAt : option Z
  }.
End ProcedureUpdateInput.

(** The row after the columns named by [data] are written. *)
Definition updated_row (data : ProcedureUpdateInput.t) (row : Procedure.t)
  : Procedure.t :=
  {| Procedure.id := Procedure.id row;
     Procedure.code := Procedure.code row;
     Procedure.name := Procedure.name row;
     Procedure.category := Procedure.category row;
     Procedure.complexity :=
       default (Procedure.complexity row)
               (ProcedureUpdateInput.complexity data);
     Procedure.estimatedDuration :=
       match ProcedureUpdateInput.estimatedDuration data with
       | Some minutes => Some (Int_of minutes)
       | None => Procedure.estimatedDuration row
       end;
     Procedure.basePrice :=
       match ProcedureUpdateInput.basePrice data with
       | Some price => Some (Decimal_10_2 price)
       | None => Procedure.basePrice row
       end;
     Procedure.status :=
       default (Procedure.status row) (ProcedureUpdateInput.status data);
     Procedure.patientId := Procedure.patientId row;
     Procedure.requiresAuthorization := Procedure.requiresAuthorization row;
     Procedure.suggestedPort := Procedure.suggestedPort row;
     Procedure.tags := Procedure.tags row;
     Procedure.scheduledDate := Procedure.scheduledDate row;
     Procedure.performedDate := Procedure.performedDate row;
     Procedure.duration := Procedure.duration row;
     Procedure.hospitalId := Procedure.hospitalId row;
     Procedure.updatedAt :=
       match ProcedureUpdateInput.updatedAt data with
       | Some instant => Some instant
       | None => Procedure.updatedAt row
       end |}.

(** A row without its [updatedAt]: what two rows share when they differ
    in that column at most. *)
Definition without_updatedAt (row : Procedure.t) : Procedure.t :=
  {| Procedure.id := Procedure.id row;
     Procedure.code := Procedure.code row;
     Procedure.name := Procedure.name row;
     Procedure.category := Procedure.category row;
     Procedure.complexity := Procedure.complexity row;
     Procedure.estimatedDuration := Procedure.estimatedDuration row;
     Procedure.basePrice := Procedure.basePrice row;
     Procedure.status := Procedure.status row;
     Procedure.patientId := Procedure.patientId row;
     Procedure.requiresAuthorization := Procedure.requiresAuthorization row;
     Procedure.suggestedPort := Procedure.suggestedPort row;
     Procedure.tags := Procedure.tags row;
     Procedure.scheduledDate := Procedure.scheduledDate row;
     Procedure.performedDate := Procedure.performedDate row;
     Procedure.duration := Procedure.duration row;
     Procedure.hospitalId := Procedure.hospitalId row;
     Procedure.updatedAt := None |}.

(** Whether client and database take the [data] of an [update]. *)
Definition update_accepted (data : ProcedureUpdateInput.t) : bool :=
  is_Int_or_null (ProcedureUpdateInput.estimatedDuration data)
  && fits_Decimal_10_2_or_null (ProcedureUpdateInput.basePrice data).

(** [update({ where: { id }, data, include: { patient: true } })]: the
    client checks the arguments (a validation error), P2025 is "record to
    update not found", P2020 a price that overflows its column. A refused
    update writes nothing. *)
Definition prisma_procedure_update (id : string)
    (data : ProcedureUpdateInput.t)
  : M (Procedure.t * option Patient) :=
  fun w =>
    if negb (is_Int_or_null (ProcedureUpdateInput.estimatedDuration data))
    then (Throw (PrismaError "PrismaClientValidationError"), w)
    else
      match procedures w !! id with
      | Some row =>
          if negb (fits_Decimal_10_2_or_null
                     (ProcedureUpdateInput.basePrice data))
          then (Throw (PrismaError "P2020"), w)
          else
            let row' := updated_row data row in
            (Return (row', patients w !! Procedure.patientId row'),
             set_procedures (<[id := row']> (procedures w)) w)
      | None => (Throw (PrismaError "P2025"), w)
      end.

Definition prisma_auditLog_create (entry : AuditLog.t) : M unit :=
  fun w => (Return tt, set_auditLogs (auditLogs w ++ [entry]) w).

(** *** The event bus *)

Definition topic_of (e : Event) : string :=
  match e with
  | SurgeryCreated _ => "SurgeryCreated"
  | PorteConfirmed _ => "PorteConfirmed"
  | SurgeryStatusUpdated _ => "SurgeryStatusUpdated"
  | AuditRequested _ => "AuditRequested"
  end.

(** Modelled from the spec: the publishers [publishSurgeryCreated],
    [publishPorteConfirmed], [publishSurgeryStatusUpdated] and
    [publishAuditRequested] of [eventBusService], which the service calls
    and the event-bus module of the repository does not declare. Each is a
    [publish(topic, payload)] of the EventPublisher collaborator: the call
    is recorded in [outbox], and [busAccepts] decides whether it returns
    or fails (PublishFailure) by throwing into the caller, as
    [publishEvent] does. *)
Definition eventBus_publish (e : Event) : M unit :=
  fun w =>
    let w' := set_outbox (outbox w ++ [e]) w in
    if busAccepts w e then (Return tt, w')
    else (Throw (ServiceBusError (topic_of e)), w').

(** ** ClassificationEngine: [SurgeryService] *)

Definition Complexity_label (c : Complexity) : string :=
  match c with
  | LOW_COMPLEXITY => "LOW"
  | MEDIUM_COMPLEXITY => "MEDIUM"
  | HIGH_COMPLEXITY => "HIGH"
  | VERY_HIGH_COMPLEXITY => "VERY_HIGH"
  | PORTE_1 => "PORTE_1"
  | PORTE_2 => "PORTE_2"
  | PORTE_3 => "PORTE_3"
  | PORTE_4 => "PORTE_4"
  | PORTE_ESPECIAL => "PORTE_ESPECIAL"
  end.

(** [x || d] where [x] is a string or [undefined]. *)
Definition or_string (x : option string) (d : string) : string :=
  match x with
  | Some v => if String.eqb v "" then d else v
  | None => d
  end.

(** [x || false] where [x] is a boolean or [undefined]. *)
Definition or_false (x : option bool) : bool :=
  match x with
  | Some b => b
  | None => false
  end.

Definition startsWith (s pre : string) : bool := String.prefix pre s.

Definition includes (s sub : string) : bool :=
  match String.index 0 sub s with
  | Some _ => true
  | None => false
  end.

(** The object literal handed to [publishAuditRequested]. *)
Definition auditRequest_of (surgery : SurgeryProcedure.t) : AuditRequest.t :=
  {| AuditRequest.patientId := SurgeryProcedure.patientId surgery;
     AuditRequest.procedureId := SurgeryProcedure.id surgery;
     AuditRequest.type := "PORTE_CLASSIFICATION";
     AuditRequest.priority :=
       if bool_decide (SurgeryProcedure.complexity surgery = PORTE_ESPECIAL)
       then Priority.URGENT else Priority.HIGH;
     AuditRequest.description :=
       "Auditoria de classificação de porte para "
         ++ SurgeryProcedure.procedureName surgery;
     AuditRequest.requestedBy := "system";
     AuditRequest.metadata :=
       (SurgeryProcedure.complexity surgery,
        SurgeryProcedure.estimatedDuration surgery,
        SurgeryProcedure.basePrice surgery) |}.

Definition createAuditRequest (surgery : SurgeryProcedure.t) : M unit :=
  try_catch
    (eventBus_publish (AuditRequested (auditRequest_of surgery)))
    (fun error => ret tt).

(** The [data] of [prisma.procedure.create] in [createSurgery]; the
    database supplies [id]. *)
Definition createSurgery_data (data : CreateSurgeryRequest.t)
    (basePrice : number) (id : string) : Procedure.t :=
  {| Procedure.id := id;
     Procedure.code := CreateSurgeryRequest.procedureCode data;
     Procedure.name := CreateSurgeryRequest.procedureName data;
     Procedure.category := CreateSurgeryRequest.category data;
     Procedure.complexity := CreateSurgeryRequest.complexity data;
     Procedure.estimatedDuration :=
       Some (CreateSurgeryRequest.estimatedDuration data);
     Procedure.basePrice := Some basePrice;
     Procedure.status := SCHEDULED;
     Procedure.patientId := CreateSurgeryRequest.patientId data;
     Procedure.requiresAuthorization :=
       or_false (CreateSurgeryRequest.requiresAuthorization data);
     Procedure.suggestedPort := 1;
     Procedure.tags :=
       [ "surgery";
         Complexity_label (CreateSurgeryRequest.complexity data);
         CreateSurgeryRequest.category data;
         CreateSurgeryRequest.hospital data ];
     Procedure.scheduledDate := None;
     Procedure.performedDate := None;
     Procedure.duration := None;
     Procedure.hospitalId := None;
     Procedure.updatedAt := None |}.

(** The object [surgeryProcedure] that [createSurgery] builds, publishes
    and returns. [data.requiresAuthorization ? .. : ..] takes its first
    branch exactly when [data.requiresAuthorization || false] is true. *)
Definition createSurgery_surgeryProcedure (data : CreateSurgeryRequest.t)
    (patient : Patient) (procedure : Procedure.t) (basePrice : number)
  : SurgeryProcedure.t :=
  {| SurgeryProcedure.id := Procedure.id procedure;
     SurgeryProcedure.patientId := CreateSurgeryRequest.patientId data;
     SurgeryProcedure.patientName := fullName patient;
     SurgeryProcedure.procedureCode := CreateSurgeryRequest.procedureCode data;
     SurgeryProcedure.procedureName := CreateSurgeryRequest.procedureName data;
     SurgeryProcedure.category := CreateSurgeryRequest.category data;
     SurgeryProcedure.complexity := CreateSurgeryRequest.complexity data;
     SurgeryProcedure.estimatedDuration :=
       CreateSurgeryRequest.estimatedDuration data;
     SurgeryProcedure.basePrice := basePrice;
     SurgeryProcedure.status := SCHEDULED;
     SurgeryProcedure.scheduledDate := CreateSurgeryRequest.scheduledDate data;
     SurgeryProcedure.performedDate := None;
     SurgeryProcedure.surgeonId := CreateSurgeryRequest.surgeonId data;
     SurgeryProcedure.surgeonName := CreateSurgeryRequest.surgeonName data;
     SurgeryProcedure.operatingRoom := CreateSurgeryRequest.operatingRoom data;
     SurgeryProcedure.hospital := CreateSurgeryRequest.hospital data;
     SurgeryProcedure.requiresAuthorization :=
       or_false (CreateSurgeryRequest.requiresAuthorization data);
     SurgeryProcedure.authorizationStatus :=
       if or_false (CreateSurgeryRequest.requiresAuthorization data)
       then AUTH_PENDING else AUTH_NOT_REQUIRED;
     SurgeryProcedure.auditStatus := PENDING_AUDIT;
     SurgeryProcedure.createdBy := CreateSurgeryRequest.createdBy data |}.

Definition success_response {A : Type} (data : A) (message : string)
  : ApiResponse.t A :=
  {| ApiResponse.success := true;
     ApiResponse.data := Some data;
     ApiResponse.message := message |}.

Definition createSurgery (data : CreateSurgeryRequest.t)
  : M (ApiResponse.t SurgeryProcedure.t) :=
  try_catch
    (await patient <-
       prisma_patient_findUnique (CreateSurgeryRequest.patientId data) ;
     match patient with
     | None => throw (Error "Patient not found")
     | Some patient =>
       let basePrice :=
         calculateBasePrice (CreateSurgeryRequest.complexity data)
                            (CreateSurgeryRequest.estimatedDuration data) in
       await procedure <-
         prisma_procedure_create (createSurgery_data data basePrice) ;
       let surgeryProcedure :=
         createSurgery_surgeryProcedure data patient procedure basePrice in
       await _ <- eventBus_publish (SurgeryCreated surgeryProcedure) ;
       await _ <-
         (if requiresAudit (CreateSurgeryRequest.complexity data)
          then createAuditRequest surgeryProcedure
          else ret tt) ;
       ret (success_response surgeryProcedure
              "Surgery procedure created successfully")
     end)
    (fun error => throw error).

(** A Prisma [Decimal] is an object and therefore truthy, also when it is
    zero; only [null] takes the [: 0] branch of [mapProcedureToSurgery]. *)
Definition decimal_or_zero (x : option number) : number :=
  match x with
  | Some v => v
  | None => 0%Q
  end.

Definition mapProcedureToSurgery (procedure : Procedure.t * option Patient)
  : SurgeryProcedure.t :=
  let (row, patient) := procedure in
  {| SurgeryProcedure.id := Procedure.id row;
     SurgeryProcedure.patientId := Procedure.patientId row;
     SurgeryProcedure.patientName := or_string (fullName <$> patient) "Unknown";
     SurgeryProcedure.procedureCode := Procedure.code row;
     SurgeryProcedure.procedureName := Procedure.name row;
     SurgeryProcedure.category := Procedure.category row;
     SurgeryProcedure.complexity := Procedure.complexity row;
     SurgeryProcedure.estimatedDuration :=
       or_number (Procedure.estimatedDuration row) 0%Q;
     SurgeryProcedure.basePrice := decimal_or_zero (Procedure.basePrice row);
     SurgeryProcedure.status := Procedure.status row;
     SurgeryProcedure.scheduledDate := Procedure.scheduledDate row;
     SurgeryProcedure.performedDate := Procedure.performedDate row;
     SurgeryProcedure.surgeonId := "surgeon-1";
     SurgeryProcedure.surgeonName := "Dr. Silva";
     SurgeryProcedure.operatingRoom :=
       Some (or_string
               (List.find (fun tag => startsWith tag "room-")
                          (Procedure.tags row))
               "Sala 1");
     SurgeryProcedure.hospital :=
       or_string
         (List.find (fun tag => includes tag "hospital") (Procedure.tags row))
         "Hospital Principal";
     SurgeryProcedure.requiresAuthorization :=
       Procedure.requiresAuthorization row;
     SurgeryProcedure.authorizationStatus :=
       if Procedure.requiresAuthorization row
       then AUTH_PENDING else AUTH_NOT_REQUIRED;
     SurgeryProcedure.auditStatus :=
       if requiresAudit (Procedure.complexity row)
       then PENDING_AUDIT else AUDIT_NOT_REQUIRED;
     SurgeryProcedure.createdBy := "system" |}.

Definition getSurgeryById (id : string)
  : M (ApiResponse.t SurgeryProcedure.t) :=
  try_catch
    (await procedure <- prisma_procedure_findUnique id ;
     match procedure with
     | None => throw (Error "Surgery procedure not found")
     | Some procedure =>
       let surgeryProcedure := mapProcedureToSurgery procedure in
       ret (success_response surgeryProcedure
              "Surgery procedure retrieved successfully")
     end)
    (fun error => throw error).

(** The [data] of [prisma.procedure.update] in [confirmPorte]; [now] is
    what [new Date()] gives. *)
Definition confirmPorte_data (confirmation : ConfirmPorteRequest.t)
    (now : Z) : ProcedureUpdateInput.t :=
  {| ProcedureUpdateInput.complexity :=
       Some (ConfirmPorteRequest.complexity confirmation);
     ProcedureUpdateInput.estimatedDuration :=
       Some (ConfirmPorteRequest.estimatedDuration confirmation);
     ProcedureUpdateInput.basePrice :=
       Some (ConfirmPorteRequest.basePrice confirmation);
     ProcedureUpdateInput.status := None;
     ProcedureUpdateInput.updatedAt := Some now |}.

Definition confirmPorte_auditLog (id : string)
    (confirmation : ConfirmPorteRequest.t) (procedure : Procedure.t)
  : AuditLog.t :=
  {| AuditLog.action := "UPDATE";
     AuditLog.entity := "PROCEDURE";
     AuditLog.entityId := id;
     AuditLog.userId := ConfirmPorteRequest.confirmedBy confirmation;
     AuditLog.userName := ConfirmPorteRequest.confirmedBy confirmation;
     AuditLog.userRole := "SURGEON";
     AuditLog.oldValues :=
       ClassificationValues (Procedure.complexity procedure)
         (Procedure.estimatedDuration procedure)
         (Procedure.basePrice procedure);
     AuditLog.newValues :=
       ConfirmationValues (ConfirmPorteRequest.complexity confirmation)
         (ConfirmPorteRequest.estimatedDuration confirmation)
         (ConfirmPorteRequest.basePrice confirmation)
         (ConfirmPorteRequest.notes confirmation)
         "PORTE_CONFIRMED";
     AuditLog.patientId := Procedure.patientId procedure;
     AuditLog.procedureId := id |}.

Definition confirmPorte (id : string) (confirmation : ConfirmPorteRequest.t)
    (now : Z)
  : M (ApiResponse.t SurgeryProcedure.t) :=
  try_catch
    (await procedure <- prisma_procedure_findUnique id ;
     match procedure with
     | None => throw (Error "Surgery procedure not found")
     | Some (procedure, _) =>
       await updatedProcedure <-
         prisma_procedure_update id (confirmPorte_data confirmation now) ;
       await _ <-
         prisma_auditLog_create
           (confirmPorte_auditLog id confirmation procedure) ;
       let surgeryProcedure := mapProcedureToSurgery updatedProcedure in
       await _ <- eventBus_publish (PorteConfirmed surgeryProcedure) ;
       ret (success_response surgeryProcedure
              "Surgery porte confirmed successfully")
     end)
    (fun error => throw error).

(** The [data] of [prisma.procedure.update] in [updateSurgeryStatus];
    [now] is what [new Date()] gives. *)
Definition updateSurgeryStatus_data (status : Status) (now : Z)
  : ProcedureUpdateInput.t :=
  {| ProcedureUpdateInput.complexity := None;
     ProcedureUpdateInput.estimatedDuration := None;
     ProcedureUpdateInput.basePrice := None;
     ProcedureUpdateInput.status := Some status;
     ProcedureUpdateInput.updatedAt := Some now |}.

Definition updateSurgeryStatus_auditLog (id : string) (status : Status)
    (updatedBy : string) (procedure : Procedure.t) : AuditLog.t :=
  {| AuditLog.action := "UPDATE";
     AuditLog.entity := "PROCEDURE";
     AuditLog.entityId := id;
     AuditLog.userId := updatedBy;
     AuditLog.userName := updatedBy;
     AuditLog.userRole := "MEDICAL_STAFF";
     AuditLog.oldValues := StatusValues (Procedure.status procedure);
     AuditLog.newValues := StatusValues status;
     AuditLog.patientId := Procedure.patientId procedure;
     AuditLog.procedureId := id |}.

Definition updateSurgeryStatus (id : string) (status : Status)
    (updatedBy : string) (now : Z)
  : M (ApiResponse.t SurgeryProcedure.t) :=
  try_catch
    (await procedure <- prisma_procedure_findUnique id ;
     match procedure with
     | None => throw (Error "Surgery procedure not found")
     | Some (procedure, _) =>
       await updatedProcedure <-
         prisma_procedure_update id (updateSurgeryStatus_data status now) ;
       await _ <-
         prisma_auditLog_create
           (updateSurgeryStatus_auditLog id status updatedBy procedure) ;
       let surgeryProcedure := mapProcedureToSurgery updatedProcedure in
       await _ <- eventBus_publish (SurgeryStatusUpdated surgeryProcedure) ;
       ret (success_response surgeryProcedure
              "Surgery status updated successfully")
     end)
    (fun error => throw error).

(** ** The HTTP shell: [BaseController] and [SurgeryController] *)

Module HttpResponse.
Record t (A : Type) : Type := mk {
  statusCode : Z;
  body : ApiResponse.t A
}.
Arguments mk {A} _ _.
Arguments statusCode {A} _.
Arguments body {A} _.
End HttpResponse.

(** [res.status(statusCode).json(result)] *)
Definition json {A : Type} (statusCode : Z) (result : ApiResponse.t A)
  : HttpResponse.t A :=
  {| HttpResponse.statusCode := statusCode; HttpResponse.body := result |}.

Definition sendResponse {A : Type} (data : A) (message : string)
  : HttpResponse.t A :=
  json 200 {| ApiResponse.success := true;
              ApiResponse.data := Some data;
              ApiResponse.message := message |}.

Definition sendError {A : Type} (message : string) (statusCode : Z)
  : HttpResponse.t A :=
  json statusCode {| ApiResponse.success := false;
                     ApiResponse.data := None;
                     ApiResponse.message := message |}.

(** [error instanceof Error && error.message === expected] *)
Definition is_Error_with (expected : string) (error : Exn) : bool :=
  match error with
  | Error message => String.eqb message expected
  | _ => false
  end.

Definition SurgeryController_create (createRequest : CreateSurgeryRequest.t)
  : M (HttpResponse.t SurgeryProcedure.t) :=
  try_catch
    (await result <- createSurgery createRequest ;
     ret (json 201 result))
    (fun error =>
       if is_Error_with "Patient not found" error
       then ret (sendError "Patient not found" 404)
       else ret (sendError "Failed to create surgery procedure" 500)).

Definition SurgeryController_confirmPorte (id : string)
    (confirmation : ConfirmPorteRequest.t) (now : Z)
  : M (HttpResponse.t SurgeryProcedure.t) :=
  try_catch
    (await result <- confirmPorte id confirmation now ;
     ret (json 200 result))
    (fun error =>
       if is_Error_with "Surgery procedure not found" error
       then ret (sendError "Surgery procedure not found" 404)
       else ret (sendError "Failed to confirm surgery porte" 500)).

Definition SurgeryController_updateStatus (id : string) (status : Status)
    (updatedBy : string) (now : Z)
  : M (HttpResponse.t SurgeryProcedure.t) :=
  try_catch
    (await result <- updateSurgeryStatus id status updatedBy now ;
     ret (json 200 result))
    (fun error =>
       if is_Error_with "Surgery procedure not found" error
       then ret (sendError "Surgery procedure not found" 404)
       else ret (sendError "Failed to update surgery status" 500)).

Definition SurgeryController_getById (id : string)
  : M (HttpResponse.t SurgeryProcedure.t) :=
  try_catch
    (await result <- getSurgeryById id ;
     ret (json 200 result))
    (fun error =>
       if is_Error_with "Surgery procedure not found" error
       then ret (sendError "Surgery procedure not found" 404)
       else ret (sendError "Failed to retrieve surgery procedure" 500)).

(** *** Sequences of requests

    The four requests of the surgery routes that reach [SurgeryService]
    with a procedure in hand, and what a sequence of them leaves behind.
    A request that writes [updatedAt] comes with the instant [now] at
    which it is served. *)

Inductive Request : Type :=
| Create (createRequest : CreateSurgeryRequest.t)
| GetById (id : string)
| ConfirmPorte (id : string) (confirmation : ConfirmPorteRequest.t)
    (now : Z)
| UpdateStatus (id : string) (status : Status) (updatedBy : string)
    (now : Z).

Definition handle (request : Request)
  : M (HttpResponse.t SurgeryProcedure.t) :=
  match request with
  | Create createRequest => SurgeryController_create createRequest
  | GetById id => SurgeryController_getById id
  | ConfirmPorte id confirmation now =>
      SurgeryController_confirmPorte id confirmation now
  | UpdateStatus id status updatedBy now =>
      SurgeryController_updateStatus id status updatedBy now
  end.

Definition serve (requests : list Request) (w : World) : World :=
  fold_left (fun w request => snd (handle request w)) requests w.

(** Every row is stored under its own id, and no two rows share a code. *)
Definition well_keyed (w : World) : Prop :=
  map_Forall (fun id row => Procedure.id row = id) (procedures w).

Definition codes_unique (w : World) : Prop :=
  forall id1 id2 row1 row2,
    procedures w !! id1 = Some row1 ->
    procedures w !! id2 = Some row2 ->
    Procedure.code row1 = Procedure.code row2 ->
    id1 = id2.

(** Each request either leaves the world as it is, or writes one row
    (a new one under an unused id, or a stored one under its id) and
    appends to the audit trail and to the events. *)
Inductive step_shape (w w' : World) : Prop :=
| step_none : w' = w -> step_shape w w'
| step_insert (row : Procedure.t) (evs : list Event) :
    procedures w !! Procedure.id row = None ->
    code_taken (Procedure.code row) (procedures w) = false ->
    w' = mkWorld (patients w) (<[Procedure.id row := row]> (procedures w))
                 (auditLogs w) (outbox w ++ evs)%list (busAccepts w) ->
    step_shape w w'
| step_update (id : string) (old new : Procedure.t) (log : AuditLog.t)
    (evs : list Event) :
    procedures w !! id = Some old ->
    Procedure.id new = Procedure.id old ->
    Procedure.code new = Procedure.code old ->
    w' = mkWorld (patients w) (<[id := new]> (procedures w))
                 (auditLogs w ++ [log])%list (outbox w ++ evs)%list
                 (busAccepts w) ->
    step_shape w w'.

(** ** PortValidator: [ProcedureController.validatePorte] *)

(** A field of a parsed JSON body. [JNum n] is an integral number below
    [10^21] in magnitude, the range in which [ToString] writes a number
    as its decimal numeral; numbers with a fraction are outside the model.
    [JNaN] is the number [NaN]: no parsed body contains it, [parseInt]
    produces it. *)
Inductive JsValue : Type :=
| JUndefined
| JNull
| JBool (b : bool)
| JNum (n : Z)
| JNaN
| JStr (s : string).

(** ToBoolean *)
Definition truthy (v : JsValue) : bool :=
  match v with
  | JUndefined | JNull | JNaN => false
  | JBool b => b
  | JNum n => negb (n =? 0)
  | JStr s => negb (String.eqb s "")
  end.

(** The white space and the line terminators skipped by [parseInt]. A
    string is the sequence of the bytes of its UTF-8 encoding: those of
    one byte are the space and U+0009 to U+000D; U+00A0 takes two bytes;
    U+1680, U+2000 to U+200A, U+2028, U+2029, U+202F, U+205F, U+3000 and
    U+FEFF take three. *)
Definition is_space (a : ascii) : bool :=
  let n := Z.of_nat (nat_of_ascii a) in
  (n =? 32) || ((9 <=? n) && (n <=? 13)).

Definition is_space2 (a b : ascii) : bool :=
  (Z.of_nat (nat_of_ascii a) =? 194) && (Z.of_nat (nat_of_ascii b) =? 160).

Definition is_space3 (a b c : ascii) : bool :=
  let a := Z.of_nat (nat_of_ascii a) in
  let b := Z.of_nat (nat_of_ascii b) in
  let c := Z.of_nat (nat_of_ascii c) in
  ((a =? 225) && (b =? 154) && (c =? 128))
  || ((a =? 226) && (b =? 128)
      && (((128 <=? c) && (c <=? 138)) || (c =? 168) || (c =? 169)
          || (c =? 175)))
  || ((a =? 226) && (b =? 129) && (c =? 159))
  || ((a =? 227) && (b =? 128) && (c =? 128))
  || ((a =? 239) && (b =? 187) && (c =? 191)).

Fixpoint trimStart (s : string) : string :=
  match s with
  | String a rest =>
      if is_space a then trimStart rest
      else
        match rest with
        | String b rest2 =>
            if is_space2 a b then trimStart rest2
            else
              match rest2 with
              | String c rest3 =>
                  if is_space3 a b c then trimStart rest3 else s
              | EmptyString => s
              end
        | EmptyString => s
        end
  | EmptyString => s
  end.

Definition digit_value (a : ascii) : option Z :=
  let n := Z.of_nat (nat_of_ascii a) in
  if (48 <=? n) && (n <=? 57) then Some (n - 48)
  else if (97 <=? n) && (n <=? 122) then Some (n - 87)
  else if (65 <=? n) && (n <=? 90) then Some (n - 55)
  else None.

(** The longest prefix of radix-[radix] digits, as a number; [acc] is
    [None] as long as no digit has been read. *)
Fixpoint digits_prefix (radix : Z) (acc : option Z) (s : string) : option Z :=
  match s with
  | String a rest =>
      match digit_value a with
      | Some d =>
          if d <? radix
          then digits_prefix radix (Some (radix * default 0 acc + d)) rest
          else acc
      | None => acc
      end
  | EmptyString => acc
  end.

(** [parseInt(string)] with no radix argument; [None] is [NaN]. *)
Definition parseInt_string (s : string) : option Z :=
  let s := trimStart s in
  let '(sign, s) :=
    match s with
    | String "-" rest => (-1, rest)
    | String "+" rest => (1, rest)
    | _ => (1, s)
    end in
  let '(radix, s) :=
    match s with
    | String "0" (String "x" rest) | String "0" (String "X" rest) => (16, rest)
    | _ => (10, s)
    end in
  Z.mul sign <$> digits_prefix radix None s.

(** [parseInt(v)] applies [ToString] first: ["undefined"], ["null"],
    ["true"], ["false"] and ["NaN"] start with no decimal digit. *)
Definition parseInt (v : JsValue) : option Z :=
  match v with
  | JNum n => Some n
  | JStr s => parseInt_string s
  | JUndefined | JNull | JBool _ | JNaN => None
  end.

Definition js_number (x : option Z) : JsValue :=
  match x with
  | Some n => JNum n
  | None => JNaN
  end.

(** Arithmetic and comparisons on a possibly-[NaN] integer: a comparison
    with [NaN] is false. *)
Definition num_ge (a : option Z) (b : Z) : bool :=
  match a with Some x => b <=? x | None => false end.

Definition num_le (a : option Z) (b : Z) : bool :=
  match a with Some x => x <=? b | None => false end.

Definition num_eq (a : option Z) (b : Z) : bool :=
  match a with Some x => x =? b | None => false end.

Definition num_sub (a : option Z) (b : Z) : option Z := (fun x => x - b) <$> a.

Definition Math_abs (a : option Z) : option Z := Z.abs <$> a.

(** ToString of a possibly-[NaN] integer inside a template literal. *)
Definition num_toString (a : option Z) : string :=
  match a with Some x => pretty x | None => "NaN" end.

(** A row of the table [port_validation_rules]. *)
Module PortValidationRule.
Record t : Type := mk {
  procedureCode : string;
  minimumPort : Z;
  maximumPort : Z;
  recommendedPort : Z;
  isActive : bool
}.
End PortValidationRule.

(** The body of [POST /validate-porte]. *)
Module ValidatePorteRequest.
Record t : Type := mk {
  procedureCode : JsValue;
  reportedPorte : JsValue
}.
End ValidatePorteRequest.

(** The verdict object sent back; the branch without a rule leaves
    [minimumPorte] and [maximumPorte] out. *)
Module PorteVerdict.
Record t : Type := mk {
  isValid : bool;
  procedureCode : JsValue;
  reportedPorte : JsValue;
  expectedPorte : JsValue;
  minimumPorte : option Z;
  maximumPorte : option Z;
  severity : Severity.t;
  message : string
}.
End PorteVerdict.

(** [prisma.portValidationRule.findFirst({ where: { procedureCode,
    isActive: true } })]. The column is text: the client refuses any other
    kind of value with a validation error. *)
Definition portValidationRule_findFirst (rules : list PortValidationRule.t)
    (procedureCode : JsValue)
  : Completion (option PortValidationRule.t) :=
  match procedureCode with
  | JStr code =>
      Return (List.find
                (fun rule =>
                   String.eqb (PortValidationRule.procedureCode rule) code
                   && PortValidationRule.isActive rule)
                rules)
  | _ => Throw (PrismaError "PrismaClientValidationError")
  end.

Definition validatePorte (rules : list PortValidationRule.t)
    (body : ValidatePorteRequest.t)
  : HttpResponse.t PorteVerdict.t :=
  let procedureCode := ValidatePorteRequest.procedureCode body in
  let reportedPorte := ValidatePorteRequest.reportedPorte body in
  if negb (truthy procedureCode) || negb (truthy reportedPorte)
  then sendError "procedureCode and reportedPorte are required" 400
  else
    match portValidationRule_findFirst rules procedureCode with
    | Throw error => sendError "Failed to validate porte" 500
    | Return None =>
        sendResponse
          {| PorteVerdict.isValid := true;
             PorteVerdict.procedureCode := procedureCode;
             PorteVerdict.reportedPorte := reportedPorte;
             PorteVerdict.expectedPorte := reportedPorte;
             PorteVerdict.minimumPorte := None;
             PorteVerdict.maximumPorte := None;
             PorteVerdict.severity := Severity.INFO;
             PorteVerdict.message :=
               "No validation rule found for this procedure" |}
          "Porte validated successfully"
    | Return (Some rule) =>
        let reportedPorteNum := parseInt reportedPorte in
        let isValid :=
          num_ge reportedPorteNum (PortValidationRule.minimumPort rule)
          && num_le reportedPorteNum (PortValidationRule.maximumPort rule) in
        let expectedPorte := PortValidationRule.recommendedPort rule in
        let severity :=
          if negb isValid then
            let diff := Math_abs (num_sub reportedPorteNum expectedPorte) in
            if num_ge diff 2 then Severity.HIGH
            else if num_eq diff 1 then Severity.MEDIUM
            else Severity.LOW
          else Severity.INFO in
        sendResponse
          {| PorteVerdict.isValid := isValid;
             PorteVerdict.procedureCode := procedureCode;
             PorteVerdict.reportedPorte := js_number reportedPorteNum;
             PorteVerdict.expectedPorte := JNum expectedPorte;
             PorteVerdict.minimumPorte :=
               Some (PortValidationRule.minimumPort rule);
             PorteVerdict.maximumPorte :=
               Some (PortValidationRule.maximumPort rule);
             PorteVerdict.severity := severity;
             PorteVerdict.message :=
               if isValid then "Porte is within acceptable range"
               else "Porte divergence detected. Expected: "
                      ++ pretty expectedPorte ++ ", Reported: "
                      ++ num_toString reportedPorteNum |}
          "Porte validated successfully"
    end.

(** ** AnalyticsAggregator: [AnalyticsService.getEfficiencyMetrics] *)

Module ProcedureEfficiency.
Record t : Type := mk {
  procedimentos_no_prazo : Z;
  procedimentos_atrasados : Z;
  taxa_pontualidade : number;
  tempo_medio_atraso : number;
  utilizacao_sala : option number;   (* [None]: not a finite number *)
  procedimentos_por_dia : number
}.
End ProcedureEfficiency.

(** The four [let] variables the [forEach] callback updates. *)
Module Tally.
Record t : Type := mk {
  procedimentos_no_prazo : Z;
  procedimentos_atrasados : Z;
  total_atraso : number;
  total_duracao : number
}.
End Tally.

Definition Math_ceil (x : number) : Z := Qceiling x.

(** [performedDate - scheduledDate] in hours, for a row that has both. *)
Definition diffHours (scheduled performed : Z) : number :=
  (inject_Z (performed - scheduled) / inject_Z (1000 * 60 * 60))%Q.

(** The callback of [procedures.forEach]. *)
Definition tally_step (acc : Tally.t) (proc : Procedure.t) : Tally.t :=
  let acc :=
    match Procedure.scheduledDate proc, Procedure.performedDate proc with
    | Some scheduled, Some performed =>
        let diffHours := diffHours scheduled performed in
        if Qle_bool diffHours 1
        then Tally.mk (Tally.procedimentos_no_prazo acc + 1)
                      (Tally.procedimentos_atrasados acc)
                      (Tally.total_atraso acc)
                      (Tally.total_duracao acc)
        else Tally.mk (Tally.procedimentos_no_prazo acc)
                      (Tally.procedimentos_atrasados acc + 1)
                      (Tally.total_atraso acc + diffHours)%Q
                      (Tally.total_duracao acc)
    | _, _ => acc
    end in
  match Procedure.duration proc with
  | Some duration =>
      if Qeq_bool duration 0 then acc
      else Tally.mk (Tally.procedimentos_no_prazo acc)
                    (Tally.procedimentos_atrasados acc)
                    (Tally.total_atraso acc)
                    (Tally.total_duracao acc + duration)%Q
  | None => acc
  end.

(** Lines 268 to 302 of [getEfficiencyMetrics]: from the rows the query
    returned and the resolved window to the metrics. *)
Definition efficiencyOf (procedures : list Procedure.t)
    (startDate endDate : Z) : ProcedureEfficiency.t :=
  let acc := fold_left tally_step procedures (Tally.mk 0 0 0%Q 0%Q) in
  let total := Z.of_nat (length procedures) in
  let dias :=
    Math_ceil (inject_Z (endDate - startDate)
               / inject_Z (1000 * 60 * 60 * 24))%Q in
  {| ProcedureEfficiency.procedimentos_no_prazo :=
       Tally.procedimentos_no_prazo acc;
     ProcedureEfficiency.procedimentos_atrasados :=
       Tally.procedimentos_atrasados acc;
     ProcedureEfficiency.taxa_pontualidade :=
       if 0 <? total
       then (inject_Z (Tally.procedimentos_no_prazo acc) / inject_Z total
             * 100)%Q
       else 0%Q;
     ProcedureEfficiency.tempo_medio_atraso :=
       if 0 <? Tally.procedimentos_atrasados acc
       then (Tally.total_atraso acc
             / inject_Z (Tally.procedimentos_atrasados acc))%Q
       else 0%Q;
     ProcedureEfficiency.utilizacao_sala :=
       if dias =? 0 then None
       else Some (Tally.total_duracao acc / inject_Z (dias * 24 * 60)
                  * 100)%Q;
     ProcedureEfficiency.procedimentos_por_dia :=
       if 0 <? dias then (inject_Z total / inject_Z dias)%Q else 0%Q |}.

(** The [findMany] of [getEfficiencyMetrics] over the resolved window.
    [getPeriodDates], which resolves a period token with the calendar of
    the local time zone, is embedded further down for the time zone UTC. *)
Definition performed_in_window (hId : string) (startDate endDate : Z)
    (proc : Procedure.t) : bool :=
  bool_decide (Procedure.hospitalId proc = Some hId)
  && match Procedure.performedDate proc with
     | Some performed => (startDate <=? performed) && (performed <=? endDate)
     | None => false
     end.

Definition getEfficiencyMetrics (hId : string) (startDate endDate : Z)
    (w : World) : ProcedureEfficiency.t :=
  let procedures :=
    List.filter (performed_in_window hId startDate endDate)
                (snd <$> map_to_list (procedures w)) in
  efficiencyOf procedures startDate endDate.

(** ** More of [SurgeryService] *)

(** *** [getPendingSurgeries]

    A row as the query of [getPendingSurgeries] returns it: the columns of
    [Procedure.t], the joined patient, and the column [createdAt]. The
    local time zone is UTC, as in the image the Dockerfile builds
    (node:18-alpine, no TZ): the local midnight before an instant is the
    last multiple of a day. *)
Module PendingRow.
Record t : Type := mk {
  row : Procedure.t;
  patient : option Patient;
  createdAt : Z
}.
End PendingRow.

Module PendingSurgerySummary.
Record t : Type := mk {
  totalPending : Z;
  pendingAuthorization : Z;
  pendingAudit : Z;
  scheduledToday : Z;
  scheduledThisWeek : Z;
  recentActivity : list SurgeryProcedure.t
}.
End PendingSurgerySummary.

Definition day_ms : Z := 24 * 60 * 60 * 1000.

(** [new Date(now.getFullYear(), now.getMonth(), now.getDate())] *)
Definition startOfDay (now : Z) : Z := now - now mod day_ms.

(** [procedures.filter(f).length] *)
Definition filter_length {A : Type} (f : A -> bool) (l : list A) : Z :=
  Z.of_nat (length (List.filter f l)).

(** The [where] of the query: tagged as surgery, and SCHEDULED or
    CONFIRMED. *)
Definition is_pending (row : Procedure.t) : bool :=
  existsb (String.eqb "surgery") (Procedure.tags row)
  && bool_decide (Procedure.status row ∈ [SCHEDULED; CONFIRMED]).

(** Lines 359 to 377 of [getPendingSurgeries]: from the rows the query
    returned, in its order, and the current instant to the summary. *)
Definition pendingSummaryOf (procedures : list PendingRow.t) (now : Z)
  : PendingSurgerySummary.t :=
  let today := startOfDay now in
  let nextWeek := today + 7 * 24 * 60 * 60 * 1000 in
  {| PendingSurgerySummary.totalPending := Z.of_nat (length procedures);
     PendingSurgerySummary.pendingAuthorization :=
       filter_length
         (fun p => Procedure.requiresAuthorization (PendingRow.row p))
         procedures;
     PendingSurgerySummary.pendingAudit :=
       filter_length
         (fun p => requiresAudit (Procedure.complexity (PendingRow.row p)))
         procedures;
     PendingSurgerySummary.scheduledToday :=
       filter_length
         (fun p =>
            let scheduledDate := PendingRow.createdAt p + 24 * 60 * 60 * 1000 in
            (today <=? scheduledDate)
            && (scheduledDate <? today + 24 * 60 * 60 * 1000))
         procedures;
     PendingSurgerySummary.scheduledThisWeek :=
       filter_length
         (fun p =>
            let scheduledDate := PendingRow.createdAt p + 24 * 60 * 60 * 1000 in
            (today <=? scheduledDate) && (scheduledDate <? nextWeek))
         procedures;
     PendingSurgerySummary.recentActivity :=
       (fun p => mapProcedureToSurgery (PendingRow.row p, PendingRow.patient p))
         <$> firstn 10 procedures |}.

(** *** Pagination of [searchSurgeries]

    [PaginationParams] as the service receives it, and the [pagination]
    object of its answer (lines 199 to 206) with the window of the query
    (lines 186 and 187). *)
Module PaginationParams.
Record t : Type := mk { page : option Z; limit : option Z }.
End PaginationParams.

Module PaginationInfo.
Record t : Type := mk {
  page : Z;
  limit : Z;
  total : Z;
  totalPages : Z;
  hasNext : bool;
  hasPrev : bool
}.
End PaginationInfo.

(** [x || d] where [x] is an integer or [undefined]. *)
Definition or_integer (x : option Z) (d : Z) : Z :=
  match x with
  | Some v => if v =? 0 then d else v
  | None => d
  end.

(** [Math.ceil(total / limit)] on integers, [limit] not zero. *)
Definition ceil_div (total limit : Z) : Z :=
  Math_ceil (inject_Z total / inject_Z limit)%Q.

Definition searchSurgeries_skip (pagination : PaginationParams.t) : Z :=
  (or_integer (PaginationParams.page pagination) 1 - 1)
  * or_integer (PaginationParams.limit pagination) 10.

Definition searchSurgeries_take (pagination : PaginationParams.t) : Z :=
  or_integer (PaginationParams.limit pagination) 10.

Definition searchSurgeries_pagination (pagination : PaginationParams.t)
    (total : Z) : PaginationInfo.t :=
  {| PaginationInfo.page := or_integer (PaginationParams.page pagination) 1;
     PaginationInfo.limit := or_integer (PaginationParams.limit pagination) 10;
     PaginationInfo.total := total;
     PaginationInfo.totalPages :=
       ceil_div total (or_integer (PaginationParams.limit pagination) 10);
     PaginationInfo.hasNext :=
       or_integer (PaginationParams.page pagination) 1
       <? ceil_div total (or_integer (PaginationParams.limit pagination) 10);
     PaginationInfo.hasPrev :=
       1 <? or_integer (PaginationParams.page pagination) 1 |}.

(** [SurgeryController.list]: [parseInt(req.query.page) || 1] and
    [parseInt(req.query.limit) || 20]; a query parameter is a string or
    absent, and [NaN || d] is [d]. *)
Definition SurgeryController_list_pagination (page limit : JsValue)
  : PaginationParams.t :=
  {| PaginationParams.page := Some (or_integer (parseInt page) 1);
     PaginationParams.limit := Some (or_integer (parseInt limit) 20) |}.

(** ** More of [AnalyticsService] *)

(** *** Dates

    The calendar of a JavaScript [Date] in the time zone UTC: the day
    number of a civil date and back (proleptic Gregorian calendar, days
    counted from 1970-01-01, months from 1 here), as [MakeDay] and
    [YearFromTime], [MonthFromTime], [DateFromTime] compute them. *)
Definition days_from_civil (y m d : Z) : Z :=
  let y := if m <=? 2 then y - 1 else y in
  let era := y / 400 in
  let yoe := y - era * 400 in
  let doy := (153 * (if 2 <? m then m - 3 else m + 9) + 2) / 5 + d - 1 in
  let doe := yoe * 365 + yoe / 4 - yoe / 100 + doy in
  era * 146097 + doe - 719468.

Definition civil_from_days (z : Z) : Z * Z * Z :=
  let z := z + 719468 in
  let era := z / 146097 in
  let doe := z - era * 146097 in
  let yoe := (doe - doe / 1460 + doe / 36524 - doe / 146096) / 365 in
  let y := yoe + era * 400 in
  let doy := doe - (365 * yoe + yoe / 4 - yoe / 100) in
  let mp := (5 * doy + 2) / 153 in
  let d := doy - (153 * mp + 2) / 5 + 1 in
  let m := if mp <? 10 then mp + 3 else mp - 9 in
  (if m <=? 2 then y + 1 else y, m, d).

(** The leap days up to the end of year [y], counted from the year 0 of
    the proleptic calendar. *)
Definition leap_days (y : Z) : Z := y / 4 - y / 100 + y / 400.

(** [MakeDay(year, month, 1) + date - 1] for a month index that may lie
    outside 1..12: the year absorbs the overflow, and a day of the month
    the target month lacks runs over into the next month. *)
Definition make_day (y m d : Z) : Z :=
  days_from_civil (y + (m - 1) / 12) ((m - 1) mod 12 + 1) 1 + d - 1.

(** [startDate.setMonth(startDate.getMonth() - months)] on a date at
    midnight, and [setFullYear(getFullYear() - years)]. *)
Definition minus_months (months : Z) (t : Z) : Z :=
  let '(y, m, d) := civil_from_days (t / day_ms) in
  make_day y (m - months) d * day_ms.

Definition minus_years (years : Z) (t : Z) : Z :=
  let '(y, m, d) := civil_from_days (t / day_ms) in
  make_day (y - years) m d * day_ms.

(** [getPeriodDates]: [date] is the [getTime ()] of a valid date, and the
    local time zone is UTC, as in the container the service is built into
    (no TZ is set there). [setHours], [setDate], [setMonth] and
    [setFullYear] then work on the UTC calendar; time values beyond the
    range of a [Date] are not distinguished. *)
Definition getPeriodDates (period : string) (date : Z)
  : Completion (Z * Z) :=
  let endDate := startOfDay date + (23 * 3600000 + 59 * 60000 + 59 * 1000 + 999) in
  let startDate := startOfDay date in
  if String.eqb period "day" then Return (startDate, endDate)
  else if String.eqb period "week"
  then Return (startDate - 7 * day_ms, endDate)
  else if String.eqb period "month"
  then Return (minus_months 1 startDate, endDate)
  else if String.eqb period "quarter"
  then Return (minus_months 3 startDate, endDate)
  else if String.eqb period "year"
  then Return (minus_years 1 startDate, endDate)
  else Throw (Error ("Período inválido: " ++ period)).

(** [getEfficiencyMetrics] with its period token: the window is resolved
    first, and an unknown token is rethrown to the caller before any
    query. Then comes the [findMany], which the database answers or, when
    it cannot be reached ([reachable] is false; error P1001), rejects;
    the [catch] of the method logs and rethrows either failure. *)
Definition getEfficiencyMetrics_for (period : string) (date : Z)
    (hId : string) (reachable : bool) (w : World)
  : Completion ProcedureEfficiency.t :=
  match getPeriodDates period date with
  | Return (startDate, endDate) =>
      if reachable
      then Return (getEfficiencyMetrics hId startDate endDate w)
      else Throw (PrismaError "P1001")
  | Throw error => Throw error
  end.

(** *** [getCategoryAnalysis]

    A row of the raw query: the four selected columns. A [Decimal] is an
    object, hence truthy; [complexity] is compared with the label HIGH. *)
Module CategoryRow.
Record t : Type := mk {
  basePrice : option number;
  duration : option number;
  complexity : Complexity;
  complications : option string
}.
End CategoryRow.

Module CategoryAnalysis.
Record t : Type := mk {
  categoria : string;
  total_procedimentos : Z;
  valor_total : number;
  duracao_total : number;
  duracao_media : number;
  procedimentos_complexos : Z;
  taxa_complicacoes : number
}.
End CategoryAnalysis.

(** ToBoolean of a text column: [null] and the empty string are falsy. *)
Definition truthy_text (x : option string) : bool :=
  match x with
  | Some v => negb (String.eqb v "")
  | None => false
  end.

(** Lines 339 to 353 of [getCategoryAnalysis]. *)
Definition categoryAnalysisOf (category : string)
    (procedures : list CategoryRow.t) : CategoryAnalysis.t :=
  let total_procedimentos := Z.of_nat (length procedures) in
  let valor_total :=
    fold_left (fun sum p => (sum + decimal_or_zero (CategoryRow.basePrice p))%Q)
              procedures 0%Q in
  let duracao_total :=
    fold_left (fun sum p => (sum + or_number (CategoryRow.duration p) 0)%Q)
              procedures 0%Q in
  let procedimentos_complexos :=
    filter_length
      (fun p => bool_decide (CategoryRow.complexity p = HIGH_COMPLEXITY))
      procedures in
  let com_complicacoes :=
    filter_length (fun p => truthy_text (CategoryRow.complications p))
                  procedures in
  {| CategoryAnalysis.categoria := category;
     CategoryAnalysis.total_procedimentos := total_procedimentos;
     CategoryAnalysis.valor_total := valor_total;
     CategoryAnalysis.duracao_total := duracao_total;
     CategoryAnalysis.duracao_media :=
       if 0 <? total_procedimentos
       then (duracao_total / inject_Z total_procedimentos)%Q else 0%Q;
     CategoryAnalysis.procedimentos_complexos := procedimentos_complexos;
     CategoryAnalysis.taxa_complicacoes :=
       if 0 <? total_procedimentos
       then (inject_Z com_complicacoes / inject_Z total_procedimentos * 100)%Q
       else 0%Q |}.

(** *** [getProcedureStats]

    The statistics over a resolved window, from the rows of the table
    with their column [createdAt]. The seven queries see the same rows. *)
Module ProcedureStats.
Record t : Type := mk {
  total_procedimentos : Z;
  realizados : Z;
  agendados : Z;
  cancelados : Z;
  taxa_realizacao : number;
  duracao_media : number;
  valor_total : number;
  valor_medio : number;
  por_categoria : list (string * Z * number);
  por_complexidade : list (Complexity * Z * number)
}.
End ProcedureStats.

Definition in_window (startDate endDate t : Z) : bool :=
  (startDate <=? t) && (t <=? endDate).

(** The four [where] clauses. *)
Definition created_in (hId : string) (startDate endDate : Z)
    (r : PendingRow.t) : bool :=
  bool_decide (Procedure.hospitalId (PendingRow.row r) = Some hId)
  && in_window startDate endDate (PendingRow.createdAt r).

Definition performed_in (hId : string) (startDate endDate : Z)
    (r : PendingRow.t) : bool :=
  performed_in_window hId startDate endDate (PendingRow.row r).

Definition scheduled_in (hId : string) (startDate endDate : Z)
    (r : PendingRow.t) : bool :=
  bool_decide (Procedure.hospitalId (PendingRow.row r) = Some hId)
  && bool_decide (Procedure.status (PendingRow.row r) = SCHEDULED)
  && match Procedure.scheduledDate (PendingRow.row r) with
     | Some t => in_window startDate endDate t
     | None => false
     end.

Definition cancelled_in (hId : string) (startDate endDate : Z)
    (r : PendingRow.t) : bool :=
  created_in hId startDate endDate r
  && bool_decide (Procedure.status (PendingRow.row r) = CANCELLED).

(** [_sum] and [_avg] of a column over the rows found: [null] when no row
    has a value. *)
Definition aggregate_sum (values : list number) : option number :=
  match values with
  | [] => None
  | _ => Some (fold_right Qplus 0%Q values)
  end.

Definition aggregate_avg (values : list number) : option number :=
  match values with
  | [] => None
  | _ => Some (fold_right Qplus 0%Q values
               / inject_Z (Z.of_nat (length values)))%Q
  end.

(** [groupBy({ by: [key], _count: { id: true } })]: one group for each
    value of the key that occurs, with the number of its rows. *)
Definition groupBy_count {A K : Type} `{EqDecision K} (key : A -> K)
    (rows : list A) : list (K * Z) :=
  map (fun k => (k, filter_length (fun r => bool_decide (key r = k)) rows))
      (remove_dups (map key rows)).

Definition percentual (realizados quantidade : Z) : number :=
  if 0 <? realizados
  then (inject_Z quantidade / inject_Z realizados * 100)%Q
  else 0%Q.

Definition getProcedureStats (hId : string) (startDate endDate : Z)
    (rows : list PendingRow.t) : ProcedureStats.t :=
  let performed := List.filter (performed_in hId startDate endDate) rows in
  let total_procedimentos :=
    filter_length (created_in hId startDate endDate) rows in
  let realizados := Z.of_nat (length performed) in
  let durations : list number :=
    omap (fun r => Procedure.duration (PendingRow.row r)) performed in
  let prices : list number :=
    omap (fun r => Procedure.basePrice (PendingRow.row r)) performed in
  {| ProcedureStats.total_procedimentos := total_procedimentos;
     ProcedureStats.realizados := realizados;
     ProcedureStats.agendados :=
       filter_length (scheduled_in hId startDate endDate) rows;
     ProcedureStats.cancelados :=
       filter_length (cancelled_in hId startDate endDate) rows;
     ProcedureStats.taxa_realizacao :=
       if 0 <? total_procedimentos
       then (inject_Z realizados / inject_Z total_procedimentos * 100)%Q
       else 0%Q;
     ProcedureStats.duracao_media := or_number (aggregate_avg durations) 0%Q;
     ProcedureStats.valor_total := decimal_or_zero (aggregate_sum prices);
     ProcedureStats.valor_medio := decimal_or_zero (aggregate_avg prices);
     ProcedureStats.por_categoria :=
       map (fun g => (fst g, snd g, percentual realizados (snd g)))
           (groupBy_count (fun r => Procedure.category (PendingRow.row r))
                          performed);
     ProcedureStats.por_complexidade :=
       map (fun g => (fst g, snd g, percentual realizados (snd g)))
           (groupBy_count (fun r => Procedure.complexity (PendingRow.row r))
                          performed) |}.

(** The sum of a list of integers. *)
Definition Zsum (l : list Z) : Z := fold_right Z.add 0 l.

(** *** [AnalyticsController.getEfficiency]

    The body of an analytics answer: [data], [period] and [date] on
    success, [error] on failure. *)
Module AnalyticsResponse.
Record t (A : Type) : Type := mk {
  success : bool;
  data : option A;
  period : option string;
  date : option string;
  error : option string
}.
Arguments mk {A} _ _ _ _ _.
Arguments success {A} _.
Arguments data {A} _.
Arguments period {A} _.
Arguments date {A} _.
Arguments error {A} _.
End AnalyticsResponse.

(** [n] in decimal, with zeros in front up to [width] characters. *)
Definition pad (width : nat) (n : Z) : string :=
  let digits := pretty n in
  String.append
    (string_of_list_ascii
       (repeat "0"%char (width - String.length digits)))
    digits.

(** [toISOString().split('T')[0]]: the UTC day of a time value, with a
    year of four digits, or a sign and six digits outside 0..9999. *)
Definition iso_date (t : Z) : string :=
  let '(y, m, d) := civil_from_days (t / day_ms) in
  let year :=
    if (0 <=? y) && (y <=? 9999) then pad 4 y
    else String.append (if y <? 0 then "-" else "+") (pad 6 (Z.abs y)) in
  String.append year
    (String.append "-" (String.append (pad 2 m) (String.append "-" (pad 2 d)))).

(** [getEfficiency] for the query parameter [period], absent or a
    string, and the date [targetDate] the controller builds from the
    parameter [date], the current instant without one; [None] is an
    invalid date, on which the service or at the latest [toISOString]
    throws. The service is called without a hospital and uses its own.
    [reachable] tells whether the database answers the query. *)
Definition AnalyticsController_getEfficiency (period : option string)
    (targetDate : option Z) (reachable : bool) (w : World)
  : Z * AnalyticsResponse.t ProcedureEfficiency.t :=
  let period := default "month" period in
  let failure :=
    (500, AnalyticsResponse.mk false None None None
            (Some "Erro ao buscar métricas de eficiência")) in
  match targetDate with
  | Some t =>
      match getEfficiencyMetrics_for period t "hosp_sagrada_familia_001"
              reachable w with
      | Return efficiency =>
          (200, AnalyticsResponse.mk true (Some efficiency) (Some period)
                  (Some (iso_date t)) None)
      | Throw _ => failure
      end
  | None => failure
  end.

(** ** The authentication middleware *)

Module JWTPayload.
Record t : Type := mk {
  userId : string;
  email : string;
  role : string
}.
End JWTPayload.

(** How [jwt.verify] ends: with the decoded payload, or by throwing a
    [TokenExpiredError], another [JsonWebTokenError], or something else. *)
Inductive JwtVerified : Type :=
| JwtDecoded (decoded : JWTPayload.t)
| JwtTokenExpiredError
| JwtJsonWebTokenError
| JwtOtherError.

(** What a middleware does with a request: it calls [next ()], here with
    what it has attached to the request, or it answers. *)
Inductive Middleware (A : Type) : Type :=
| Next (attached : A)
| Answers (statusCode : Z) (message : string).
Arguments Next {A} _.
Arguments Answers {A} _ _.

Section Auth.

(** [jwt.verify(token, config.jwtSecret)] *)
Variable jwt_verify : string -> JwtVerified.

Definition authMiddleware (authorization : option string)
  : Middleware JWTPayload.t :=
  match authorization with
  | Some authHeader =>
      if negb (String.eqb authHeader "") && startsWith authHeader "Bearer "
      then
        let token :=
          String.substring 7 (String.length authHeader - 7) authHeader in
        match jwt_verify token with
        | JwtDecoded decoded => Next decoded
        | JwtTokenExpiredError => Answers 401 "Token has expired"
        | JwtJsonWebTokenError => Answers 401 "Invalid token"
        | JwtOtherError => Answers 500 "Authentication error"
        end
      else Answers 401 "Access token is required"
  | None => Answers 401 "Access token is required"
  end.

End Auth.

Definition requireRole (role : string) (user : option JWTPayload.t)
  : Middleware unit :=
  match user with
  | None => Answers 401 "Authentication required"
  | Some user =>
      if String.eqb (JWTPayload.role user) role
      then Next tt
      else Answers 403 "Insufficient permissions"
  end.

Definition requirePermission (permission : string)
    (user : option JWTPayload.t) : Middleware unit :=
  match user with
  | None => Answers 401 "Authentication required"
  | Some _ => Next tt
  end.

(** [req.user] after [authMiddleware] has run. *)
Definition req_user (m : Middleware JWTPayload.t) : option JWTPayload.t :=
  match m with
  | Next decoded => Some decoded
  | Answers _ _ => None
  end.

(** ** More of [ProcedureController]: read, update and soft delete

    A row of [procedures] as the queries of this controller see it: the
    columns of [Procedure.t] and the further columns the controller reads
    or writes. *)
Module StoredProcedure.
Record t : Type := mk {
  row : Procedure.t;
  description : option string;
  actualPort : option Z;
  complications : option string;
  notes : option string;
  deletedAt : option Z
}.
End StoredProcedure.

(** The database behind the Prisma client of the controller: the table,
    and whether the server can be reached; every query rejects when it
    cannot. *)
Record Database : Type := mkDatabase {
  table : gmap string StoredProcedure.t;
  reachable : bool
}.

(** The fields [update] reads from the body of [PUT /:id]. *)
Module UpdateProcedureBody.
Record t : Type := mk {
  name : JsValue;
  description : JsValue;
  status : JsValue;
  actualPort : JsValue;
  performedDate : JsValue;
  duration : JsValue;
  complications : JsValue;
  notes : JsValue
}.
End UpdateProcedureBody.

(** A key of the [data] of a Prisma write: left out, given with a value
    of the type of its column, or given with a value Prisma rejects. *)
Inductive Field (A : Type) : Type :=
| Absent
| Given (v : A)
| Rejected.
Arguments Absent {A}.
Arguments Given {A} _.
Arguments Rejected {A}.

Definition Status_label (s : Status) : string :=
  match s with
  | SCHEDULED => "SCHEDULED"
  | CONFIRMED => "CONFIRMED"
  | IN_PROGRESS => "IN_PROGRESS"
  | COMPLETED => "COMPLETED"
  | CANCELLED => "CANCELLED"
  | POSTPONED => "POSTPONED"
  | PENDING_APPROVAL => "PENDING_APPROVAL"
  | APPROVED_STATUS => "APPROVED"
  | REJECTED_STATUS => "REJECTED"
  end.

Definition Status_of_label (label : string) : option Status :=
  List.find (fun s => String.eqb (Status_label s) label)
    [SCHEDULED; CONFIRMED; IN_PROGRESS; COMPLETED; CANCELLED; POSTPONED;
     PENDING_APPROVAL; APPROVED_STATUS; REJECTED_STATUS].

(** [...(x && { x })] for a text column, an [Int] column and the column
    [status]: a falsy [x] spreads nothing; a truthy one becomes the key
    [x], which Prisma accepts when the value has the type of the column. *)
Definition field_text (x : JsValue) : Field string :=
  if truthy x
  then match x with JStr s => Given s | _ => Rejected end
  else Absent.

Definition field_int (x : JsValue) : Field Z :=
  if truthy x
  then match x with
       | JNum n => if is_int32 n then Given n else Rejected
       | _ => Rejected
       end
  else Absent.

Definition field_status (x : JsValue) : Field Status :=
  if truthy x
  then match x with
       | JStr s =>
           match Status_of_label s with
           | Some status => Given status
           | None => Rejected
           end
       | _ => Rejected
       end
  else Absent.

Definition Field_map {A B : Type} (f : A -> B) (field : Field A) : Field B :=
  match field with
  | Absent => Absent
  | Given v => Given (f v)
  | Rejected => Rejected
  end.

(** The column after the write: the value given, or the old one. *)
Definition written {A : Type} (field : Field A) (old : A) : A :=
  match field with Given v => v | _ => old end.

Definition is_Rejected {A : Type} (field : Field A) : bool :=
  match field with Rejected => true | _ => false end.

Section ProcedureController.

(** [Date.parse]: the time value of a date string, [None] for a string
    that is not a date. *)
Variable Date_parse : string -> option Z.

(** [new Date(x)]; [None] is an invalid date. *)
Definition new_Date (x : JsValue) : option Z :=
  match x with
  | JStr s => Date_parse s
  | JNum n => if Z.abs n <=? 8640000000000000 then Some n else None
  | JBool b => Some (if b then 1 else 0)
  | JNull => Some 0
  | JUndefined | JNaN => None
  end.

(** [...(performedDate && { performedDate: new Date(performedDate) })] *)
Definition field_date (x : JsValue) : Field Z :=
  if truthy x
  then match new_Date x with Some t => Given t | None => Rejected end
  else Absent.

(** The row after [prisma.procedure.update] has written the [data] of
    [update]; a key left out keeps its column. *)
Definition update_data (body : UpdateProcedureBody.t)
    (existing : StoredProcedure.t) : StoredProcedure.t :=
  let row := StoredProcedure.row existing in
  {| StoredProcedure.row :=
       {| Procedure.id := Procedure.id row;
          Procedure.code := Procedure.code row;
          Procedure.name :=
            written (field_text (UpdateProcedureBody.name body))
                    (Procedure.name row);
          Procedure.category := Procedure.category row;
          Procedure.complexity := Procedure.complexity row;
          Procedure.estimatedDuration := Procedure.estimatedDuration row;
          Procedure.basePrice := Procedure.basePrice row;
          Procedure.status :=
            written (field_status (UpdateProcedureBody.status body))
                    (Procedure.status row);
          Procedure.patientId := Procedure.patientId row;
          Procedure.requiresAuthorization :=
            Procedure.requiresAuthorization row;
          Procedure.suggestedPort := Procedure.suggestedPort row;
          Procedure.tags := Procedure.tags row;
          Procedure.scheduledDate := Procedure.scheduledDate row;
          Procedure.performedDate :=
            written (Field_map Some
                       (field_date (UpdateProcedureBody.performedDate body)))
                    (Procedure.performedDate row);
          Procedure.duration :=
            written (Field_map (fun n => Some (inject_Z n))
                       (field_int (UpdateProcedureBody.duration body)))
                    (Procedure.duration row);
          Procedure.hospitalId := Procedure.hospitalId row;
          Procedure.updatedAt := Procedure.updatedAt row |};
     StoredProcedure.description :=
       written (Field_map Some
                  (field_text (UpdateProcedureBody.description body)))
               (StoredProcedure.description existing);
     StoredProcedure.actualPort :=
       written (Field_map Some
                  (field_int (UpdateProcedureBody.actualPort body)))
               (StoredProcedure.actualPort existing);
     StoredProcedure.complications :=
       written (Field_map Some
                  (field_text (UpdateProcedureBody.complications body)))
               (StoredProcedure.complications existing);
     StoredProcedure.notes :=
       written (Field_map Some (field_text (UpdateProcedureBody.notes body)))
               (StoredProcedure.notes existing);
     StoredProcedure.deletedAt := StoredProcedure.deletedAt existing |}.

(** Prisma validates the whole [data] before it writes anything. *)
Definition update_rejected (body : UpdateProcedureBody.t) : bool :=
  is_Rejected (field_text (UpdateProcedureBody.name body))
  || is_Rejected (field_text (UpdateProcedureBody.description body))
  || is_Rejected (field_status (UpdateProcedureBody.status body))
  || is_Rejected (field_int (UpdateProcedureBody.actualPort body))
  || is_Rejected (field_date (UpdateProcedureBody.performedDate body))
  || is_Rejected (field_int (UpdateProcedureBody.duration body))
  || is_Rejected (field_text (UpdateProcedureBody.complications body))
  || is_Rejected (field_text (UpdateProcedureBody.notes body)).

(** [prisma.procedure.findFirst({ where: { id, deletedAt: null } })] on a
    database that can be reached. *)
Definition findFirst_live (id : string) (db : Database)
  : option StoredProcedure.t :=
  match table db !! id with
  | Some existing =>
      match StoredProcedure.deletedAt existing with
      | None => Some existing
      | Some _ => None
      end
  | None => None
  end.

(** [getById]: the [catch] answers 404 as well. *)
Definition ProcedureController_getById (id : string) (db : Database)
  : HttpResponse.t StoredProcedure.t * Database :=
  if reachable db
  then match findFirst_live id db with
       | Some procedure =>
           (sendResponse procedure "Procedure retrieved successfully", db)
       | None => (sendError "Procedure not found" 404, db)
       end
  else (sendError "Procedure not found" 404, db).

Definition ProcedureController_update (id : string)
    (body : UpdateProcedureBody.t) (db : Database)
  : HttpResponse.t StoredProcedure.t * Database :=
  if reachable db
  then match findFirst_live id db with
       | Some existing =>
           if update_rejected body
           then (sendError "Failed to update procedure" 500, db)
           else
             let procedure := update_data body existing in
             (sendResponse procedure "Procedure updated successfully",
              mkDatabase (<[id := procedure]> (table db)) (reachable db))
       | None => (sendError "Procedure not found" 404, db)
       end
  else (sendError "Failed to update procedure" 500, db).

End ProcedureController.

(** The row after the soft delete: [data: { deletedAt: new Date() }]. *)
Definition delete_data (now : Z) (existing : StoredProcedure.t)
  : StoredProcedure.t :=
  {| StoredProcedure.row := StoredProcedure.row existing;
     StoredProcedure.description := StoredProcedure.description existing;
     StoredProcedure.actualPort := StoredProcedure.actualPort existing;
     StoredProcedure.complications := StoredProcedure.complications existing;
     StoredProcedure.notes := StoredProcedure.notes existing;
     StoredProcedure.deletedAt := Some now |}.

(** [delete], called at the instant [now]; the body of its answer carries
    [data: null]. *)
Definition ProcedureController_delete (id : string) (now : Z) (db : Database)
  : HttpResponse.t (option StoredProcedure.t) * Database :=
  if reachable db
  then match findFirst_live id db with
       | Some existing =>
           (sendResponse None "Procedure deleted successfully",
            mkDatabase (<[id := delete_data now existing]> (table db))
                       (reachable db))
       | None => (sendError "Procedure not found" 404, db)
       end
  else (sendError "Failed to delete procedure" 500, db).

(** A request to one of the three endpoints, and the database after a
    sequence of them. *)
Inductive ProcedureRequest : Type :=
| GetProcedure (id : string)
| UpdateProcedure (id : string) (body : UpdateProcedureBody.t)
| DeleteProcedure (id : string) (now : Z).

Definition ProcedureController_handle (Date_parse : string -> option Z)
    (request : ProcedureRequest) (db : Database) : Database :=
  match request with
  | GetProcedure id => snd (ProcedureController_getById id db)
  | UpdateProcedure id body =>
      snd (ProcedureController_update Date_parse id body db)
  | DeleteProcedure id now => snd (ProcedureController_delete id now db)
  end.

Definition ProcedureController_serve (Date_parse : string -> option Z)
    (requests : list ProcedureRequest) (db : Database) : Database :=
  fold_left (fun db request => ProcedureController_handle Date_parse request db)
            requests db.

(** What the three endpoints keep of a row, whatever the requests: the
    columns no [data] of theirs names, and a deletion once it is made. *)
Definition same_identity (old new : StoredProcedure.t) : Prop :=
  let o := StoredProcedure.row old in
  let n := StoredProcedure.row new in
  (Procedure.id n, Procedure.code n, Procedure.category n,
   Procedure.complexity n, Procedure.estimatedDuration n,
   Procedure.basePrice n, Procedure.patientId n,
   Procedure.requiresAuthorization n, Procedure.suggestedPort n,
   Procedure.tags n, Procedure.scheduledDate n, Procedure.hospitalId n)
  = (Procedure.id o, Procedure.code o, Procedure.category o,
     Procedure.complexity o, Procedure.estimatedDuration o,
     Procedure.basePrice o, Procedure.patientId o,
     Procedure.requiresAuthorization o, Procedure.suggestedPort o,
     Procedure.tags o, Procedure.scheduledDate o, Procedure.hospitalId o)
  /\ (StoredProcedure.deletedAt old = None \/ new = old).

Definition evolves (db db' : Database) : Prop :=
  reachable db' = reachable db
  /\ forall id,
       match table db !! id, table db' !! id with
       | Some old, Some new => same_identity old new
       | None, None => True
       | _, _ => False
       end.

(** *** The port validation written by [create]

    A row of [port_validations] as [create] writes it. *)
Module PortValidation.
Record t : Type := mk {
  procedureId : string;
  suggestedPort : Z;
  actualPort : Z;
  isValid : bool;
  discrepancy : Z;
  reason : option string;
  validatedBy : string;
  validatedAt : Z
}.
End PortValidation.

(** [a || b] *)
Definition js_or (a b : JsValue) : JsValue := if truthy a then a else b.

(** A value that has to fit an [Int] column. *)
Definition as_int (x : JsValue) : option Z :=
  match x with
  | JNum n => if is_int32 n then Some n else None
  | _ => None
  end.

(** [x || 0] as a number, for an [x] that is falsy or a number. *)
Definition or_zero (x : JsValue) : Z :=
  match x with
  | JNum n => n
  | _ => 0
  end.

(** Lines 219 to 239 of [create], called at the instant [now] for the
    procedure just stored: the row of [port_validations] that is written,
    or [None] when the condition fails or Prisma rejects the [data] (the
    [catch] logs that and goes on). [porteValidation] is [None] when the
    body has a falsy value there and the pair of its keys [isValid] and
    [reason] otherwise. Prisma accepts the [data] when every value has the
    type of its column; [suggestedPort] and [actualPort] between them
    carry every truthy one of the two ports, so in a [data] that is
    accepted each port is falsy or a number, and [discrepancy] is
    computed for those. *)
Definition create_portValidation (procedureId : string) (now : Z)
    (reportedPorte validatedPorte : JsValue)
    (porteValidation : option (JsValue * JsValue))
  : option PortValidation.t :=
  match porteValidation with
  | Some (isValid, reason) =>
      if truthy reportedPorte || truthy validatedPorte
      then
        match as_int (js_or (js_or validatedPorte reportedPorte) (JNum 1)),
              as_int (js_or (js_or reportedPorte validatedPorte) (JNum 1)),
              js_or isValid (JBool true),
              js_or reason JNull with
        | Some suggestedPort, Some actualPort, JBool isValid, reason =>
            let discrepancy :=
              Z.abs (or_zero validatedPorte - or_zero reportedPorte) in
            match reason with
            | JStr _ | JNull =>
                if is_int32 discrepancy
                then Some {| PortValidation.procedureId := procedureId;
                             PortValidation.suggestedPort := suggestedPort;
                             PortValidation.actualPort := actualPort;
                             PortValidation.isValid := isValid;
                             PortValidation.discrepancy := discrepancy;
                             PortValidation.reason :=
                               match reason with
                               | JStr s => Some s
                               | _ => None
                               end;
                             PortValidation.validatedBy := "system";
                             PortValidation.validatedAt := now |}
                else None
            | _ => None
            end
        | _, _, _, _ => None
        end
      else None
  | None => None
  end.

(** ** The two publishers: [EventBusService] and [KafkaService]

    The state of an [EventBusService]: whether [client] is an object
    ([false] when it is [null]), the flag [isConnected], the topics that
    have a sender, in the order of their creation, and the messages that
    were handed to a sender and accepted, each with its topic. The map
    [receivers] is never written to and is left out. *)
Module EventBus.
Record t : Type := mk {
  client : bool;
  isConnected : bool;
  senders : list string;
  delivered : list (string * string)
}.
End EventBus.

(** The state of a [KafkaService]. *)
Module Kafka.
Record t : Type := mk {
  isConnected : bool;
  produced : list (string * option string * string)
}.
End Kafka.

(** A call on the event bus. *)
Inductive BusCall : Type :=
| BusConnect
| BusDisconnect
| BusPublish (topic message : string).

Section Publishers.

(** What the clients of the two brokers answer: the error with which
    [sendMessages], a [close] or [producer.send] rejects, if it does. *)
Variable sendMessages_error : string -> string -> option Exn.
Variable sender_close_error : string -> option Exn.
Variable client_close_error : option Exn.
Variable producer_send_error : string -> string -> option Exn.

(** The constructor: a client is made when the connection string is not
    empty. *)
Definition EventBus_new (connectionString : string) : EventBus.t :=
  EventBus.mk (negb (String.eqb connectionString "")) false [] [].

Definition EventBus_connect (bus : EventBus.t) : Completion unit * EventBus.t :=
  if EventBus.client bus
  then (Return tt,
        EventBus.mk (EventBus.client bus) true (EventBus.senders bus)
                    (EventBus.delivered bus))
  else (Return tt, bus).

(** The first sender whose [close] rejects ends the loop with its error;
    nothing has been cleared by then. *)
Fixpoint close_senders (senders : list string) : option Exn :=
  match senders with
  | topic :: rest =>
      match sender_close_error topic with
      | Some error => Some error
      | None => close_senders rest
      end
  | [] => None
  end.

Definition EventBus_disconnect (bus : EventBus.t)
  : Completion unit * EventBus.t :=
  match close_senders (EventBus.senders bus) with
  | Some error => (Throw error, bus)
  | None =>
      if EventBus.client bus
      then match client_close_error with
           | Some error =>
               (Throw error,
                EventBus.mk true (EventBus.isConnected bus) []
                            (EventBus.delivered bus))
           | None =>
               (Return tt, EventBus.mk false false [] (EventBus.delivered bus))
           end
      else (Return tt, EventBus.mk false false [] (EventBus.delivered bus))
  end.

(** [message] stands for the object that is published; the body that is
    sent adds the keys [timestamp] and [version] to it. *)
Definition EventBus_publishEvent (topic message : string) (bus : EventBus.t)
  : Completion unit * EventBus.t :=
  if negb (EventBus.client bus) || negb (EventBus.isConnected bus)
  then (Return tt, bus)
  else
    let senders :=
      if existsb (String.eqb topic) (EventBus.senders bus)
      then EventBus.senders bus
      else (EventBus.senders bus ++ [topic])%list in
    match sendMessages_error topic message with
    | Some error =>
        (Throw error,
         EventBus.mk (EventBus.client bus) (EventBus.isConnected bus) senders
                     (EventBus.delivered bus))
    | None =>
        (Return tt,
         EventBus.mk (EventBus.client bus) (EventBus.isConnected bus) senders
                     (EventBus.delivered bus ++ [(topic, message)])%list)
    end.

Definition EventBus_isHealthy (bus : EventBus.t) : bool :=
  EventBus.isConnected bus.

Definition EventBus_call (call : BusCall) (bus : EventBus.t)
  : Completion unit * EventBus.t :=
  match call with
  | BusConnect => EventBus_connect bus
  | BusDisconnect => EventBus_disconnect bus
  | BusPublish topic message => EventBus_publishEvent topic message bus
  end.

(** The calls of a list one after the other, whatever each answers: the
    answers, and the bus at the end. *)
Fixpoint EventBus_run (calls : list BusCall) (bus : EventBus.t)
  : list (Completion unit) * EventBus.t :=
  match calls with
  | call :: rest =>
      let '(answer, bus) := EventBus_call call bus in
      let '(answers, bus) := EventBus_run rest bus in
      (answer :: answers, bus)
  | [] => ([], bus)
  end.

(** [KafkaService.publishEvent] with its optional [key]; [key || null]
    sends an empty key as none. *)
Definition KafkaService_publishEvent (topic message : string)
    (key : option string) (kafka : Kafka.t) : Completion unit * Kafka.t :=
  if negb (Kafka.isConnected kafka)
  then (Throw (Error "Kafka is not connected"), kafka)
  else
    match producer_send_error topic message with
    | Some error => (Throw error, kafka)
    | None =>
        let key :=
          match key with
          | Some k => if String.eqb k "" then None else Some k
          | None => None
          end in
        (Return tt,
         Kafka.mk (Kafka.isConnected kafka)
                  (Kafka.produced kafka ++ [(topic, key, message)])%list)
    end.

End Publishers.

(** ** Punctuality in the specification's words

    The delay of a procedure that has both dates, in milliseconds; on time
    means a delay of at most one hour, late means more. *)

Definition delay_ms (proc : Procedure.t) : option Z :=
  match Procedure.scheduledDate proc, Procedure.performedDate proc with
  | Some scheduled, Some performed => Some (performed - scheduled)
  | _, _ => None
  end.

Definition one_hour_ms : Z := 3600000.

Definition on_time (proc : Procedure.t) : bool :=
  match delay_ms proc with
  | Some d => d <=? one_hour_ms
  | None => false
  end.

Definition late (proc : Procedure.t) : bool :=
  match delay_ms proc with
  | Some d => one_hour_ms <? d
  | None => false
  end.

Definition delay_hours (proc : Procedure.t) : number :=
  match delay_ms proc with
  | Some d => (inject_Z d / inject_Z one_hour_ms)%Q
  | None => 0%Q
  end.

Definition timed (proc : Procedure.t) : bool :=
  match delay_ms proc with
  | Some _ => true
  | None => false
  end.

Definition Qsum (l : list number) : number := fold_right Qplus 0%Q l.

Definition count (f : Procedure.t -> bool) (l : list Procedure.t) : Z :=
  Z.of_nat (length (List.filter f l)).

(** ** Invariant of the data model: no stored price is negative *)

Definition prices_nonnegative (w : World) : Prop :=
  map_Forall
    (fun _ row => forall p, Procedure.basePrice row = Some p -> (0 <= p)%Q)
    (procedures w).

(** What the HTTP caller sees of a controller run: the status code and
    the [success] flag of the body. *)
Definition caller_sees {A : Type}
    (run : Completion (HttpResponse.t A) * World) : option (Z * bool) :=
  match fst run with
  | Return res =>
      Some (HttpResponse.statusCode res,
            ApiResponse.success (HttpResponse.body res))
  | Throw _ => None
  end.

(** ** Sample data used by the examples *)

Definition sample_patient : Patient :=
  {| patient_id := "pat-1"; fullName := "Maria Souza" |}.

Definition sample_request (code : string) (complexity : Complexity)
    (minutes : number) : CreateSurgeryRequest.t :=
  {| CreateSurgeryRequest.patientId := "pat-1";
     CreateSurgeryRequest.procedureCode := code;
     CreateSurgeryRequest.procedureName := "Colecistectomia";
     CreateSurgeryRequest.category := "GENERAL_SURGERY";
     CreateSurgeryRequest.complexity := complexity;
     CreateSurgeryRequest.estimatedDuration := minutes;
     CreateSurgeryRequest.scheduledDate := None;
     CreateSurgeryRequest.surgeonId := "surgeon-7";
     CreateSurgeryRequest.surgeonName := "Dra. Lima";
     CreateSurgeryRequest.operatingRoom := Some "room-2";
     CreateSurgeryRequest.hospital := "hospital-central";
     CreateSurgeryRequest.requiresAuthorization := Some true;
     CreateSurgeryRequest.createdBy := "admin" |}.

(** A bus that takes every message, one that is down, and one that is
    down for a single topic. *)
Definition bus_up : Event -> bool := fun _ => true.

Definition bus_down : Event -> bool := fun _ => false.

Definition bus_down_for (topic : string) : Event -> bool :=
  fun e => negb (String.eqb (topic_of e) topic).

(** A database with one patient and no procedure. *)
Definition sample_world (bus : Event -> bool) : World :=
  mkWorld {[ "pat-1" := sample_patient ]} ∅ [] [] bus.

(** The same after [createSurgery] of a PORTE_3 procedure of 90 minutes,
    with the bus up during the creation and [bus] afterwards. *)
Definition sample_world_1 (bus : Event -> bool) : World :=
  let w := snd (createSurgery (sample_request "31005039" PORTE_3 90%Q)
                              (sample_world bus_up)) in
  mkWorld (patients w) (procedures w) (auditLogs w) (outbox w) bus.

(** A confirmation whose price is not the one [calculateBasePrice] gives
    (500 for PORTE_1 and 45 minutes). *)
Definition sample_confirmation (basePrice : number) : ConfirmPorteRequest.t :=
  {| ConfirmPorteRequest.complexity := PORTE_1;
     ConfirmPorteRequest.estimatedDuration := 45%Q;
     ConfirmPorteRequest.basePrice := basePrice;
     ConfirmPorteRequest.confirmedBy := "surgeon-7";
     ConfirmPorteRequest.notes := None |}.

(** Three rules: one whose range starts at port 0, the rule of the
    specification's scenario, and an inactive one. *)
Definition sample_rules : list PortValidationRule.t :=
  [ PortValidationRule.mk "31005039" 0 2 1 true;
    PortValidationRule.mk "30602017" 2 3 2 true;
    PortValidationRule.mk "40101010" 1 4 2 false ].

(** A procedure of hospital H1 scheduled at [scheduled] and performed at
    [performed], 50 minutes long. *)
Definition sample_performed (id : string) (scheduled performed : Z)
  : Procedure.t :=
  {| Procedure.id := id;
     Procedure.code := id;
     Procedure.name := "Colecistectomia";
     Procedure.category := "GENERAL_SURGERY";
     Procedure.complexity := PORTE_2;
     Procedure.estimatedDuration := Some 60%Q;
     Procedure.basePrice := Some 1500%Q;
     Procedure.status := COMPLETED;
     Procedure.patientId := "pat-1";
     Procedure.requiresAuthorization := false;
     Procedure.suggestedPort := 1;
     Procedure.tags := ["surgery"];
     Procedure.scheduledDate := Some scheduled;
     Procedure.performedDate := Some performed;
     Procedure.duration := Some 50%Q;
     Procedure.hospitalId := Some "H1";
     Procedure.updatedAt := None |}.

(** One procedure performed 45 minutes after its schedule and one
    performed 90 minutes after it. *)
Definition sample_day : list Procedure.t :=
  [ sample_performed "a" 36000000 (36000000 + 45 * 60000);
    sample_performed "b" 50400000 (50400000 + 90 * 60000) ].

(** A creation, the same creation again, a status update of the procedure
    created, a confirmation for an id that is not stored. *)
Definition sample_requests : list Request :=
  [ Create (sample_request "31005039" PORTE_3 90%Q);
    Create (sample_request "31005039" PORTE_1 30%Q);
    UpdateStatus "0" COMPLETED "nurse-3" 1000;
    ConfirmPorte "7" (sample_confirmation 750%Q) 2000 ].

(** Three rows of a category: 1234.56 for 120 minutes with a complication,
    980.10 for 95 minutes of high complexity, and one without price or
    duration. *)
Definition sample_category_rows : list CategoryRow.t :=
  [ CategoryRow.mk (Some (123456 # 100)%Q) (Some 120%Q) PORTE_2
                   (Some "hemorragia");
    CategoryRow.mk (Some (98010 # 100)%Q) (Some 95%Q) HIGH_COMPLEXITY None;
    CategoryRow.mk None None PORTE_1 (Some "") ].

(** Three pending procedures, created five days ago, yesterday and today,
    seen at 15:00 of day 10. Their scheduled dates are days away. *)
Definition sample_pending : list PendingRow.t :=
  [ PendingRow.mk (sample_performed "a" (20 * day_ms) 0) None (5 * day_ms + 1);
    PendingRow.mk (sample_performed "b" (30 * day_ms) 0) None
                  (9 * day_ms + 36000000);
    PendingRow.mk (sample_performed "c" (10 * day_ms + 60000000) 0) None
                  (10 * day_ms + 32400000) ].

Definition sample_now : Z := 10 * day_ms + 54000000.

(** A stored procedure that is not deleted, and a body that renames it
    and sends an empty note and a duration of 0. *)
Definition sample_stored : StoredProcedure.t :=
  {| StoredProcedure.row := sample_performed "p1" 36000000 39600000;
     StoredProcedure.description := Some "Removal of the gallbladder";
     StoredProcedure.actualPort := None;
     StoredProcedure.complications := None;
     StoredProcedure.notes := Some "first note";
     StoredProcedure.deletedAt := None |}.

Definition sample_update : UpdateProcedureBody.t :=
  {| UpdateProcedureBody.name := JStr "Colecistectomia videolaparoscopica";
     UpdateProcedureBody.description := JUndefined;
     UpdateProcedureBody.status := JStr "CANCELLED";
     UpdateProcedureBody.actualPort := JNum 3;
     UpdateProcedureBody.performedDate := JUndefined;
     UpdateProcedureBody.duration := JNum 0;
     UpdateProcedureBody.complications := JNull;
     UpdateProcedureBody.notes := JStr "" |}.

Definition sample_database : Database :=
  mkDatabase {[ "p1" := sample_stored ]} true.

(** * Properties *)

(** ** PriceModel *)

Lemma baseRate_tier (c : Complexity) :
  or_number (baseRates_get c) 1000%Q = inject_Z (tier_rate c).
Proof. destruct c; reflexivity. Qed.

Lemma Math_max_Qmax (a b : number) : (Math_max a b == Qmax a b)%Q.
Proof.
  unfold Math_max. destruct (Qle_bool a b) eqn:E.
  - apply Qle_bool_iff in E. symmetry. now apply Q.max_r.
  - symmetry. apply Q.max_l. apply Qnot_lt_le. intros H.
    apply Qlt_le_weak in H. apply Qle_bool_iff in H. congruence.
Qed.

Lemma tier_rate_pos (c : Complexity) : 500 <= tier_rate c.
Proof. destruct c; simpl; lia. Qed.

Lemma tier_rate_Qpos (c : Complexity) : (0 <= inject_Z (tier_rate c))%Q.
Proof.
  change 0%Q with (inject_Z 0). rewrite <- Zle_Qle.
  pose proof (tier_rate_pos c). lia.
Qed.

Lemma calculateBasePrice_unfold (c : Complexity) (d : number) :
  calculateBasePrice c d =
  inject_Z (Qfloor (inject_Z (tier_rate c) * hours_billed d + (1 # 2))%Q).
Proof.
  unfold calculateBasePrice, Math_round, hours_billed.
  rewrite baseRate_tier. f_equal. apply Qfloor_comp.
  now rewrite Math_max_Qmax.
Qed.

Lemma hours_billed_short (d : number) :
  (d <= 60)%Q -> (hours_billed d == 1)%Q.
Proof.
  intros H. unfold hours_billed. apply Q.max_l.
  apply Qle_shift_div_r; [reflexivity | lra].
Qed.

Lemma hours_billed_mono (d1 d2 : number) :
  (d1 <= d2)%Q -> (hours_billed d1 <= hours_billed d2)%Q.
Proof.
  intros H. unfold hours_billed. apply Q.max_le_compat_l.
  unfold Qdiv. apply Qmult_le_compat_r; [exact H | discriminate].
Qed.

Lemma hours_billed_ge_1 (d : number) : (1 <= hours_billed d)%Q.
Proof. apply Q.le_max_l. Qed.

Lemma calculateBasePrice_mono (c : Complexity) (d1 d2 : number) :
  (d1 <= d2)%Q -> (calculateBasePrice c d1 <= calculateBasePrice c d2)%Q.
Proof.
  intros H. rewrite !calculateBasePrice_unfold. rewrite <- Zle_Qle.
  apply Qfloor_resp_le. apply Qplus_le_compat; [| apply Qle_refl].
  rewrite !(Qmult_comm (inject_Z (tier_rate c))).
  apply Qmult_le_compat_r; [now apply hours_billed_mono | apply tier_rate_Qpos].
Qed.

Lemma calculateBasePrice_short (c : Complexity) (d : number) :
  (d <= 60)%Q -> calculateBasePrice c d = inject_Z (tier_rate c).
Proof.
  intros H. rewrite calculateBasePrice_unfold. f_equal.
  rewrite <- (Qfloor_Z (tier_rate c)) at 2.
  assert (E : (inject_Z (tier_rate c) * hours_billed d + (1 # 2)
               == inject_Z (tier_rate c) + (1 # 2))%Q)
    by (rewrite (hours_billed_short d H); ring).
  rewrite (Qfloor_comp _ _ E). rewrite Qfloor_Z.
  apply Z.le_antisymm.
  - assert (L : (inject_Z (tier_rate c) + (1 # 2)
                 < inject_Z (tier_rate c + 1))%Q)
      by (rewrite inject_Z_plus; change (inject_Z 1) with 1%Q; lra).
    pose proof (Qfloor_le (inject_Z (tier_rate c) + (1 # 2))) as F.
    pose proof (Qle_lt_trans _ _ _ F L) as G.
    rewrite <- Zlt_Qlt in G. lia.
  - rewrite <- (Qfloor_Z (tier_rate c)) at 1. apply Qfloor_resp_le. lra.
Qed.

Lemma calculateBasePrice_nonneg (c : Complexity) (d : number) :
  (0 <= calculateBasePrice c d)%Q.
Proof.
  apply Qle_trans with (calculateBasePrice c 0%Q).
  - rewrite calculateBasePrice_short by discriminate. apply tier_rate_Qpos.
  - destruct (Qlt_le_dec d 0) as [Hneg | Hpos].
    + rewrite (calculateBasePrice_short c d) by lra.
      rewrite calculateBasePrice_short by discriminate. apply Qle_refl.
    + now apply calculateBasePrice_mono.
Qed.

(** C5. The price is the tier's fixed rate times [max(1, minutes / 60)],
    rounded to the nearest unit: the table of the code holds the tier
    rates, and for a duration that is a whole number of minutes (of 32
    bits, what the INTEGER column and the API take) the result is the
    integer within one half of the product. Hence any duration of at most
    60 minutes costs what 60 minutes cost, the price does not decrease as
    the duration grows beyond 60 minutes, and the rates grow strictly from
    PORTE_1 to PORTE_ESPECIAL. *)
Theorem calculateBasePrice_price_model :
  (forall c, c ∈ SurgeryComplexity ->
     baseRates_get c = Some (inject_Z (tier_rate c)))
  /\ (forall c d, is_Int d = true ->
        exists n : Z,
          calculateBasePrice c d = inject_Z n
          /\ (inject_Z n - (1 # 2)
               <= inject_Z (tier_rate c) * hours_billed d)%Q
          /\ (inject_Z (tier_rate c) * hours_billed d
               < inject_Z n + (1 # 2))%Q)
  /\ (forall c d, (d <= 60)%Q ->
        calculateBasePrice c d = calculateBasePrice c 60%Q)
  /\ (forall c d1 d2, (60 < d1)%Q -> (d1 <= d2)%Q ->
        (calculateBasePrice c d1 <= calculateBasePrice c d2)%Q)
  /\ tier_rate PORTE_1 < tier_rate PORTE_2 < tier_rate PORTE_3
  /\ tier_rate PORTE_3 < tier_rate PORTE_4 < tier_rate PORTE_ESPECIAL.
Proof.
  split; [| split; [| split; [| split]]].
  - intros c Hc. unfold SurgeryComplexity in Hc.
    repeat (apply elem_of_cons in Hc as [-> | Hc]; [reflexivity |]).
    inversion Hc.
  - intros c d _. eexists. split; [apply calculateBasePrice_unfold |].
    set (x := (inject_Z (tier_rate c) * hours_billed d)%Q).
    pose proof (Qfloor_le (x + (1 # 2))) as Hlo.
    pose proof (Qlt_floor (x + (1 # 2))) as Hhi.
    rewrite inject_Z_plus in Hhi. change (inject_Z 1) with 1%Q in Hhi.
    split; lra.
  - intros c d H. rewrite (calculateBasePrice_short c d H).
    rewrite calculateBasePrice_short; [reflexivity | apply Qle_refl].
  - intros c d1 d2 _ H. now apply calculateBasePrice_mono.
  - simpl. lia.
Qed.

Lemma calculateBasePrice_price_model_witness :
  (45 <= 60)%Q
  /\ calculateBasePrice PORTE_3 45%Q = calculateBasePrice PORTE_3 60%Q
  /\ (60 < 90)%Q /\ (90 <= 120)%Q
  /\ (calculateBasePrice PORTE_2 90%Q <= calculateBasePrice PORTE_2 120%Q)%Q
  /\ is_Int 61%Q = true
  /\ (exists n : Z,
        calculateBasePrice PORTE_1 61%Q = inject_Z n
        /\ (inject_Z n - (1 # 2) <= 500 * (61 / 60))%Q
        /\ (500 * (61 / 60) < inject_Z n + (1 # 2))%Q).
Proof.
  destruct calculateBasePrice_price_model as (_ & Hround & Hshort & Hmono & _).
  split; [unfold Qle; simpl; lia |].
  split; [apply Hshort; unfold Qle; simpl; lia |].
  split; [unfold Qlt; simpl; lia |].
  split; [unfold Qle; simpl; lia |].
  split; [apply Hmono; [unfold Qlt | unfold Qle]; simpl; lia |].
  split; [reflexivity |].
  destruct (Hround PORTE_1 61%Q eq_refl) as (n & Hn & Hlo & Hhi).
  exists n. split; [exact Hn |].
  assert (E : (inject_Z (tier_rate PORTE_1) * hours_billed 61
               == 500 * (61 / 60))%Q) by reflexivity.
  rewrite E in Hlo, Hhi. split; assumption.
Defined.

Example calculateBasePrice_90_minutes :
  calculateBasePrice PORTE_3 90%Q = 4500%Q
  /\ calculateBasePrice PORTE_1 61%Q = 508%Q
  /\ calculateBasePrice PORTE_ESPECIAL 0%Q = 8000%Q.
Proof. repeat split; vm_compute; reflexivity. Qed.


(** ** The types of the columns *)

Lemma Qred_inject_Z (n : Z) : Qred (inject_Z n) = inject_Z n.
Proof.
  unfold inject_Z, Qred.
  pose proof (Z.ggcd_gcd n 1) as Hg.
  pose proof (Z.ggcd_correct_divisors n 1) as Hd.
  destruct (Z.ggcd n 1) as [g [a b]]. cbn [fst] in Hg.
  rewrite Z.gcd_1_r in Hg. subst g. destruct Hd as [Ha Hb].
  rewrite Z.mul_1_l in Ha, Hb. subst a b. reflexivity.
Qed.

Lemma round_half_away_inject_Z (n : Z) : round_half_away (inject_Z n) = n.
Proof.
  unfold round_half_away.
  assert (F : forall m : Z, Qfloor (inject_Z m + (1 # 2)) = m).
  { intros m. apply Z.le_antisymm.
    - assert (L : (inject_Z m + (1 # 2) < inject_Z (m + 1))%Q)
        by (rewrite inject_Z_plus; change (inject_Z 1) with 1%Q; lra).
      pose proof (Qfloor_le (inject_Z m + (1 # 2))) as G.
      pose proof (Qle_lt_trans _ _ _ G L) as K.
      rewrite <- Zlt_Qlt in K. lia.
    - rewrite <- (Qfloor_Z m) at 1. apply Qfloor_resp_le. lra. }
  destruct (Qle_bool 0 (inject_Z n)); [apply F |].
  assert (E : (- inject_Z n + (1 # 2) == inject_Z (- n) + (1 # 2))%Q)
    by (rewrite inject_Z_opp; reflexivity).
  rewrite (Qfloor_comp _ _ E), F. lia.
Qed.

Lemma round_half_away_comp (x y : Q) :
  (x == y)%Q -> round_half_away x = round_half_away y.
Proof.
  intros E. unfold round_half_away.
  assert (B : Qle_bool 0 x = Qle_bool 0 y) by (now rewrite E).
  assert (E1 : (x + (1 # 2) == y + (1 # 2))%Q) by (now rewrite E).
  assert (E2 : (- x + (1 # 2) == - y + (1 # 2))%Q) by (now rewrite E).
  now rewrite B, (Qfloor_comp _ _ E1), (Qfloor_comp _ _ E2).
Qed.

Lemma cents_inject_Z (n : Z) : cents (inject_Z n) = n * 100.
Proof.
  unfold cents. rewrite <- (round_half_away_inject_Z (n * 100)).
  apply round_half_away_comp. rewrite inject_Z_mult. reflexivity.
Qed.

Lemma Decimal_10_2_inject_Z (n : Z) : Decimal_10_2 (inject_Z n) = inject_Z n.
Proof.
  unfold Decimal_10_2. rewrite cents_inject_Z.
  rewrite <- (Qred_inject_Z n). apply Qred_complete.
  rewrite inject_Z_mult. field.
Qed.

Lemma Decimal_10_2_calculateBasePrice (c : Complexity) (d : Q) :
  Decimal_10_2 (calculateBasePrice c d) = calculateBasePrice c d.
Proof. apply Decimal_10_2_inject_Z. Qed.

Lemma is_Int_spec (x : Q) :
  is_Int x = true <->
  (x == inject_Z (Qfloor x))%Q /\ - 2 ^ 31 <= Qfloor x < 2 ^ 31.
Proof.
  unfold is_Int, is_int32.
  rewrite !andb_true_iff, Qeq_bool_iff, Z.leb_le, Z.ltb_lt. tauto.
Qed.

Lemma is_Int_Int_of (x : Q) : is_Int x = true -> (Int_of x == x)%Q.
Proof. intros H. apply is_Int_spec in H as [H _]. now symmetry. Qed.

Lemma is_Int_inject_Z (n : Z) :
  is_Int (inject_Z n) = is_int32 n.
Proof.
  unfold is_Int. rewrite Qfloor_Z.
  now rewrite (proj2 (Qeq_bool_iff _ _) (Qeq_refl _)).
Qed.

(** What the column gives back is within half a hundredth of what was
    written, on the side away from zero at a tie. *)
Lemma round_half_away_bounds (x : Q) :
  (inject_Z (round_half_away x) - (1 # 2) <= x
   <= inject_Z (round_half_away x) + (1 # 2))%Q.
Proof.
  unfold round_half_away. destruct (Qle_bool 0 x).
  - pose proof (Qfloor_le (x + (1 # 2))) as Hlo.
    pose proof (Qlt_floor (x + (1 # 2))) as Hhi.
    rewrite inject_Z_plus in Hhi. change (inject_Z 1) with 1%Q in Hhi.
    split; lra.
  - pose proof (Qfloor_le (- x + (1 # 2))) as Hlo.
    pose proof (Qlt_floor (- x + (1 # 2))) as Hhi.
    rewrite inject_Z_plus in Hhi. change (inject_Z 1) with 1%Q in Hhi.
    rewrite inject_Z_opp. split; lra.
Qed.

Lemma Decimal_10_2_cents (x : Q) :
  (Decimal_10_2 x == inject_Z (cents x) * (1 # 100))%Q.
Proof. unfold Decimal_10_2. apply Qred_correct. Qed.

Lemma Decimal_10_2_bounds (x : Q) :
  (Decimal_10_2 x - (1 # 200) <= x <= Decimal_10_2 x + (1 # 200))%Q.
Proof.
  rewrite Decimal_10_2_cents. unfold cents.
  pose proof (round_half_away_bounds (x * 100)) as H.
  set (r := inject_Z (round_half_away (x * 100))) in *. clearbody r.
  destruct H. split; lra.
Qed.

Lemma round_half_away_nonneg (x : Q) :
  (0 <= x)%Q -> 0 <= round_half_away x.
Proof.
  intros H. unfold round_half_away.
  rewrite (proj2 (Qle_bool_iff 0 x) H).
  change 0 with (Qfloor 0). apply Qfloor_resp_le. lra.
Qed.

Lemma Decimal_10_2_nonneg (x : Q) :
  (0 <= x)%Q -> (0 <= Decimal_10_2 x)%Q.
Proof.
  intros H. rewrite Decimal_10_2_cents.
  assert (K : 0 <= cents x).
  { unfold cents. apply round_half_away_nonneg. lra. }
  rewrite Zle_Qle in K. change (inject_Z 0) with 0%Q in K.
  set (r := inject_Z (cents x)) in *. clearbody r. lra.
Qed.

(** A price of minus half a hundredth or less is kept negative. *)
Lemma Decimal_10_2_negative (x : Q) :
  (x <= - (1 # 200))%Q -> (Decimal_10_2 x < 0)%Q.
Proof.
  intros H. rewrite Decimal_10_2_cents.
  assert (K : cents x <= -1).
  { unfold cents, round_half_away.
    destruct (Qle_bool 0 (x * 100)) eqn:B.
    - apply Qle_bool_iff in B. lra.
    - assert (L : Qfloor 1 <= Qfloor (- (x * 100) + (1 # 2)))
        by (apply Qfloor_resp_le; lra).
      change (Qfloor 1) with 1 in L. lia. }
  rewrite Zle_Qle in K. change (inject_Z (-1)) with (-1)%Q in K.
  set (r := inject_Z (cents x)) in *. clearbody r. lra.
Qed.

(** A number of at most two decimals is kept as it is. *)
Lemma Decimal_10_2_exact (x : Q) (k : Z) :
  (x == inject_Z k / 100)%Q -> (Decimal_10_2 x == x)%Q.
Proof.
  intros H. rewrite Decimal_10_2_cents.
  assert (E : cents x = k).
  { unfold cents. rewrite <- (round_half_away_inject_Z k).
    apply round_half_away_comp. rewrite H. field. }
  rewrite E, H. reflexivity.
Qed.

(** A price above minus half a hundredth is kept as a non-negative one. *)
Lemma Decimal_10_2_above (x : Q) :
  (- (1 # 200) < x)%Q -> (0 <= Decimal_10_2 x)%Q.
Proof.
  intros H. rewrite Decimal_10_2_cents.
  assert (K : 0 <= cents x).
  { unfold cents, round_half_away.
    destruct (Qle_bool 0 (x * 100)) eqn:B.
    - apply Qle_bool_iff in B.
      change 0 with (Qfloor 0) at 1. apply Qfloor_resp_le. lra.
    - assert (L : Qfloor (- (x * 100) + (1 # 2)) < 1).
      { rewrite Zlt_Qlt. change (inject_Z 1) with 1%Q.
        apply Qle_lt_trans with (- (x * 100) + (1 # 2))%Q;
          [apply Qfloor_le | lra]. }
      assert (G : Qfloor 0 <= Qfloor (- (x * 100) + (1 # 2))).
      { apply Qfloor_resp_le. destruct (Qlt_le_dec (x * 100) 0); [lra |].
        apply Qle_bool_iff in q. congruence. }
      change (Qfloor 0) with 0 in G. lia. }
  rewrite Zle_Qle in K. change (inject_Z 0) with 0%Q in K.
  set (r := inject_Z (cents x)) in *. clearbody r. lra.
Qed.


(** ** ClassificationEngine *)

Lemma fresh_id_unused (tbl : gmap string Procedure.t) :
  tbl !! fresh (dom tbl) = None.
Proof. apply not_elem_of_dom, is_fresh. Qed.

Lemma requiresAudit_spec (c : Complexity) :
  requiresAudit c = true <-> c ∈ [PORTE_3; PORTE_4; PORTE_ESPECIAL].
Proof. unfold requiresAudit. apply bool_decide_eq_true. Qed.

Lemma createSurgery_unknown_patient (data : CreateSurgeryRequest.t) (w : World) :
  patients w !! CreateSurgeryRequest.patientId data = None ->
  createSurgery data w = (Throw (Error "Patient not found"), w).
Proof.
  intros H. unfold createSurgery, try_catch, bind, prisma_patient_findUnique.
  rewrite H. reflexivity.
Qed.

(** What the client and the database check of the [data] of
    [createSurgery]. *)
Lemma valid_create_data_createSurgery (data : CreateSurgeryRequest.t)
    (basePrice : number) (id : string) :
  valid_create_data (createSurgery_data data basePrice id) =
  is_ProcedureCategory (CreateSurgeryRequest.category data)
  && is_Int (CreateSurgeryRequest.estimatedDuration data).
Proof.
  unfold valid_create_data.
  cbn [createSurgery_data Procedure.category Procedure.suggestedPort
       Procedure.estimatedDuration Procedure.duration is_Int_or_null].
  rewrite andb_true_r. f_equal. apply andb_true_r.
Qed.

(** The row of a creation as the table holds it: the price, a whole
    number, is kept as it is. *)
Lemma stored_row_createSurgery (data : CreateSurgeryRequest.t) (id : string) :
  let basePrice :=
    calculateBasePrice (CreateSurgeryRequest.complexity data)
                       (CreateSurgeryRequest.estimatedDuration data) in
  let row := stored_row (createSurgery_data data basePrice id) in
  Procedure.id row = id
  /\ Procedure.code row = CreateSurgeryRequest.procedureCode data
  /\ Procedure.status row = SCHEDULED
  /\ Procedure.complexity row = CreateSurgeryRequest.complexity data
  /\ Procedure.basePrice row = Some basePrice
  /\ Procedure.estimatedDuration row
     = Some (Int_of (CreateSurgeryRequest.estimatedDuration data))
  /\ Procedure.requiresAuthorization row
     = or_false (CreateSurgeryRequest.requiresAuthorization data).
Proof.
  intros basePrice row. subst row.
  cbn [stored_row createSurgery_data Procedure.id Procedure.code
       Procedure.status Procedure.complexity Procedure.basePrice
       Procedure.estimatedDuration Procedure.requiresAuthorization fmap
       option_fmap option_map].
  subst basePrice. rewrite Decimal_10_2_calculateBasePrice.
  repeat split.
Qed.

(** Every run of [createSurgery] for a known patient. *)
Lemma createSurgery_run (data : CreateSurgeryRequest.t) (w : World)
    (patient : Patient) :
  patients w !! CreateSurgeryRequest.patientId data = Some patient ->
  let id := fresh (dom (procedures w)) in
  let basePrice :=
    calculateBasePrice (CreateSurgeryRequest.complexity data)
                       (CreateSurgeryRequest.estimatedDuration data) in
  let row := stored_row (createSurgery_data data basePrice id) in
  let dto := createSurgery_surgeryProcedure data patient row basePrice in
  let audit :=
    if requiresAudit (CreateSurgeryRequest.complexity data)
    then [AuditRequested (auditRequest_of dto)] else [] in
  createSurgery data w =
  if negb (is_ProcedureCategory (CreateSurgeryRequest.category data)
           && is_Int (CreateSurgeryRequest.estimatedDuration data))
  then (Throw (PrismaError "PrismaClientValidationError"), w)
  else if negb (fits_Decimal_10_2 basePrice)
  then (Throw (PrismaError "P2020"), w)
  else if code_taken (CreateSurgeryRequest.procedureCode data) (procedures w)
  then (Throw (PrismaError "P2002"), w)
  else if busAccepts w (SurgeryCreated dto)
  then (Return (success_response dto "Surgery procedure created successfully"),
        mkWorld (patients w) (<[id := row]> (procedures w)) (auditLogs w)
                (outbox w ++ SurgeryCreated dto :: audit)%list (busAccepts w))
  else (Throw (ServiceBusError "SurgeryCreated"),
        mkWorld (patients w) (<[id := row]> (procedures w)) (auditLogs w)
                (outbox w ++ [SurgeryCreated dto])%list (busAccepts w)).
Proof.
  intros Hp id basePrice row dto audit.
  unfold createSurgery, try_catch, bind, prisma_patient_findUnique.
  rewrite Hp. unfold prisma_procedure_create.
  fold id basePrice. rewrite valid_create_data_createSurgery.
  destruct (negb (_ && _)); [reflexivity |].
  change (Procedure.basePrice (createSurgery_data data basePrice id))
    with (Some basePrice).
  cbn [fits_Decimal_10_2_or_null].
  destruct (negb (fits_Decimal_10_2 basePrice)); [reflexivity |].
  change (Procedure.code (createSurgery_data data basePrice id))
    with (CreateSurgeryRequest.procedureCode data).
  change (Procedure.id (createSurgery_data data basePrice id)) with id.
  fold row.
  destruct (code_taken _ _); [reflexivity |].
  unfold eventBus_publish at 1. cbn [busAccepts set_procedures set_outbox outbox].
  fold dto.
  destruct (busAccepts w (SurgeryCreated dto)); [| reflexivity].
  subst audit.
  destruct (requiresAudit _); [| reflexivity].
  unfold createAuditRequest, try_catch, eventBus_publish, ret.
  cbn [busAccepts set_procedures set_outbox outbox patients procedures auditLogs].
  rewrite <- app_assoc.
  destruct (busAccepts w _); reflexivity.
Qed.

Lemma SurgeryController_create_unknown_patient
    (data : CreateSurgeryRequest.t) (w : World) :
  patients w !! CreateSurgeryRequest.patientId data = None ->
  SurgeryController_create data w =
  (Return (sendError "Patient not found" 404), w).
Proof.
  intros H. unfold SurgeryController_create, try_catch, bind.
  rewrite (createSurgery_unknown_patient data w H). reflexivity.
Qed.

(** Every run of [getSurgeryById], [confirmPorte] and
    [updateSurgeryStatus] on a stored procedure. *)
Lemma getSurgeryById_run (id : string) (w : World) (row : Procedure.t) :
  procedures w !! id = Some row ->
  getSurgeryById id w =
  (Return (success_response
             (mapProcedureToSurgery
                (row, patients w !! Procedure.patientId row))
             "Surgery procedure retrieved successfully"), w).
Proof.
  intros H. unfold getSurgeryById, try_catch, bind, prisma_procedure_findUnique.
  rewrite H. reflexivity.
Qed.

(** C1, as the code has it. [createSurgery] for a patient that does not
    exist throws "Patient not found" (a 404 for the caller) and leaves the
    tables and the list of emitted events as they were. For a patient that
    exists, a creation that returns has stored, under an unused id, a row
    with status SCHEDULED, the submitted [requiresAuthorization] and the
    price of [calculateBasePrice] for the submitted complexity and
    duration. The procedure it returns has status SCHEDULED,
    authorizationStatus PENDING when [requiresAuthorization] is true and
    NOT_REQUIRED otherwise, the same price, and auditStatus PENDING_AUDIT;
    the table has no column for the last two: read back, the stored
    procedure has the same status, price and authorizationStatus, and its
    auditStatus is PENDING_AUDIT if and only if the complexity is PORTE_3,
    PORTE_4 or PORTE_ESPECIAL. After the SurgeryCreated event of a creation
    that returns, an AuditRequested event is emitted if and only if the
    complexity is one of these three, with priority URGENT for
    PORTE_ESPECIAL and HIGH otherwise. The creation does return when the
    category is a label of [ProcedureCategory], the duration a whole
    number of 32 bits, the price within the range of its column, the code
    unused, and the bus takes the creation event; and in every run for a
    known patient, returning or not, either no row is stored or exactly
    one is, under an unused id, with status SCHEDULED, the submitted
    complexity and the price of [calculateBasePrice]. *)
Theorem createSurgery_contract :
  (forall data w,
     patients w !! CreateSurgeryRequest.patientId data = None ->
     createSurgery data w = (Throw (Error "Patient not found"), w)
     /\ SurgeryController_create data w =
        (Return (sendError "Patient not found" 404), w))
  /\ (forall data w patient resp w',
        patients w !! CreateSurgeryRequest.patientId data = Some patient ->
        createSurgery data w = (Return resp, w') ->
        let complexity := CreateSurgeryRequest.complexity data in
        let basePrice :=
          calculateBasePrice complexity
            (CreateSurgeryRequest.estimatedDuration data) in
        exists (row : Procedure.t) (dto read : SurgeryProcedure.t)
               (audit : list Event),
          ApiResponse.success resp = true
          /\ ApiResponse.data resp = Some dto
          /\ procedures w !! Procedure.id row = None
          /\ procedures w' = <[Procedure.id row := row]> (procedures w)
          /\ SurgeryProcedure.id dto = Procedure.id row
          /\ Procedure.status row = SCHEDULED
          /\ Procedure.basePrice row = Some basePrice
          /\ Procedure.requiresAuthorization row
             = or_false (CreateSurgeryRequest.requiresAuthorization data)
          /\ SurgeryProcedure.status dto = SCHEDULED
          /\ SurgeryProcedure.authorizationStatus dto =
             match CreateSurgeryRequest.requiresAuthorization data with
             | Some true => AUTH_PENDING
             | _ => AUTH_NOT_REQUIRED
             end
          /\ SurgeryProcedure.auditStatus dto = PENDING_AUDIT
          /\ SurgeryProcedure.basePrice dto = basePrice
          /\ getSurgeryById (SurgeryProcedure.id dto) w' =
             (Return (success_response read
                        "Surgery procedure retrieved successfully"), w')
          /\ SurgeryProcedure.status read = SCHEDULED
          /\ SurgeryProcedure.basePrice read = basePrice
          /\ SurgeryProcedure.authorizationStatus read
             = SurgeryProcedure.authorizationStatus dto
          /\ (SurgeryProcedure.auditStatus read = PENDING_AUDIT
              <-> complexity ∈ [PORTE_3; PORTE_4; PORTE_ESPECIAL])
          /\ outbox w' = (outbox w ++ SurgeryCreated dto :: audit)%list
          /\ ((exists a, AuditRequested a ∈ audit)
              <-> complexity ∈ [PORTE_3; PORTE_4; PORTE_ESPECIAL])
          /\ (forall a, AuditRequested a ∈ audit ->
                AuditRequest.procedureId a = SurgeryProcedure.id dto
                /\ AuditRequest.priority a =
                   match complexity with
                   | PORTE_ESPECIAL => Priority.URGENT
                   | _ => Priority.HIGH
                   end))
  /\ (forall data w patient,
        patients w !! CreateSurgeryRequest.patientId data = Some patient ->
        is_ProcedureCategory (CreateSurgeryRequest.category data) = true ->
        is_Int (CreateSurgeryRequest.estimatedDuration data) = true ->
        fits_Decimal_10_2
          (calculateBasePrice (CreateSurgeryRequest.complexity data)
             (CreateSurgeryRequest.estimatedDuration data)) = true ->
        code_taken (CreateSurgeryRequest.procedureCode data) (procedures w)
          = false ->
        (forall surgery, busAccepts w (SurgeryCreated surgery) = true) ->
        exists resp w', createSurgery data w = (Return resp, w'))
  /\ (forall data w patient,
        patients w !! CreateSurgeryRequest.patientId data = Some patient ->
        let w' := snd (createSurgery data w) in
        procedures w' = procedures w
        \/ exists row : Procedure.t,
             procedures w !! Procedure.id row = None
             /\ procedures w' = <[Procedure.id row := row]> (procedures w)
             /\ Procedure.status row = SCHEDULED
             /\ Procedure.complexity row = CreateSurgeryRequest.complexity data
             /\ Procedure.basePrice row =
                Some (calculateBasePrice
                        (CreateSurgeryRequest.complexity data)
                        (CreateSurgeryRequest.estimatedDuration data))).
Proof.
  split; [| split; [| split]].
  - intros data w H. split.
    + now apply createSurgery_unknown_patient.
    + now apply SurgeryController_create_unknown_patient.
  - intros data w patient resp w' Hp Hrun complexity basePrice.
    rewrite (createSurgery_run data w patient Hp) in Hrun.
    destruct (negb (_ && _)); [discriminate |].
    destruct (negb (fits_Decimal_10_2 _)); [discriminate |].
    destruct (code_taken _ _); [discriminate |].
    destruct (busAccepts w _); [| discriminate].
    injection Hrun as <- <-.
    set (id := fresh (dom (procedures w))).
    pose proof (stored_row_createSurgery data id)
      as (Hid & _ & Hstatus & Hcomplexity & Hprice & _ & Hauth).
    fold complexity basePrice in Hid, Hstatus, Hcomplexity, Hprice, Hauth.
    set (row := stored_row (createSurgery_data data basePrice id)) in *.
    assert (Hrow : <[id := row]> (procedures w) !! id = Some row)
      by apply lookup_insert_eq.
    exists row. eexists _, _, _. cbn [procedures outbox].
    split; [reflexivity |]. split; [reflexivity |].
    rewrite Hid.
    split; [apply fresh_id_unused |].
    split; [reflexivity |]. split; [exact Hid |].
    split; [exact Hstatus |]. split; [exact Hprice |].
    split; [exact Hauth |]. split; [reflexivity |].
    split.
    { cbn. destruct (CreateSurgeryRequest.requiresAuthorization data)
        as [[|]|]; reflexivity. }
    split; [reflexivity |]. split; [reflexivity |].
    split.
    { change (SurgeryProcedure.id _) with (Procedure.id row). rewrite Hid.
      apply getSurgeryById_run. exact Hrow. }
    cbn [mapProcedureToSurgery SurgeryProcedure.status
         SurgeryProcedure.basePrice SurgeryProcedure.authorizationStatus
         SurgeryProcedure.auditStatus].
    split; [exact Hstatus |].
    split; [rewrite Hprice; reflexivity |].
    split.
    { rewrite Hauth. cbn.
      destruct (CreateSurgeryRequest.requiresAuthorization data)
        as [[|]|]; reflexivity. }
    rewrite Hcomplexity, <- requiresAudit_spec.
    split.
    { destruct (requiresAudit complexity); split;
        try reflexivity; discriminate. }
    split; [reflexivity |]. fold complexity.
    destruct (requiresAudit complexity) eqn:Haudit; split.
    + split; [reflexivity |]. intros _. eexists. apply list_elem_of_here.
    + intros a Ha. apply list_elem_of_singleton in Ha.
      injection Ha as ->. split; [reflexivity |].
      cbn. fold complexity. destruct complexity; reflexivity.
    + split; [| discriminate]. intros [a Ha]. inversion Ha.
    + intros a Ha. inversion Ha.
  - intros data w patient Hp Hcategory Hminutes Hfits Hcode Hbus.
    rewrite (createSurgery_run data w patient Hp), Hcategory, Hminutes, Hfits,
      Hcode, Hbus. cbn [andb negb]. eauto.
  - intros data w patient Hp w'. subst w'.
    rewrite (createSurgery_run data w patient Hp).
    destruct (negb (_ && _)); [now left |].
    destruct (negb (fits_Decimal_10_2 _)); [now left |].
    destruct (code_taken _ _); [now left |]. right.
    pose proof (stored_row_createSurgery data (fresh (dom (procedures w))))
      as (Hid & _ & Hstatus & Hcomplexity & Hprice & _).
    eexists (stored_row (createSurgery_data data _ (fresh (dom (procedures w))))).
    rewrite Hid.
    split; [apply fresh_id_unused |].
    destruct (busAccepts w _); cbn [snd procedures]; repeat split; assumption.
Qed.

Lemma createSurgery_contract_witness :
  let data := sample_request "31005039" PORTE_ESPECIAL 90%Q in
  let w := sample_world bus_up in
  patients w !! CreateSurgeryRequest.patientId data = Some sample_patient
  /\ match createSurgery data w with
     | (Return resp, w') =>
         exists dto,
           ApiResponse.data resp = Some dto
           /\ SurgeryProcedure.auditStatus dto = PENDING_AUDIT
           /\ SurgeryProcedure.basePrice dto = 12000%Q
           /\ exists a, AuditRequested a ∈ outbox w'
     | (Throw _, _) => False
     end.
Proof.
  intros data w. split; [reflexivity |].
  destruct (createSurgery data w) as [[resp | e] w'] eqn:E.
  - destruct (proj1 (proj2 createSurgery_contract)
                data w sample_patient resp w' eq_refl E)
      as (row & dto & read & audit & _ & Hdata & _ & _ & _ & _ & _ & _ & _ & _
          & Haudit & Hprice & _ & _ & _ & _ & _ & Hout & Hiff & _).
    exists dto. split; [exact Hdata |]. split; [exact Haudit |].
    split; [rewrite Hprice; vm_compute; reflexivity |].
    destruct (proj2 Hiff) as [a Ha].
    + vm_compute. do 2 right. left.
    + exists a. rewrite Hout. apply elem_of_app. right. now right.
  - vm_compute in E. discriminate.
Defined.

(** C1, as stated, fails: the audit status is not stored. A PORTE_1
    procedure is created, and returned with auditStatus PENDING_AUDIT; the
    procedure that was persisted is read back with auditStatus
    NOT_REQUIRED. *)
Lemma createSurgery_auditStatus_not_persisted :
  let data := sample_request "31005039" PORTE_1 30%Q in
  let w := sample_world bus_up in
  is_Some (patients w !! CreateSurgeryRequest.patientId data)
  /\ exists created read w',
       createSurgery data w =
       (Return (success_response created
                  "Surgery procedure created successfully"), w')
       /\ getSurgeryById (SurgeryProcedure.id created) w' =
          (Return (success_response read
                     "Surgery procedure retrieved successfully"), w')
       /\ SurgeryProcedure.auditStatus created = PENDING_AUDIT
       /\ SurgeryProcedure.auditStatus read = AUDIT_NOT_REQUIRED
       /\ SurgeryProcedure.auditStatus read <> PENDING_AUDIT.
Proof.
  intros data w. split; [vm_compute; eauto |].
  destruct (createSurgery data w) as [[resp | e] w'] eqn:E;
    [| vm_compute in E; discriminate].
  destruct (ApiResponse.data resp) as [created |] eqn:D;
    [| vm_compute in E; injection E as <- <-; discriminate].
  eexists created, _, w'.
  vm_compute in E. injection E as <- <-. vm_compute in D.
  injection D as <-.
  split; [reflexivity |].
  split; [vm_compute; reflexivity |].
  split; [reflexivity |]. split; [reflexivity |]. discriminate.
Qed.

Lemma update_run (id : string) (w : World) (row : Procedure.t)
    (data : ProcedureUpdateInput.t) (log : Procedure.t -> AuditLog.t)
    (event : SurgeryProcedure.t -> Event) (message : string) :
  procedures w !! id = Some row ->
  let row' := updated_row data row in
  let dto :=
    mapProcedureToSurgery (row', patients w !! Procedure.patientId row') in
  let w' :=
    mkWorld (patients w) (<[id := row']> (procedures w))
            (auditLogs w ++ [log row])%list (outbox w ++ [event dto])%list
            (busAccepts w) in
  try_catch
    (await procedure <- prisma_procedure_findUnique id ;
     match procedure with
     | None => throw (Error "Surgery procedure not found")
     | Some (procedure, _) =>
       await updatedProcedure <- prisma_procedure_update id data ;
       await _ <- prisma_auditLog_create (log procedure) ;
       let surgeryProcedure := mapProcedureToSurgery updatedProcedure in
       await _ <- eventBus_publish (event surgeryProcedure) ;
       ret (success_response surgeryProcedure message)
     end)
    (fun error => throw error) w =
  if negb (is_Int_or_null (ProcedureUpdateInput.estimatedDuration data))
  then (Throw (PrismaError "PrismaClientValidationError"), w)
  else if negb (fits_Decimal_10_2_or_null (ProcedureUpdateInput.basePrice data))
  then (Throw (PrismaError "P2020"), w)
  else if busAccepts w (event dto)
  then (Return (success_response dto message), w')
  else (Throw (ServiceBusError (topic_of (event dto))), w').
Proof.
  intros H row' dto w'.
  unfold try_catch, bind, prisma_procedure_findUnique, prisma_procedure_update,
    prisma_auditLog_create, eventBus_publish, ret.
  rewrite H. cbn beta iota.
  destruct (negb (is_Int_or_null _)); [reflexivity |].
  rewrite H.
  destruct (negb (fits_Decimal_10_2_or_null _)); [reflexivity |].
  cbn [busAccepts set_procedures set_outbox set_auditLogs outbox patients
       procedures auditLogs].
  fold row'. fold dto.
  destruct (busAccepts w (event dto)); reflexivity.
Qed.

Lemma confirmPorte_run (id : string) (confirmation : ConfirmPorteRequest.t)
    (now : Z) (w : World) (row : Procedure.t) :
  procedures w !! id = Some row ->
  let row' := updated_row (confirmPorte_data confirmation now) row in
  let dto :=
    mapProcedureToSurgery (row', patients w !! Procedure.patientId row') in
  let w' :=
    mkWorld (patients w) (<[id := row']> (procedures w))
            (auditLogs w ++ [confirmPorte_auditLog id confirmation row])%list
            (outbox w ++ [PorteConfirmed dto])%list (busAccepts w) in
  confirmPorte id confirmation now w =
  if negb (is_Int (ConfirmPorteRequest.estimatedDuration confirmation))
  then (Throw (PrismaError "PrismaClientValidationError"), w)
  else if negb (fits_Decimal_10_2 (ConfirmPorteRequest.basePrice confirmation))
  then (Throw (PrismaError "P2020"), w)
  else if busAccepts w (PorteConfirmed dto)
  then (Return (success_response dto "Surgery porte confirmed successfully"),
        w')
  else (Throw (ServiceBusError "PorteConfirmed"), w').
Proof.
  intros H.
  exact (update_run id w row (confirmPorte_data confirmation now)
           (confirmPorte_auditLog id confirmation) PorteConfirmed
           "Surgery porte confirmed successfully" H).
Qed.

Lemma updateSurgeryStatus_run (id : string) (status : Status)
    (updatedBy : string) (now : Z) (w : World) (row : Procedure.t) :
  procedures w !! id = Some row ->
  let row' := updated_row (updateSurgeryStatus_data status now) row in
  let dto :=
    mapProcedureToSurgery (row', patients w !! Procedure.patientId row') in
  let w' :=
    mkWorld (patients w) (<[id := row']> (procedures w))
            (auditLogs w
             ++ [updateSurgeryStatus_auditLog id status updatedBy row])%list
            (outbox w ++ [SurgeryStatusUpdated dto])%list (busAccepts w) in
  updateSurgeryStatus id status updatedBy now w =
  if busAccepts w (SurgeryStatusUpdated dto)
  then (Return (success_response dto "Surgery status updated successfully"),
        w')
  else (Throw (ServiceBusError "SurgeryStatusUpdated"), w').
Proof.
  intros H.
  exact (update_run id w row (updateSurgeryStatus_data status now)
           (updateSurgeryStatus_auditLog id status updatedBy)
           SurgeryStatusUpdated "Surgery status updated successfully" H).
Qed.

Lemma update_unknown (id : string) (w : World)
    (k : Procedure.t * option Patient -> M (ApiResponse.t SurgeryProcedure.t)) :
  procedures w !! id = None ->
  try_catch
    (await procedure <- prisma_procedure_findUnique id ;
     match procedure with
     | None => throw (Error "Surgery procedure not found")
     | Some procedure => k procedure
     end)
    (fun error => throw error) w =
  (Throw (Error "Surgery procedure not found"), w).
Proof.
  intros H. unfold try_catch, bind, prisma_procedure_findUnique.
  rewrite H. reflexivity.
Qed.

(** A confirmation that the client or the database refuses is answered
    with a throw and writes nothing. *)
Lemma confirmPorte_refused (id : string) (confirmation : ConfirmPorteRequest.t)
    (now : Z) (w : World) (row : Procedure.t) :
  procedures w !! id = Some row ->
  update_accepted (confirmPorte_data confirmation now) = false ->
  exists code,
    confirmPorte id confirmation now w = (Throw (PrismaError code), w).
Proof.
  intros H Hno. rewrite (confirmPorte_run id confirmation now w row H).
  unfold update_accepted in Hno.
  cbn [confirmPorte_data ProcedureUpdateInput.estimatedDuration
       ProcedureUpdateInput.basePrice is_Int_or_null
       fits_Decimal_10_2_or_null] in Hno.
  destruct (is_Int _); cbn [negb]; [| eauto].
  cbn [andb] in Hno. rewrite Hno. cbn [negb]. eauto.
Qed.

(** The row left by a confirmation that is taken. *)
Lemma confirmPorte_accepted (id : string) (confirmation : ConfirmPorteRequest.t)
    (now : Z) (w : World) (row : Procedure.t) :
  procedures w !! id = Some row ->
  update_accepted (confirmPorte_data confirmation now) = true ->
  procedures (snd (confirmPorte id confirmation now w))
  = <[id := updated_row (confirmPorte_data confirmation now) row]>
      (procedures w).
Proof.
  intros H Hyes. rewrite (confirmPorte_run id confirmation now w row H).
  unfold update_accepted in Hyes.
  cbn [confirmPorte_data ProcedureUpdateInput.estimatedDuration
       ProcedureUpdateInput.basePrice is_Int_or_null
       fits_Decimal_10_2_or_null] in Hyes.
  apply andb_true_iff in Hyes as [-> ->]. cbn [negb].
  destruct (busAccepts w _); reflexivity.
Qed.

(** C4, as the code has it. A confirmation is written when its duration
    is a whole number of 32 bits and its price is within the range of the
    DECIMAL(10,2) column. After [confirmPorte] of such a confirmation on a
    stored procedure, whether or not the confirmation event could be
    published, [getSurgeryById] returns the procedure with the confirmed
    complexity, the confirmed duration and the confirmed price rounded to
    two decimals: at most half a hundredth from the price supplied by the
    operator and equal to it when that has no more than two decimals,
    whatever [calculateBasePrice] would give for that complexity and
    duration. Any other confirmation is refused with a throw and
    [getSurgeryById] returns the procedure as it was stored before. *)
Theorem confirmPorte_then_getSurgeryById :
  forall id confirmation now w row,
    procedures w !! id = Some row ->
    let w' := snd (confirmPorte id confirmation now w) in
    let minutes := ConfirmPorteRequest.estimatedDuration confirmation in
    let price := ConfirmPorteRequest.basePrice confirmation in
    exists dto,
      getSurgeryById id w' =
      (Return (success_response dto
                 "Surgery procedure retrieved successfully"), w')
      /\ SurgeryProcedure.id dto = Procedure.id row
      /\ (is_Int minutes = true ->
          fits_Decimal_10_2 price = true ->
          SurgeryProcedure.complexity dto
          = ConfirmPorteRequest.complexity confirmation
          /\ (SurgeryProcedure.estimatedDuration dto == minutes)%Q
          /\ SurgeryProcedure.basePrice dto = Decimal_10_2 price
          /\ (SurgeryProcedure.basePrice dto - (1 # 200) <= price
              <= SurgeryProcedure.basePrice dto + (1 # 200))%Q
          /\ (forall hundredths : Z,
                (price == inject_Z hundredths / 100)%Q ->
                (SurgeryProcedure.basePrice dto == price)%Q))
      /\ (is_Int minutes = false \/ fits_Decimal_10_2 price = false ->
          (exists code,
             confirmPorte id confirmation now w
             = (Throw (PrismaError code), w))
          /\ dto = mapProcedureToSurgery
                     (row, patients w !! Procedure.patientId row)).
Proof.
  intros id confirmation now w row H w' minutes price.
  destruct (update_accepted (confirmPorte_data confirmation now)) eqn:Hacc.
  - assert (Hrow : procedures w' !! id
                   = Some (updated_row (confirmPorte_data confirmation now) row)).
    { subst w'. rewrite (confirmPorte_accepted id confirmation now w row H Hacc).
      apply lookup_insert_eq. }
    eexists. split; [apply (getSurgeryById_run id w' _ Hrow) |].
    split; [reflexivity |].
    apply andb_true_iff in Hacc as [Hminutes Hfits].
    cbn [confirmPorte_data ProcedureUpdateInput.estimatedDuration
         ProcedureUpdateInput.basePrice is_Int_or_null
         fits_Decimal_10_2_or_null] in Hminutes, Hfits.
    fold minutes in Hminutes. fold price in Hfits.
    split.
    + intros _ _.
      cbn [mapProcedureToSurgery updated_row confirmPorte_data
           SurgeryProcedure.complexity SurgeryProcedure.estimatedDuration
           SurgeryProcedure.basePrice Procedure.complexity
           Procedure.estimatedDuration Procedure.basePrice
           ProcedureUpdateInput.complexity
           ProcedureUpdateInput.estimatedDuration
           ProcedureUpdateInput.basePrice default decimal_or_zero].
      fold minutes price.
      split; [reflexivity |].
      split.
      { pose proof (is_Int_Int_of minutes Hminutes) as E.
        unfold or_number. destruct (Qeq_bool (Int_of minutes) 0) eqn:Z0.
        - apply Qeq_bool_eq in Z0. rewrite <- E, Z0. reflexivity.
        - exact E. }
      split; [reflexivity |].
      split; [apply Decimal_10_2_bounds |].
      intros hundredths. apply Decimal_10_2_exact.
    + intros [Hno | Hno]; congruence.
  - destruct (confirmPorte_refused id confirmation now w row H Hacc)
      as [code Hrun].
    assert (Hw : w' = w) by (subst w'; now rewrite Hrun).
    eexists. rewrite Hw.
    split; [apply (getSurgeryById_run id w row H) |].
    split; [reflexivity |].
    apply andb_false_iff in Hacc.
    cbn [confirmPorte_data ProcedureUpdateInput.estimatedDuration
         ProcedureUpdateInput.basePrice is_Int_or_null
         fits_Decimal_10_2_or_null] in Hacc.
    fold minutes price in Hacc.
    split.
    + intros Hminutes Hfits. destruct Hacc; congruence.
    + intros _. split; [eauto | reflexivity].
Qed.

Lemma confirmPorte_then_getSurgeryById_witness :
  let w := sample_world_1 bus_down in
  let confirmation := sample_confirmation (12345 # 100) in
  is_Some (procedures w !! "0")
  /\ calculateBasePrice PORTE_1 45%Q = 500%Q
  /\ exists dto,
       fst (getSurgeryById "0"
              (snd (confirmPorte "0" confirmation sample_now w)))
       = Return (success_response dto
                   "Surgery procedure retrieved successfully")
       /\ SurgeryProcedure.complexity dto = PORTE_1
       /\ (SurgeryProcedure.basePrice dto == 12345 # 100)%Q.
Proof.
  intros w confirmation.
  destruct (procedures w !! "0") as [row |] eqn:E;
    [| vm_compute in E; discriminate].
  split; [eauto |]. split; [vm_compute; reflexivity |].
  destruct (confirmPorte_then_getSurgeryById "0" confirmation sample_now w
              row E)
    as (dto & Hget & _ & Hyes & _).
  destruct Hyes as (Hc & _ & _ & _ & Hp);
    [vm_compute; reflexivity | vm_compute; reflexivity |].
  exists dto. rewrite Hget. split; [reflexivity |].
  split; [exact Hc |]. apply (Hp 12345). reflexivity.
Defined.

(** C4, as stated, fails. A price of 123.456 is confirmed, answered with
    success, and read back as 123.46; a duration of 45.5 minutes is refused
    by the INTEGER column, and what is read back is the classification
    stored before (PORTE_3, 90 minutes, 4500). *)
Lemma confirmPorte_not_read_back_exactly :
  let w := sample_world_1 bus_up in
  let by_price := sample_confirmation (123456 # 1000) in
  let by_minutes :=
    {| ConfirmPorteRequest.complexity := PORTE_1;
       ConfirmPorteRequest.estimatedDuration := (91 # 2)%Q;
       ConfirmPorteRequest.basePrice := 750%Q;
       ConfirmPorteRequest.confirmedBy := "surgeon-7";
       ConfirmPorteRequest.notes := None |} in
  let read confirmation :=
    match fst (getSurgeryById "0"
                 (snd (confirmPorte "0" confirmation sample_now w))) with
    | Return resp => ApiResponse.data resp
    | Throw _ => None
    end in
  is_Some (procedures w !! "0")
  /\ caller_sees (SurgeryController_confirmPorte "0" by_price sample_now w)
     = Some (200, true)
  /\ (SurgeryProcedure.basePrice <$> read by_price) = Some (6173 # 50)%Q
  /\ ~ (6173 # 50 == ConfirmPorteRequest.basePrice by_price)%Q
  /\ caller_sees (SurgeryController_confirmPorte "0" by_minutes sample_now w)
     = Some (500, false)
  /\ (SurgeryProcedure.complexity <$> read by_minutes) = Some PORTE_3
  /\ (SurgeryProcedure.estimatedDuration <$> read by_minutes) = Some 90%Q
  /\ (SurgeryProcedure.basePrice <$> read by_minutes) = Some 4500%Q.
Proof.
  intros w by_price by_minutes read.
  split; [vm_compute; eauto |].
  split; [vm_compute; reflexivity |].
  split; [vm_compute; reflexivity |].
  split; [unfold Qeq; simpl; lia |].
  repeat split; vm_compute; reflexivity.
Qed.

(** ** The stored price *)

Lemma prices_nonnegative_insert (w : World) (id : string) (row : Procedure.t)
    (logs : list AuditLog.t) (evs : list Event) :
  prices_nonnegative w ->
  (forall p, Procedure.basePrice row = Some p -> (0 <= p)%Q) ->
  prices_nonnegative
    (mkWorld (patients w) (<[id := row]> (procedures w)) logs evs
             (busAccepts w)).
Proof.
  intros Hw Hrow. unfold prices_nonnegative. cbn [procedures].
  apply map_Forall_insert_2; assumption.
Qed.

Lemma createSurgery_prices (data : CreateSurgeryRequest.t) (w : World) :
  prices_nonnegative w -> prices_nonnegative (snd (createSurgery data w)).
Proof.
  intros Hw.
  destruct (patients w !! CreateSurgeryRequest.patientId data)
    as [patient |] eqn:Hp.
  - rewrite (createSurgery_run data w patient Hp).
    destruct (negb (_ && _)); [exact Hw |].
    destruct (negb (fits_Decimal_10_2 _)); [exact Hw |].
    destruct (code_taken _ _); [exact Hw |].
    pose proof (stored_row_createSurgery data (fresh (dom (procedures w))))
      as (_ & _ & _ & _ & Hprice & _).
    destruct (busAccepts w _); cbn [snd];
      (apply prices_nonnegative_insert; [exact Hw |]);
      rewrite Hprice; intros p [= <-]; apply calculateBasePrice_nonneg.
  - rewrite (createSurgery_unknown_patient data w Hp). exact Hw.
Qed.

Lemma updateSurgeryStatus_prices (id : string) (status : Status)
    (updatedBy : string) (now : Z) (w : World) :
  prices_nonnegative w ->
  prices_nonnegative (snd (updateSurgeryStatus id status updatedBy now w)).
Proof.
  intros Hw. destruct (procedures w !! id) as [row |] eqn:Hrow.
  - rewrite (updateSurgeryStatus_run id status updatedBy now w row Hrow).
    destruct (busAccepts w _); cbn [snd];
      (apply prices_nonnegative_insert; [exact Hw |]);
      intros p Hp; exact (Hw id row Hrow p Hp).
  - unfold updateSurgeryStatus. rewrite update_unknown by exact Hrow.
    exact Hw.
Qed.

Lemma confirmPorte_prices (id : string) (confirmation : ConfirmPorteRequest.t)
    (now : Z) (w : World) :
  prices_nonnegative w ->
  (- (1 # 200) < ConfirmPorteRequest.basePrice confirmation)%Q ->
  prices_nonnegative (snd (confirmPorte id confirmation now w)).
Proof.
  intros Hw Hprice. destruct (procedures w !! id) as [row |] eqn:Hrow.
  - rewrite (confirmPorte_run id confirmation now w row Hrow).
    destruct (negb (is_Int _)); [exact Hw |].
    destruct (negb (fits_Decimal_10_2 _)); [exact Hw |].
    destruct (busAccepts w _); cbn [snd];
      (apply prices_nonnegative_insert; [exact Hw |]);
      intros p [= <-]; now apply Decimal_10_2_above.
  - unfold confirmPorte. rewrite update_unknown by exact Hrow. exact Hw.
Qed.

Lemma confirmPorte_negative_price (id : string)
    (confirmation : ConfirmPorteRequest.t) (now : Z) (w : World)
    (row : Procedure.t) :
  procedures w !! id = Some row ->
  is_Int (ConfirmPorteRequest.estimatedDuration confirmation) = true ->
  fits_Decimal_10_2 (ConfirmPorteRequest.basePrice confirmation) = true ->
  (ConfirmPorteRequest.basePrice confirmation <= - (1 # 200))%Q ->
  ~ prices_nonnegative (snd (confirmPorte id confirmation now w)).
Proof.
  intros Hrow Hminutes Hfits Hneg Hinv.
  rewrite (confirmPorte_run id confirmation now w row Hrow), Hminutes, Hfits
    in Hinv.
  cbn [negb] in Hinv.
  pose proof (Decimal_10_2_negative _ Hneg) as Hstored.
  assert (H : (0 <= Decimal_10_2
                      (ConfirmPorteRequest.basePrice confirmation))%Q).
  { destruct (busAccepts w _); cbn [snd] in Hinv;
      exact (Hinv id _ (lookup_insert_eq _ _ _) _ eq_refl). }
  lra.
Qed.

(** C6, as the code has it. The price computed at creation is never
    negative, whatever the complexity and the duration, and
    [createSurgery] and [updateSurgeryStatus] keep every stored price
    non-negative. [confirmPorte] stores the price of the confirmation,
    rounded to two decimals, unchecked: it keeps the stored prices
    non-negative when the confirmed price is above minus half a hundredth
    (such a price is stored as a non-negative one) or when the
    confirmation is refused, and it breaks the invariant when the
    procedure exists, the confirmation is one the database takes (a whole
    number of minutes, a price within the range of the column) and the
    confirmed price is minus half a hundredth or less. *)
Theorem stored_price_invariant :
  (forall c d, (0 <= calculateBasePrice c d)%Q)
  /\ (forall data w,
        prices_nonnegative w ->
        prices_nonnegative (snd (createSurgery data w)))
  /\ (forall id status updatedBy now w,
        prices_nonnegative w ->
        prices_nonnegative
          (snd (updateSurgeryStatus id status updatedBy now w)))
  /\ (forall id confirmation now w,
        prices_nonnegative w ->
        (- (1 # 200) < ConfirmPorteRequest.basePrice confirmation)%Q
        \/ update_accepted (confirmPorte_data confirmation now) = false ->
        prices_nonnegative (snd (confirmPorte id confirmation now w)))
  /\ (forall id confirmation now w row,
        procedures w !! id = Some row ->
        is_Int (ConfirmPorteRequest.estimatedDuration confirmation) = true ->
        fits_Decimal_10_2 (ConfirmPorteRequest.basePrice confirmation)
          = true ->
        (ConfirmPorteRequest.basePrice confirmation <= - (1 # 200))%Q ->
        ~ prices_nonnegative (snd (confirmPorte id confirmation now w))).
Proof.
  split; [exact calculateBasePrice_nonneg |].
  split; [exact createSurgery_prices |].
  split; [exact updateSurgeryStatus_prices |].
  split; [| exact confirmPorte_negative_price].
  intros id confirmation now w Hw [Hprice | Hno].
  - now apply confirmPorte_prices.
  - destruct (procedures w !! id) as [row |] eqn:Hrow.
    + destruct (confirmPorte_refused id confirmation now w row Hrow Hno)
        as [code ->]. exact Hw.
    + unfold confirmPorte. rewrite update_unknown by exact Hrow. exact Hw.
Qed.

Lemma sample_world_prices (bus : Event -> bool) :
  prices_nonnegative (sample_world_1 bus).
Proof.
  unfold sample_world_1, prices_nonnegative. cbn [procedures].
  apply createSurgery_prices. unfold prices_nonnegative, sample_world.
  cbn [procedures]. apply map_Forall_empty.
Qed.

Lemma stored_price_invariant_witness :
  let w := sample_world_1 bus_up in
  prices_nonnegative w
  /\ (- (1 # 200) < 750)%Q
  /\ prices_nonnegative
       (snd (confirmPorte "0" (sample_confirmation 750%Q) sample_now w))
  /\ is_Some (procedures w !! "0")
  /\ (-1 <= - (1 # 200))%Q
  /\ ~ prices_nonnegative
         (snd (confirmPorte "0" (sample_confirmation (-1)%Q) sample_now w)).
Proof.
  intros w.
  destruct stored_price_invariant as (_ & _ & _ & Hkeep & Hbreak).
  split; [apply sample_world_prices |].
  split; [unfold Qlt; simpl; lia |].
  split; [apply Hkeep; [apply sample_world_prices
                       | left; unfold Qlt; simpl; lia] |].
  destruct (procedures w !! "0") as [row |] eqn:E;
    [| vm_compute in E; discriminate].
  split; [eauto |].
  split; [unfold Qle; simpl; lia |].
  apply (Hbreak "0" _ sample_now w row E);
    [vm_compute; reflexivity | vm_compute; reflexivity
     | unfold Qle; simpl; lia].
Defined.

(** C6, as stated, fails: [confirmPorte] accepts a confirmation with the
    price -1, answers with success, and the stored price is -1. *)
Lemma confirmPorte_stores_negative_price :
  let w := sample_world_1 bus_up in
  let run :=
    SurgeryController_confirmPorte "0" (sample_confirmation (-1)%Q)
      sample_now w in
  prices_nonnegative w
  /\ caller_sees run = Some (200, true)
  /\ (Procedure.basePrice <$> procedures (snd run) !! "0")
     = Some (Some (-1)%Q)
  /\ ~ (0 <= -1)%Q.
Proof.
  intros w run. split; [apply sample_world_prices |].
  split; [vm_compute; reflexivity |].
  split; [vm_compute; reflexivity |].
  unfold Qle; simpl; lia.
Qed.

(** ** Failures of the price model *)

(** C9, as the code has it. [calculateBasePrice] has no failure mode at
    all: for every complexity and every duration, negative ones included,
    the call returns a non-negative price, and a negative duration is
    billed as one hour, that is the base rate of the tier. *)
Theorem price_never_fails :
  forall c d,
  exists v,
    price c d = Return v
    /\ (0 <= v)%Q
    /\ ((d < 0)%Q -> v = inject_Z (tier_rate c)).
Proof.
  intros c d. exists (calculateBasePrice c d). split; [reflexivity |].
  split; [apply calculateBasePrice_nonneg |].
  intros H. apply calculateBasePrice_short. lra.
Qed.

Lemma price_never_fails_witness :
  (-30 < 0)%Q /\ price PORTE_2 (-30)%Q = Return 1500%Q.
Proof.
  split; [unfold Qlt; simpl; lia |].
  destruct (price_never_fails PORTE_2 (-30)%Q) as (v & Hv & _ & Hneg).
  rewrite Hv. f_equal. apply Hneg. unfold Qlt; simpl; lia.
Defined.

(** C9, as stated, fails: a duration of -30 minutes is not rejected. The
    price model returns the base rate, and a creation request with that
    duration is answered with 201. *)
Lemma price_accepts_negative_duration :
  (-30 < 0)%Q
  /\ price PORTE_1 (-30)%Q = Return 500%Q
  /\ (forall e, price PORTE_1 (-30)%Q <> Throw e)
  /\ caller_sees (SurgeryController_create
                    (sample_request "31005039" PORTE_1 (-30)%Q)
                    (sample_world bus_up))
     = Some (201, true).
Proof.
  split; [unfold Qlt; simpl; lia |].
  split; [vm_compute; reflexivity |].
  split; [intros e; discriminate |].
  vm_compute. reflexivity.
Qed.

(** ** Failures of the event bus *)

(** The audit request is published inside a [try] whose [catch] only
    logs: whether the bus takes it or not changes neither the result of
    [createSurgery] nor the tables. *)
Lemma createAuditRequest_never_throws (surgery : SurgeryProcedure.t)
    (w : World) :
  createAuditRequest surgery w =
  (Return tt,
   set_outbox (outbox w ++ [AuditRequested (auditRequest_of surgery)]) w).
Proof.
  unfold createAuditRequest, try_catch, eventBus_publish, ret.
  destruct (busAccepts w _); reflexivity.
Qed.

(** The three lifecycle events are published outside any [try] of their
    own: when the bus throws, the exception leaves the service after the
    row has been written, and the controller answers 500. *)
Lemma createSurgery_publish_failure (data : CreateSurgeryRequest.t)
    (w : World) (patient : Patient) :
  patients w !! CreateSurgeryRequest.patientId data = Some patient ->
  is_ProcedureCategory (CreateSurgeryRequest.category data) = true ->
  is_Int (CreateSurgeryRequest.estimatedDuration data) = true ->
  fits_Decimal_10_2
    (calculateBasePrice (CreateSurgeryRequest.complexity data)
       (CreateSurgeryRequest.estimatedDuration data)) = true ->
  code_taken (CreateSurgeryRequest.procedureCode data) (procedures w) = false ->
  (forall surgery, busAccepts w (SurgeryCreated surgery) = false) ->
  let run := SurgeryController_create data w in
  caller_sees run = Some (500, false)
  /\ is_Some (procedures (snd run) !! fresh (dom (procedures w)))
  /\ procedures w !! fresh (dom (procedures w)) = None.
Proof.
  intros Hp Hcategory Hminutes Hfits Hcode Hbus run. subst run.
  unfold SurgeryController_create, try_catch, bind, caller_sees.
  rewrite (createSurgery_run data w patient Hp), Hcategory, Hminutes, Hfits,
    Hcode, Hbus.
  cbn [andb negb fst snd procedures is_Error_with ret sendError json
       HttpResponse.statusCode HttpResponse.body ApiResponse.success].
  split; [reflexivity |]. split; [| apply fresh_id_unused].
  rewrite lookup_insert_eq. eauto.
Qed.

Lemma confirmPorte_publish_failure (id : string)
    (confirmation : ConfirmPorteRequest.t) (now : Z) (w : World)
    (row : Procedure.t) :
  procedures w !! id = Some row ->
  is_Int (ConfirmPorteRequest.estimatedDuration confirmation) = true ->
  fits_Decimal_10_2 (ConfirmPorteRequest.basePrice confirmation) = true ->
  (forall surgery, busAccepts w (PorteConfirmed surgery) = false) ->
  let run := SurgeryController_confirmPorte id confirmation now w in
  caller_sees run = Some (500, false)
  /\ procedures (snd run) !! id
     = Some (updated_row (confirmPorte_data confirmation now) row).
Proof.
  intros Hrow Hminutes Hfits Hbus run. subst run.
  unfold SurgeryController_confirmPorte, try_catch, bind, caller_sees.
  rewrite (confirmPorte_run id confirmation now w row Hrow), Hminutes, Hfits,
    Hbus.
  cbn [negb fst snd procedures is_Error_with ret sendError json
       HttpResponse.statusCode HttpResponse.body ApiResponse.success].
  split; [reflexivity | apply lookup_insert_eq].
Qed.

Lemma updateSurgeryStatus_publish_failure (id : string) (status : Status)
    (updatedBy : string) (now : Z) (w : World) (row : Procedure.t) :
  procedures w !! id = Some row ->
  (forall surgery, busAccepts w (SurgeryStatusUpdated surgery) = false) ->
  let run := SurgeryController_updateStatus id status updatedBy now w in
  caller_sees run = Some (500, false)
  /\ procedures (snd run) !! id
     = Some (updated_row (updateSurgeryStatus_data status now) row).
Proof.
  intros Hrow Hbus run. subst run.
  unfold SurgeryController_updateStatus, try_catch, bind, caller_sees.
  rewrite (updateSurgeryStatus_run id status updatedBy now w row Hrow), Hbus.
  cbn [fst snd procedures is_Error_with ret sendError json
       HttpResponse.statusCode HttpResponse.body ApiResponse.success].
  split; [reflexivity | apply lookup_insert_eq].
Qed.

(** C7 on the code. With the bus up, creating, confirming and updating
    answer 201, 200 and 200. With the bus down, the same three requests
    are answered with 500 and [success = false] although the row has been
    written (the new procedure is stored, the confirmed price is stored,
    the new status is stored). Only the failure of the audit request is
    kept from the caller: with the bus down for that topic alone, the
    creation still answers 201. *)
Lemma publish_failure_reaches_caller :
  let request := sample_request "31005039" PORTE_4 120%Q in
  let confirmation := sample_confirmation 750%Q in
  caller_sees (SurgeryController_create request (sample_world bus_up))
    = Some (201, true)
  /\ caller_sees (SurgeryController_create request (sample_world bus_down))
     = Some (500, false)
  /\ (Procedure.status <$>
      procedures (snd (SurgeryController_create request
                         (sample_world bus_down))) !! "0")
     = Some SCHEDULED
  /\ caller_sees (SurgeryController_create request
                    (sample_world (bus_down_for "AuditRequested")))
     = Some (201, true)
  /\ caller_sees (SurgeryController_confirmPorte "0" confirmation sample_now
                    (sample_world_1 bus_up))
     = Some (200, true)
  /\ caller_sees (SurgeryController_confirmPorte "0" confirmation sample_now
                    (sample_world_1 bus_down))
     = Some (500, false)
  /\ (Procedure.basePrice <$>
      procedures (snd (SurgeryController_confirmPorte "0" confirmation
                         sample_now (sample_world_1 bus_down))) !! "0")
     = Some (Some 750%Q)
  /\ caller_sees (SurgeryController_updateStatus "0" CONFIRMED "nurse-3"
                    sample_now (sample_world_1 bus_up))
     = Some (200, true)
  /\ caller_sees (SurgeryController_updateStatus "0" CONFIRMED "nurse-3"
                    sample_now (sample_world_1 bus_down))
     = Some (500, false)
  /\ (Procedure.status <$>
      procedures (snd (SurgeryController_updateStatus "0" CONFIRMED "nurse-3"
                         sample_now (sample_world_1 bus_down))) !! "0")
     = Some CONFIRMED.
Proof. repeat split; vm_compute; reflexivity. Qed.

(** ** PortValidator *)

Lemma truthy_JStr (s : string) : truthy (JStr s) = true <-> s <> "".
Proof.
  simpl. rewrite negb_true_iff. apply String.eqb_neq.
Qed.

Lemma truthy_JNum (n : Z) : truthy (JNum n) = true <-> n <> 0.
Proof. simpl. rewrite negb_true_iff. apply Z.eqb_neq. Qed.

Example parseInt_examples :
  let nbsp := String (ascii_of_nat 194) (String (ascii_of_nat 160) "") in
  parseInt (JStr "3") = Some 3
  /\ parseInt (JStr "  42abc") = Some 42
  /\ parseInt (JStr (String.append nbsp "42")) = Some 42
  /\ parseInt (JStr "-7") = Some (-7)
  /\ parseInt (JStr "3.9") = Some 3
  /\ parseInt (JStr "0x1F") = Some 31
  /\ parseInt (JStr "abc") = None
  /\ parseInt (JStr "") = None
  /\ parseInt (JNum 4) = Some 4
  /\ parseInt JNull = None.
Proof. repeat split. Qed.

(** The string "0" is truthy and is read as the port 0: only the number
    0 is taken for a missing port. *)
Example validatePorte_port_zero_as_string :
  (PorteVerdict.isValid <$>
   ApiResponse.data
     (HttpResponse.body
        (validatePorte sample_rules
           (ValidatePorteRequest.mk (JStr "31005039") (JStr "0")))))
  = Some true.
Proof. reflexivity. Qed.

Lemma validatePorte_missing (rules : list PortValidationRule.t)
    (body : ValidatePorteRequest.t) :
  truthy (ValidatePorteRequest.procedureCode body) = false
  \/ truthy (ValidatePorteRequest.reportedPorte body) = false ->
  validatePorte rules body =
  sendError "procedureCode and reportedPorte are required" 400.
Proof.
  intros H. unfold validatePorte.
  destruct H as [-> | ->]; [reflexivity | now rewrite orb_true_r].
Qed.

Lemma validatePorte_no_rule (rules : list PortValidationRule.t)
    (code : string) (reported : JsValue) :
  code <> "" -> truthy reported = true ->
  portValidationRule_findFirst rules (JStr code) = Return None ->
  validatePorte rules (ValidatePorteRequest.mk (JStr code) reported) =
  sendResponse
    {| PorteVerdict.isValid := true;
       PorteVerdict.procedureCode := JStr code;
       PorteVerdict.reportedPorte := reported;
       PorteVerdict.expectedPorte := reported;
       PorteVerdict.minimumPorte := None;
       PorteVerdict.maximumPorte := None;
       PorteVerdict.severity := Severity.INFO;
       PorteVerdict.message := "No validation rule found for this procedure" |}
    "Porte validated successfully".
Proof.
  intros Hcode Hrep Hrule. unfold validatePorte.
  cbn [ValidatePorteRequest.procedureCode ValidatePorteRequest.reportedPorte].
  rewrite (proj2 (truthy_JStr code) Hcode), Hrep, Hrule. reflexivity.
Qed.

(** The verdict computed from a rule and the parsed port. *)
Lemma validatePorte_rule (rules : list PortValidationRule.t) (code : string)
    (reported : JsValue) (rule : PortValidationRule.t) :
  code <> "" -> truthy reported = true ->
  portValidationRule_findFirst rules (JStr code) = Return (Some rule) ->
  exists v,
    validatePorte rules (ValidatePorteRequest.mk (JStr code) reported) =
    sendResponse v "Porte validated successfully"
    /\ PorteVerdict.isValid v =
       num_ge (parseInt reported) (PortValidationRule.minimumPort rule)
       && num_le (parseInt reported) (PortValidationRule.maximumPort rule)
    /\ PorteVerdict.expectedPorte v =
       JNum (PortValidationRule.recommendedPort rule)
    /\ PorteVerdict.severity v =
       if PorteVerdict.isValid v then Severity.INFO
       else
         let diff :=
           Math_abs (num_sub (parseInt reported)
                             (PortValidationRule.recommendedPort rule)) in
         if num_ge diff 2 then Severity.HIGH
         else if num_eq diff 1 then Severity.MEDIUM
         else Severity.LOW.
Proof.
  intros Hcode Hrep Hrule. unfold validatePorte.
  cbn [ValidatePorteRequest.procedureCode ValidatePorteRequest.reportedPorte].
  rewrite (proj2 (truthy_JStr code) Hcode), Hrep, Hrule.
  cbn [negb orb]. eexists. split; [reflexivity |].
  cbn [PorteVerdict.isValid PorteVerdict.expectedPorte PorteVerdict.severity].
  repeat split.
  destruct (num_ge (parseInt reported) _ && num_le (parseInt reported) _);
    reflexivity.
Qed.

(** C2, as the code has it. For a non-empty procedure code with an active
    rule and a reported port that is a non-zero integer, the verdict is
    valid if and only if the port lies between the rule's minimum and
    maximum, and it expects the recommended port; a valid verdict has
    severity INFO; an invalid one has severity HIGH if and only if the
    port is at least 2 away from the recommended port, MEDIUM if and only
    if it is exactly 1 away, and LOW if and only if it is neither. *)
Theorem validatePorte_with_rule :
  forall rules code rule p,
    code <> "" ->
    portValidationRule_findFirst rules (JStr code) = Return (Some rule) ->
    p <> 0 ->
    Z.abs p < 10 ^ 21 ->
    let minimumPort := PortValidationRule.minimumPort rule in
    let maximumPort := PortValidationRule.maximumPort rule in
    let recommendedPort := PortValidationRule.recommendedPort rule in
    exists v,
      validatePorte rules (ValidatePorteRequest.mk (JStr code) (JNum p)) =
      sendResponse v "Porte validated successfully"
      /\ (PorteVerdict.isValid v = true
          <-> minimumPort <= p <= maximumPort)
      /\ PorteVerdict.expectedPorte v = JNum recommendedPort
      /\ (PorteVerdict.isValid v = true ->
          PorteVerdict.severity v = Severity.INFO)
      /\ (PorteVerdict.isValid v = false ->
          (PorteVerdict.severity v = Severity.HIGH
           <-> 2 <= Z.abs (p - recommendedPort))
          /\ (PorteVerdict.severity v = Severity.MEDIUM
              <-> Z.abs (p - recommendedPort) = 1)
          /\ (PorteVerdict.severity v = Severity.LOW
              <-> Z.abs (p - recommendedPort) < 1)).
Proof.
  intros rules code rule p Hcode Hrule Hp _ minimumPort maximumPort
    recommendedPort.
  destruct (validatePorte_rule rules code (JNum p) rule Hcode
              (proj2 (truthy_JNum p) Hp) Hrule)
    as (v & Hrun & Hvalid & Hexp & Hsev).
  exists v. split; [exact Hrun |].
  cbn [parseInt num_ge num_le num_sub Math_abs num_eq fmap option_fmap
       option_map] in Hvalid, Hsev.
  fold minimumPort maximumPort recommendedPort in Hvalid, Hsev.
  split.
  { rewrite Hvalid, andb_true_iff, !Z.leb_le. reflexivity. }
  split; [exact Hexp |].
  split.
  { intros Hv. now rewrite Hv in Hsev. }
  intros Hv. rewrite Hv in Hsev. rewrite Hsev.
  destruct (2 <=? Z.abs (p - recommendedPort)) eqn:E2.
  - apply Z.leb_le in E2. repeat split; try discriminate; try lia; auto.
  - apply Z.leb_gt in E2.
    destruct (Z.abs (p - recommendedPort) =? 1) eqn:E1.
    + apply Z.eqb_eq in E1. repeat split; try discriminate; try lia; auto.
    + apply Z.eqb_neq in E1. repeat split; try discriminate; try lia; auto.
Qed.

Lemma validatePorte_with_rule_witness :
  "30602017" <> ""
  /\ portValidationRule_findFirst sample_rules (JStr "30602017")
     = Return (Some (PortValidationRule.mk "30602017" 2 3 2 true))
  /\ 4 <> 0
  /\ Z.abs 4 < 10 ^ 21
  /\ exists v,
       validatePorte sample_rules
         (ValidatePorteRequest.mk (JStr "30602017") (JNum 4))
       = sendResponse v "Porte validated successfully"
       /\ PorteVerdict.isValid v = false
       /\ PorteVerdict.severity v = Severity.HIGH.
Proof.
  assert (Hcode : "30602017" <> "") by discriminate.
  assert (Hrule : portValidationRule_findFirst sample_rules (JStr "30602017")
                  = Return (Some (PortValidationRule.mk "30602017" 2 3 2 true)))
    by reflexivity.
  assert (Hp : 4 <> 0) by lia.
  assert (Hsafe : Z.abs 4 < 10 ^ 21) by (vm_compute; reflexivity).
  repeat (split; [assumption |]).
  destruct (validatePorte_with_rule sample_rules "30602017" _ 4
              Hcode Hrule Hp Hsafe)
    as (v & Hrun & Hvalid & _ & _ & Hsev).
  exists v. split; [exact Hrun |].
  assert (Hinvalid : PorteVerdict.isValid v = false).
  { destruct (PorteVerdict.isValid v); [| reflexivity].
    destruct (proj1 Hvalid eq_refl) as [_ Hmax]. simpl in Hmax. lia. }
  split; [exact Hinvalid |].
  apply (proj1 (Hsev Hinvalid)). simpl. lia.
Defined.

(** The scenario of the specification: rule [2, 3] recommending 2, reported
    port 4. *)
Example validatePorte_scenario :
  validatePorte sample_rules
    (ValidatePorteRequest.mk (JStr "30602017") (JNum 4))
  = sendResponse
      {| PorteVerdict.isValid := false;
         PorteVerdict.procedureCode := JStr "30602017";
         PorteVerdict.reportedPorte := JNum 4;
         PorteVerdict.expectedPorte := JNum 2;
         PorteVerdict.minimumPorte := Some 2;
         PorteVerdict.maximumPorte := Some 3;
         PorteVerdict.severity := Severity.HIGH;
         PorteVerdict.message :=
           "Porte divergence detected. Expected: 2, Reported: 4" |}
      "Porte validated successfully".
Proof. vm_compute. reflexivity. Qed.

(** C2, as stated, fails at the reported port 0: the rule of code
    31005039 accepts the ports 0 to 2, yet the request is answered with
    400 and no verdict, because [!reportedPorte] holds for the number 0. *)
Lemma validatePorte_rejects_port_zero :
  let rule := PortValidationRule.mk "31005039" 0 2 1 true in
  let res :=
    validatePorte sample_rules
      (ValidatePorteRequest.mk (JStr "31005039") (JNum 0)) in
  portValidationRule_findFirst sample_rules (JStr "31005039")
  = Return (Some rule)
  /\ PortValidationRule.minimumPort rule <= 0
     <= PortValidationRule.maximumPort rule
  /\ res = sendError "procedureCode and reportedPorte are required" 400
  /\ ApiResponse.data (HttpResponse.body res) = None
  /\ ~ (exists v, res = sendResponse v "Porte validated successfully"
                  /\ PorteVerdict.isValid v = true).
Proof.
  intros rule res. split; [reflexivity |]. split; [simpl; lia |].
  split; [reflexivity |]. split; [reflexivity |].
  intros (v & Hv & _). discriminate Hv.
Qed.

(** C3, as the code has it. For a non-empty procedure code without an
    active rule and a reported port that is present and truthy (any
    non-zero number, any non-empty string, numeric or not), the verdict is
    valid with severity INFO and expects the reported port as it was
    sent. *)
Theorem validatePorte_without_rule :
  forall rules code reported,
    code <> "" ->
    truthy reported = true ->
    portValidationRule_findFirst rules (JStr code) = Return None ->
    exists v,
      validatePorte rules (ValidatePorteRequest.mk (JStr code) reported) =
      sendResponse v "Porte validated successfully"
      /\ PorteVerdict.isValid v = true
      /\ PorteVerdict.severity v = Severity.INFO
      /\ PorteVerdict.expectedPorte v = reported.
Proof.
  intros rules code reported Hcode Hrep Hrule. eexists.
  split; [apply (validatePorte_no_rule rules code reported Hcode Hrep Hrule) |].
  repeat split.
Qed.

Lemma validatePorte_without_rule_witness :
  "40101010" <> ""
  /\ truthy (JStr "nine") = true
  /\ portValidationRule_findFirst sample_rules (JStr "40101010") = Return None
  /\ exists v,
       validatePorte sample_rules
         (ValidatePorteRequest.mk (JStr "40101010") (JStr "nine"))
       = sendResponse v "Porte validated successfully"
       /\ PorteVerdict.isValid v = true
       /\ PorteVerdict.expectedPorte v = JStr "nine".
Proof.
  assert (Hcode : "40101010" <> "") by discriminate.
  assert (Hrep : truthy (JStr "nine") = true) by reflexivity.
  assert (Hrule : portValidationRule_findFirst sample_rules (JStr "40101010")
                  = Return None) by reflexivity.
  repeat (split; [assumption |]).
  destruct (validatePorte_without_rule sample_rules "40101010" (JStr "nine")
              Hcode Hrep Hrule) as (v & Hrun & Hvalid & _ & Hexp).
  exists v. repeat split; assumption.
Defined.

(** C3, as stated, fails at the reported port 0 (and at the empty
    string): without any rule for the code, the request is answered with
    400 and no verdict. *)
Lemma validatePorte_without_rule_rejects_zero :
  let res p :=
    validatePorte sample_rules (ValidatePorteRequest.mk (JStr "99999999") p) in
  portValidationRule_findFirst sample_rules (JStr "99999999") = Return None
  /\ res (JNum 0)
     = sendError "procedureCode and reportedPorte are required" 400
  /\ res (JStr "")
     = sendError "procedureCode and reportedPorte are required" 400
  /\ ~ (exists v, res (JNum 0) = sendResponse v "Porte validated successfully"
                  /\ PorteVerdict.isValid v = true).
Proof.
  intros res. repeat (split; [reflexivity |]).
  intros (v & Hv & _). discriminate Hv.
Qed.

Lemma parseInt_non_numeric_verdict (rules : list PortValidationRule.t)
    (code s : string) (rule : PortValidationRule.t) :
  code <> "" -> s <> "" -> parseInt_string s = None ->
  portValidationRule_findFirst rules (JStr code) = Return (Some rule) ->
  exists v,
    validatePorte rules (ValidatePorteRequest.mk (JStr code) (JStr s)) =
    sendResponse v "Porte validated successfully"
    /\ PorteVerdict.isValid v = false
    /\ PorteVerdict.reportedPorte v = JNaN
    /\ PorteVerdict.severity v = Severity.LOW.
Proof.
  intros Hcode Hs Hnan Hrule. unfold validatePorte.
  cbn [ValidatePorteRequest.procedureCode ValidatePorteRequest.reportedPorte].
  rewrite (proj2 (truthy_JStr code) Hcode), (proj2 (truthy_JStr s) Hs), Hrule.
  cbn [negb orb parseInt]. rewrite Hnan. eexists. split; [reflexivity |].
  repeat split.
Qed.

(** C10, as the code has it. A request whose procedureCode or
    reportedPorte is missing or falsy (undefined, null, false, the number 0,
    the empty string) is answered with 400, whatever the table of rules
    holds, and carries no verdict. A reported port that is a non-empty
    string is never rejected for not being numeric: a verdict is produced,
    valid when the code has no rule, and invalid with severity LOW when it
    has one and the string does not start with a number. *)
Theorem validatePorte_input_check :
  (forall rules body,
     truthy (ValidatePorteRequest.procedureCode body) = false
     \/ truthy (ValidatePorteRequest.reportedPorte body) = false ->
     validatePorte rules body =
     sendError "procedureCode and reportedPorte are required" 400
     /\ ApiResponse.data (HttpResponse.body (validatePorte rules body)) = None)
  /\ (forall rules code s,
        code <> "" -> s <> "" ->
        exists v,
          validatePorte rules (ValidatePorteRequest.mk (JStr code) (JStr s)) =
          sendResponse v "Porte validated successfully"
          /\ (portValidationRule_findFirst rules (JStr code) = Return None ->
              PorteVerdict.isValid v = true)
          /\ (parseInt_string s = None ->
              portValidationRule_findFirst rules (JStr code) <> Return None ->
              PorteVerdict.isValid v = false
              /\ PorteVerdict.severity v = Severity.LOW)).
Proof.
  split.
  - intros rules body H. rewrite (validatePorte_missing rules body H).
    split; reflexivity.
  - intros rules code s Hcode Hs.
    destruct (portValidationRule_findFirst rules (JStr code))
      as [[rule |] | e] eqn:Hrule.
    + destruct (validatePorte_rule rules code (JStr s) rule Hcode
                  (proj2 (truthy_JStr s) Hs) Hrule) as (v & Hrun & Hv & _ & Hsev).
      exists v. split; [exact Hrun |]. split; [discriminate |].
      intros Hnan _. cbn [parseInt] in Hv, Hsev. rewrite Hnan in Hv, Hsev.
      cbn in Hv. rewrite Hv in Hsev. cbn in Hsev. split; assumption.
    + eexists. split;
        [apply (validatePorte_no_rule rules code (JStr s) Hcode
                  (proj2 (truthy_JStr s) Hs) Hrule) |].
      split; [reflexivity |]. intros _ H. now contradiction H.
    + discriminate Hrule.
Qed.

Lemma validatePorte_input_check_witness :
  (truthy JUndefined = false \/ truthy (JNum 3) = false)
  /\ validatePorte sample_rules (ValidatePorteRequest.mk JUndefined (JNum 3))
     = sendError "procedureCode and reportedPorte are required" 400
  /\ "30602017" <> "" /\ "abc" <> ""
  /\ parseInt_string "abc" = None
  /\ exists v,
       validatePorte sample_rules
         (ValidatePorteRequest.mk (JStr "30602017") (JStr "abc"))
       = sendResponse v "Porte validated successfully"
       /\ PorteVerdict.isValid v = false.
Proof.
  destruct validatePorte_input_check as [Hmissing Hstring].
  assert (H1 : truthy JUndefined = false \/ truthy (JNum 3) = false)
    by (left; reflexivity).
  assert (H2 : "30602017" <> "") by discriminate.
  assert (H3 : "abc" <> "") by discriminate.
  assert (H4 : parseInt_string "abc" = None) by reflexivity.
  split; [exact H1 |].
  split; [apply (Hmissing sample_rules
                   (ValidatePorteRequest.mk JUndefined (JNum 3)) H1) |].
  repeat (split; [assumption |]).
  destruct (Hstring sample_rules "30602017" "abc" H2 H3)
    as (v & Hrun & _ & Hnan).
  exists v. split; [exact Hrun |]. apply Hnan; [exact H4 | discriminate].
Defined.

(** C10, as stated, fails for a reported port that is not numeric: "abc"
    passes the check, the rule is looked up, and a verdict is sent with
    status 200, both for a code with a rule and for one without. *)
Lemma validatePorte_accepts_non_numeric :
  let res code :=
    validatePorte sample_rules
      (ValidatePorteRequest.mk (JStr code) (JStr "abc")) in
  parseInt (JStr "abc") = None
  /\ HttpResponse.statusCode (res "30602017") = 200
  /\ (PorteVerdict.isValid <$> ApiResponse.data (HttpResponse.body (res "30602017")))
     = Some false
  /\ (PorteVerdict.severity <$> ApiResponse.data (HttpResponse.body (res "30602017")))
     = Some Severity.LOW
  /\ HttpResponse.statusCode (res "99999999") = 200
  /\ (PorteVerdict.isValid <$> ApiResponse.data (HttpResponse.body (res "99999999")))
     = Some true
  /\ (forall code,
        res code <> sendError "procedureCode and reportedPorte are required" 400
        \/ code = "").
Proof.
  intros res. repeat (split; [reflexivity |]).
  intros code. destruct (String.eqb code "") eqn:E.
  - right. now apply String.eqb_eq.
  - left. subst res. cbn beta. unfold validatePorte.
    cbn [ValidatePorteRequest.procedureCode ValidatePorteRequest.reportedPorte
         truthy].
    rewrite E. cbn [negb orb String.eqb].
    destruct (portValidationRule_findFirst sample_rules (JStr code))
      as [[rule |] | e]; discriminate.
Qed.

(** ** AnalyticsAggregator *)

Lemma diffHours_within_hour (scheduled performed : Z) :
  Qle_bool (diffHours scheduled performed) 1
  = (performed - scheduled <=? one_hour_ms).
Proof.
  unfold diffHours, one_hour_ms.
  change (inject_Z (1000 * 60 * 60)) with (inject_Z 3600000).
  apply eq_true_iff_eq. rewrite Qle_bool_iff, Z.leb_le.
  unfold Qle, Qdiv, Qmult, Qinv, inject_Z. cbn [Qnum Qden].
  lia.
Qed.

Lemma late_not_on_time (d : Z) :
  (one_hour_ms <? d) = negb (d <=? one_hour_ms).
Proof.
  destruct (Z.leb_spec d one_hour_ms), (Z.ltb_spec one_hour_ms d);
    simpl; lia || reflexivity.
Qed.

Lemma tally_step_counts (acc : Tally.t) (proc : Procedure.t) :
  let acc' := tally_step acc proc in
  Tally.procedimentos_no_prazo acc'
  = Tally.procedimentos_no_prazo acc + (if on_time proc then 1 else 0)
  /\ Tally.procedimentos_atrasados acc'
     = Tally.procedimentos_atrasados acc + (if late proc then 1 else 0)
  /\ (Tally.total_atraso acc'
      == Tally.total_atraso acc
         + (if late proc then delay_hours proc else 0))%Q.
Proof.
  unfold tally_step, on_time, late, delay_hours, delay_ms.
  destruct (Procedure.scheduledDate proc) as [scheduled |],
           (Procedure.performedDate proc) as [performed |].
  1: rewrite diffHours_within_hour, late_not_on_time;
     destruct (performed - scheduled <=? one_hour_ms).
  all: destruct (Procedure.duration proc) as [duration |];
    try destruct (Qeq_bool duration 0);
    cbn [Tally.procedimentos_no_prazo Tally.procedimentos_atrasados
         Tally.total_atraso negb];
    repeat split; try lia; try reflexivity;
    try (symmetry; apply Qplus_0_r).
Qed.

Lemma count_cons (f : Procedure.t -> bool) (proc : Procedure.t)
    (l : list Procedure.t) :
  count f (proc :: l) = (if f proc then 1 else 0) + count f l.
Proof.
  unfold count. simpl. destruct (f proc); simpl length; lia.
Qed.

Lemma tally_fold (procs : list Procedure.t) :
  forall acc : Tally.t,
    let r := fold_left tally_step procs acc in
    Tally.procedimentos_no_prazo r
    = Tally.procedimentos_no_prazo acc + count on_time procs
    /\ Tally.procedimentos_atrasados r
       = Tally.procedimentos_atrasados acc + count late procs
    /\ (Tally.total_atraso r
        == Tally.total_atraso acc
           + Qsum (map delay_hours (List.filter late procs)))%Q.
Proof.
  induction procs as [| proc procs IH]; intros acc; cbn [fold_left].
  - unfold count. simpl. repeat split; try lia. symmetry. apply Qplus_0_r.
  - destruct (IH (tally_step acc proc)) as (Hon & Hlate & Hsum).
    destruct (tally_step_counts acc proc) as (Son & Slate & Ssum).
    cbv zeta in *. rewrite Hon, Hlate, Hsum, Son, Slate, Ssum, !count_cons.
    repeat split; try lia.
    cbn [List.filter]. destruct (late proc); cbn [map Qsum fold_right].
    + unfold Qsum. now rewrite Qplus_assoc.
    + now rewrite Qplus_0_r.
Qed.

(** C8. In the efficiency metrics a procedure that has both dates counts
    as on time if and only if it was performed at most one hour after its
    schedule, and as late otherwise; a procedure that lacks a date counts as
    neither, so that the two counts add up to the number of procedures with
    both dates. The punctuality rate is the on-time count over the number
    of all procedures performed in the window, times 100, and it is 0 when
    no procedure has both dates (in particular when there is none at all).
    The average delay is the mean of the delays, in hours, of the late
    procedures alone, and 0 when none is late. *)
Theorem efficiency_punctuality :
  forall procedures startDate endDate,
    let m := efficiencyOf procedures startDate endDate in
    let total := Z.of_nat (length procedures) in
    let onTime := count on_time procedures in
    let lateCount := count late procedures in
    (forall proc d,
       delay_ms proc = Some d ->
       (on_time proc = true <-> d <= one_hour_ms)
       /\ (late proc = true <-> ~ d <= one_hour_ms))
    /\ (forall proc,
          delay_ms proc = None -> on_time proc = false /\ late proc = false)
    /\ ProcedureEfficiency.procedimentos_no_prazo m = onTime
    /\ ProcedureEfficiency.procedimentos_atrasados m = lateCount
    /\ onTime + lateCount = count timed procedures
    /\ count timed procedures <= total
    /\ (ProcedureEfficiency.taxa_pontualidade m ==
        if 0 <? total then inject_Z onTime / inject_Z total * 100 else 0)%Q
    /\ (count timed procedures = 0 ->
        (ProcedureEfficiency.taxa_pontualidade m == 0)%Q)
    /\ (ProcedureEfficiency.tempo_medio_atraso m ==
        if 0 <? lateCount
        then Qsum (map delay_hours (List.filter late procedures))
             / inject_Z lateCount
        else 0)%Q.
Proof.
  intros procedures startDate endDate m total onTime lateCount.
  destruct (tally_fold procedures (Tally.mk 0 0 0%Q 0%Q)) as (Hon & Hlate & Hsum).
  cbv zeta in Hon, Hlate, Hsum.
  cbn [Tally.procedimentos_no_prazo Tally.procedimentos_atrasados
       Tally.total_atraso] in Hon, Hlate, Hsum.
  rewrite Z.add_0_l in Hon, Hlate. rewrite Qplus_0_l in Hsum.
  split.
  { intros proc d Hd. unfold on_time, late. rewrite Hd.
    rewrite Z.leb_le, Z.ltb_lt. lia. }
  split.
  { intros proc Hd. unfold on_time, late. now rewrite Hd. }
  split; [exact Hon |]. split; [exact Hlate |].
  assert (Hsplit : onTime + lateCount = count timed procedures).
  { subst onTime lateCount. clear.
    induction procedures as [| proc l IH]; [reflexivity |].
    rewrite !count_cons, <- IH. unfold on_time, late, timed.
    destruct (delay_ms proc) as [d |]; [| lia].
    rewrite late_not_on_time. destruct (d <=? one_hour_ms); simpl; lia. }
  split; [exact Hsplit |].
  split.
  { subst total. unfold count.
    pose proof (filter_length_le timed procedures). lia. }
  assert (Hrate :
    (ProcedureEfficiency.taxa_pontualidade m ==
     if 0 <? total then inject_Z onTime / inject_Z total * 100 else 0)%Q).
  { subst m. unfold efficiencyOf. cbn [ProcedureEfficiency.taxa_pontualidade].
    fold total. rewrite Hon. reflexivity. }
  split; [exact Hrate |]. split.
  - intros Hnone. rewrite Hrate.
    assert (HonTime : onTime = 0).
    { assert (0 <= onTime /\ 0 <= lateCount)
        by (subst onTime lateCount; unfold count; lia).
      lia. }
    rewrite HonTime. destruct (0 <? total); [| reflexivity].
    unfold Qdiv. rewrite Qmult_0_l. reflexivity.
  - subst m. unfold efficiencyOf. cbn [ProcedureEfficiency.tempo_medio_atraso].
    rewrite Hlate. fold lateCount.
    destruct (0 <? lateCount); [| reflexivity].
    now rewrite Hsum.
Qed.

Lemma efficiency_punctuality_witness :
  let m := efficiencyOf sample_day 0 86399999 in
  (delay_ms <$> sample_day) = [Some 2700000; Some 5400000]
  /\ (on_time <$> sample_day) = [true; false]
  /\ (late <$> sample_day) = [false; true]
  /\ ProcedureEfficiency.procedimentos_no_prazo m = 1
  /\ ProcedureEfficiency.procedimentos_atrasados m = 1
  /\ (ProcedureEfficiency.taxa_pontualidade m == 50)%Q
  /\ (ProcedureEfficiency.tempo_medio_atraso m == 3 # 2)%Q.
Proof.
  intros m.
  destruct (efficiency_punctuality sample_day 0 86399999)
    as (Hclass & _ & Hon & Hlate & _ & _ & Hrate & _ & Hmean).
  fold m in Hon, Hlate, Hrate, Hmean.
  split; [reflexivity |].
  split.
  { assert (H45 : on_time (sample_performed "a" 36000000 (36000000 + 45 * 60000))
                  = true)
      by (apply (proj1 (Hclass
                          (sample_performed "a" 36000000 (36000000 + 45 * 60000))
                          2700000 eq_refl));
          vm_compute; discriminate).
    reflexivity. }
  split; [reflexivity |].
  split; [rewrite Hon; reflexivity |].
  split; [rewrite Hlate; reflexivity |].
  split; [rewrite Hrate; vm_compute; reflexivity |].
  rewrite Hmean. vm_compute. reflexivity.
Defined.

(** A procedure without a scheduled date is counted in the total of the
    punctuality rate but is neither on time nor late. *)
Example efficiency_with_unscheduled_procedure :
  let unscheduled :=
    {| Procedure.id := "c";
       Procedure.code := "c";
       Procedure.name := "Biopsia";
       Procedure.category := "DIAGNOSTIC_PROCEDURE";
       Procedure.complexity := PORTE_1;
       Procedure.estimatedDuration := None;
       Procedure.basePrice := None;
       Procedure.status := COMPLETED;
       Procedure.patientId := "pat-1";
       Procedure.requiresAuthorization := false;
       Procedure.suggestedPort := 1;
       Procedure.tags := [];
       Procedure.scheduledDate := None;
       Procedure.performedDate := Some 40000000;
       Procedure.duration := None;
       Procedure.hospitalId := Some "H1";
       Procedure.updatedAt := None |} in
  let m := efficiencyOf (unscheduled :: sample_day) 0 86399999 in
  ProcedureEfficiency.procedimentos_no_prazo m = 1
  /\ ProcedureEfficiency.procedimentos_atrasados m = 1
  /\ (ProcedureEfficiency.taxa_pontualidade m == 100 # 3)%Q.
Proof. repeat split. Qed.

(** * Further properties of the code *)

(** ** What a request can do to the world *)

Lemma snd_try_catch_rethrow {A : Type} (m : M A) (w : World) :
  snd (try_catch m (fun error => throw error) w) = snd (m w).
Proof. unfold try_catch, throw. destruct (m w) as [[a | e] w']; reflexivity. Qed.

Lemma snd_controller {A B : Type} (m : M A) (ok : A -> B)
    (failed : Exn -> B) (w : World) :
  snd (try_catch (await result <- m ; ret (ok result))
                 (fun error => ret (failed error)) w)
  = snd (m w).
Proof.
  unfold try_catch, bind, ret. destruct (m w) as [[a | e] w']; reflexivity.
Qed.

Lemma snd_handle (request : Request) (w : World) :
  snd (handle request w) =
  match request with
  | Create createRequest => snd (createSurgery createRequest w)
  | GetById id => snd (getSurgeryById id w)
  | ConfirmPorte id confirmation now =>
      snd (confirmPorte id confirmation now w)
  | UpdateStatus id status updatedBy now =>
      snd (updateSurgeryStatus id status updatedBy now w)
  end.
Proof.
  destruct request; cbn [handle];
    unfold SurgeryController_create, SurgeryController_getById,
      SurgeryController_confirmPorte, SurgeryController_updateStatus,
      try_catch, bind, ret.
  - destruct (createSurgery createRequest w) as [[a | e] w'];
      [reflexivity |]. destruct (is_Error_with _ e); reflexivity.
  - destruct (getSurgeryById id w) as [[a | e] w'];
      [reflexivity |]. destruct (is_Error_with _ e); reflexivity.
  - destruct (confirmPorte id confirmation now w) as [[a | e] w'];
      [reflexivity |]. destruct (is_Error_with _ e); reflexivity.
  - destruct (updateSurgeryStatus id status updatedBy now w) as [[a | e] w'];
      [reflexivity |]. destruct (is_Error_with _ e); reflexivity.
Qed.

Lemma getSurgeryById_unknown (id : string) (w : World) :
  procedures w !! id = None ->
  getSurgeryById id w = (Throw (Error "Surgery procedure not found"), w).
Proof.
  intros H. unfold getSurgeryById, try_catch, bind, prisma_procedure_findUnique.
  rewrite H. reflexivity.
Qed.

Lemma handle_shape (request : Request) (w : World) :
  step_shape w (snd (handle request w)).
Proof.
  rewrite snd_handle. destruct request.
  - destruct (patients w !! CreateSurgeryRequest.patientId createRequest)
      as [patient |] eqn:Hp.
    + rewrite (createSurgery_run createRequest w patient Hp).
      destruct (negb (_ && _)); [now apply step_none |].
      destruct (negb (fits_Decimal_10_2 _)); [now apply step_none |].
      destruct (code_taken _ _) eqn:Hcode; [now apply step_none |].
      destruct (busAccepts w _); cbn [snd];
        (eapply step_insert
           with (row := stored_row (createSurgery_data createRequest _ _));
         [apply fresh_id_unused | exact Hcode | reflexivity]).
    + rewrite (createSurgery_unknown_patient createRequest w Hp).
      now apply step_none.
  - destruct (procedures w !! id) as [row |] eqn:Hrow.
    + rewrite (getSurgeryById_run id w row Hrow). now apply step_none.
    + rewrite (getSurgeryById_unknown id w Hrow). now apply step_none.
  - destruct (procedures w !! id) as [row |] eqn:Hrow.
    + rewrite (confirmPorte_run id confirmation now w row Hrow).
      destruct (negb (is_Int _)); [now apply step_none |].
      destruct (negb (fits_Decimal_10_2 _)); [now apply step_none |].
      destruct (busAccepts w _); cbn [snd];
        (eapply step_update with (old := row); [exact Hrow | | | reflexivity]);
        reflexivity.
    + unfold confirmPorte. rewrite update_unknown by exact Hrow.
      now apply step_none.
  - destruct (procedures w !! id) as [row |] eqn:Hrow.
    + rewrite (updateSurgeryStatus_run id status updatedBy now w row Hrow).
      destruct (busAccepts w _); cbn [snd];
        (eapply step_update with (old := row); [exact Hrow | | | reflexivity]);
        reflexivity.
    + unfold updateSurgeryStatus. rewrite update_unknown by exact Hrow.
      now apply step_none.
Qed.

Lemma serve_cons (request : Request) (requests : list Request) (w : World) :
  serve (request :: requests) w = serve requests (snd (handle request w)).
Proof. reflexivity. Qed.

Lemma serve_app (requests1 requests2 : list Request) (w : World) :
  serve (requests1 ++ requests2) w = serve requests2 (serve requests1 w).
Proof. unfold serve. apply fold_left_app. Qed.

Lemma step_shape_append_only (w w' : World) :
  step_shape w w' ->
  patients w' = patients w
  /\ busAccepts w' = busAccepts w
  /\ auditLogs w `prefix_of` auditLogs w'
  /\ outbox w `prefix_of` outbox w'
  /\ dom (procedures w) ⊆ dom (procedures w').
Proof.
  intros [-> | row evs Hnew Hcode -> | id old new log evs Hold Hid Hc ->];
    cbn [patients busAccepts auditLogs outbox procedures].
  - repeat split; reflexivity.
  - repeat split; try reflexivity; try (apply prefix_app_r; reflexivity).
    rewrite dom_insert_L. set_solver.
  - repeat split; try (apply prefix_app_r; reflexivity).
    rewrite dom_insert_L. set_solver.
Qed.

(** X1. Whatever requests are served, in whatever order and whether the
    bus works or not: the patients are untouched, the audit trail and the
    list of emitted events only grow at their end, and no procedure ever
    leaves the table. *)
Theorem serve_append_only :
  forall requests w,
    patients (serve requests w) = patients w
    /\ busAccepts (serve requests w) = busAccepts w
    /\ auditLogs w `prefix_of` auditLogs (serve requests w)
    /\ outbox w `prefix_of` outbox (serve requests w)
    /\ dom (procedures w) ⊆ dom (procedures (serve requests w)).
Proof.
  induction requests as [| request requests IH]; intros w.
  - cbn. repeat split; reflexivity.
  - rewrite serve_cons.
    destruct (step_shape_append_only w _ (handle_shape request w))
      as (Hp & Hb & Ha & Ho & Hd).
    destruct (IH (snd (handle request w))) as (Hp' & Hb' & Ha' & Ho' & Hd').
    repeat split.
    + now rewrite Hp'.
    + now rewrite Hb'.
    + now transitivity (auditLogs (snd (handle request w))).
    + now transitivity (outbox (snd (handle request w))).
    + now transitivity (dom (procedures (snd (handle request w)))).
Qed.

Lemma code_taken_false (code : string) (tbl : gmap string Procedure.t) :
  code_taken code tbl = false ->
  forall id row, tbl !! id = Some row -> Procedure.code row <> code.
Proof.
  unfold code_taken. intros H id row Hrow Heq.
  assert (Hin : In (id, row) (map_to_list tbl))
    by (apply list_elem_of_In, elem_of_map_to_list; exact Hrow).
  assert (Hex : existsb
                  (fun kv => String.eqb (Procedure.code (snd kv)) code)
                  (map_to_list tbl) = true).
  { apply existsb_exists. exists (id, row). split; [exact Hin |].
    cbn. now apply String.eqb_eq. }
  congruence.
Qed.

Lemma step_shape_integrity (w w' : World) :
  step_shape w w' ->
  well_keyed w /\ codes_unique w -> well_keyed w' /\ codes_unique w'.
Proof.
  intros [-> | row evs Hnew Hcode -> | id old new log evs Hold Hid Hc ->]
         [Hkey Huniq]; [now split | |];
    unfold well_keyed, codes_unique; cbn [procedures].
  - split.
    + apply map_Forall_insert_2; [reflexivity | exact Hkey].
    + intros id1 id2 row1 row2 H1 H2 Heq.
      pose proof (code_taken_false _ _ Hcode) as Hfree.
      rewrite lookup_insert in H1, H2.
      destruct (decide (Procedure.id row = id1)),
               (decide (Procedure.id row = id2)); simplify_eq; try reflexivity.
      * exfalso. now apply (Hfree id2 row2 H2).
      * exfalso. now apply (Hfree id1 row1 H1).
      * exact (Huniq _ _ _ _ H1 H2 Heq).
  - split.
    + apply map_Forall_insert_2; [| exact Hkey].
      rewrite Hid. exact (Hkey id old Hold).
    + intros id1 id2 row1 row2 H1 H2 Heq.
      rewrite lookup_insert in H1, H2.
      destruct (decide (id = id1)), (decide (id = id2));
        simplify_eq; try reflexivity.
      * rewrite Hc in Heq. exact (Huniq _ _ _ _ Hold H2 Heq).
      * rewrite Hc in Heq. exact (Huniq _ _ _ _ H1 Hold Heq).
      * exact (Huniq _ _ _ _ H1 H2 Heq).
Qed.

(** X2. Starting from a table in which every row sits under its own id
    and no two rows share a code, no sequence of requests breaks either
    property: the unique index on the code is never violated and a stored
    id never changes. *)
Theorem serve_keeps_integrity :
  forall requests w,
    well_keyed w -> codes_unique w ->
    well_keyed (serve requests w) /\ codes_unique (serve requests w).
Proof.
  induction requests as [| request requests IH]; intros w Hkey Huniq.
  - now split.
  - rewrite serve_cons.
    destruct (step_shape_integrity w _ (handle_shape request w)
                (conj Hkey Huniq)) as [Hkey' Huniq'].
    now apply IH.
Qed.

Lemma serve_keeps_integrity_witness :
  let w := sample_world bus_down in
  well_keyed w /\ codes_unique w
  /\ well_keyed (serve sample_requests w)
  /\ codes_unique (serve sample_requests w)
  /\ (Procedure.status <$> procedures (serve sample_requests w) !! "0")
     = Some COMPLETED
  /\ size (procedures (serve sample_requests w)) = 1%nat.
Proof.
  intros w.
  assert (Hkey : well_keyed w) by apply map_Forall_empty.
  assert (Huniq : codes_unique w).
  { intros id1 id2 row1 row2 H1. cbn in H1. now rewrite lookup_empty in H1. }
  split; [exact Hkey |]. split; [exact Huniq |].
  destruct (serve_keeps_integrity sample_requests w Hkey Huniq) as [H1 H2].
  split; [exact H1 |]. split; [exact H2 |].
  split; vm_compute; reflexivity.
Defined.

(** ** Requests for an id that is not stored *)

(** X3. Reading, confirming or updating a procedure whose id is not in
    the table is answered with 404 "Surgery procedure not found", and
    nothing is written: no row, no audit entry, no event. *)
Theorem unknown_procedure_is_404 :
  forall id confirmation status updatedBy now w,
    procedures w !! id = None ->
    let notFound := sendError "Surgery procedure not found" 404 in
    handle (GetById id) w = (Return notFound, w)
    /\ handle (ConfirmPorte id confirmation now) w = (Return notFound, w)
    /\ handle (UpdateStatus id status updatedBy now) w
       = (Return notFound, w).
Proof.
  intros id confirmation status updatedBy now w H notFound. cbn [handle].
  assert (Hc : confirmPorte id confirmation now w
               = (Throw (Error "Surgery procedure not found"), w))
    by (unfold confirmPorte; now rewrite update_unknown).
  assert (Hu : updateSurgeryStatus id status updatedBy now w
               = (Throw (Error "Surgery procedure not found"), w))
    by (unfold updateSurgeryStatus; now rewrite update_unknown).
  unfold SurgeryController_getById, SurgeryController_confirmPorte,
    SurgeryController_updateStatus.
  split; [| split].
  - unfold try_catch, bind. now rewrite (getSurgeryById_unknown id w H).
  - unfold try_catch, bind. now rewrite Hc.
  - unfold try_catch, bind. now rewrite Hu.
Qed.

Lemma unknown_procedure_is_404_witness :
  procedures (sample_world bus_up) !! "7" = None
  /\ caller_sees (handle (UpdateStatus "7" CANCELLED "nurse-3" sample_now)
                         (sample_world bus_up))
     = Some (404, false).
Proof.
  assert (H : procedures (sample_world bus_up) !! "7" = None) by reflexivity.
  split; [exact H |].
  destruct (unknown_procedure_is_404 "7" (sample_confirmation 1%Q) CANCELLED
              "nurse-3" sample_now (sample_world bus_up) H)
    as (_ & _ & Hupdate).
  unfold caller_sees. rewrite Hupdate. reflexivity.
Defined.

(** ** Creating, then reading *)

Lemma or_number_Some (v d : number) : (d == 0)%Q -> (or_number (Some v) d == v)%Q.
Proof.
  intros Hd. unfold or_number. destruct (Qeq_bool v 0) eqn:E; [| reflexivity].
  apply Qeq_bool_eq in E. now rewrite E, Hd.
Qed.

(** X4. A procedure read back after its creation keeps the id, the
    patient, the code, the name, the category, the complexity, the status,
    the price, the duration and the authorization fields it was created
    with. The rest is not stored: the scheduled date is read back empty,
    the surgeon and the author are read back as the fixed "surgeon-1",
    "Dr. Silva" and "system", and the audit status, PENDING_AUDIT at
    creation, is read back unchanged if and only if the complexity is
    PORTE_3, PORTE_4 or PORTE_ESPECIAL (NOT_REQUIRED otherwise). *)
Theorem createSurgery_then_getSurgeryById :
  forall data w patient resp w',
    patients w !! CreateSurgeryRequest.patientId data = Some patient ->
    createSurgery data w = (Return resp, w') ->
    exists created read,
      ApiResponse.data resp = Some created
      /\ getSurgeryById (SurgeryProcedure.id created) w' =
         (Return (success_response read
                    "Surgery procedure retrieved successfully"), w')
      /\ SurgeryProcedure.id read = SurgeryProcedure.id created
      /\ SurgeryProcedure.patientId read = SurgeryProcedure.patientId created
      /\ SurgeryProcedure.procedureCode read
         = SurgeryProcedure.procedureCode created
      /\ SurgeryProcedure.procedureName read
         = SurgeryProcedure.procedureName created
      /\ SurgeryProcedure.category read = SurgeryProcedure.category created
      /\ SurgeryProcedure.complexity read
         = SurgeryProcedure.complexity created
      /\ SurgeryProcedure.status read = SurgeryProcedure.status created
      /\ SurgeryProcedure.basePrice read = SurgeryProcedure.basePrice created
      /\ (SurgeryProcedure.estimatedDuration read
          == SurgeryProcedure.estimatedDuration created)%Q
      /\ SurgeryProcedure.requiresAuthorization read
         = SurgeryProcedure.requiresAuthorization created
      /\ SurgeryProcedure.authorizationStatus read
         = SurgeryProcedure.authorizationStatus created
      /\ (SurgeryProcedure.auditStatus read
          = SurgeryProcedure.auditStatus created
          <-> SurgeryProcedure.complexity created
              ∈ [PORTE_3; PORTE_4; PORTE_ESPECIAL])
      /\ SurgeryProcedure.scheduledDate read = None
      /\ SurgeryProcedure.surgeonId read = "surgeon-1"
      /\ SurgeryProcedure.surgeonName read = "Dr. Silva"
      /\ SurgeryProcedure.createdBy read = "system"
      /\ (fullName patient <> "" ->
          SurgeryProcedure.patientName read
          = SurgeryProcedure.patientName created).
Proof.
  intros data w patient resp w' Hp Hrun.
  rewrite (createSurgery_run data w patient Hp) in Hrun.
  destruct (is_ProcedureCategory _ && is_Int _) eqn:Hvalid;
    [| discriminate].
  apply andb_true_iff in Hvalid as [_ Hminutes]. cbn [negb] in Hrun.
  destruct (negb (fits_Decimal_10_2 _)); [discriminate |].
  destruct (code_taken _ _); [discriminate |].
  destruct (busAccepts w _); [| discriminate].
  injection Hrun as <- <-.
  eexists _, _. split; [reflexivity |].
  split.
  { apply getSurgeryById_run. cbn [procedures SurgeryProcedure.id
      createSurgery_surgeryProcedure createSurgery_data stored_row
      Procedure.id].
    apply lookup_insert_eq. }
  cbn [mapProcedureToSurgery createSurgery_surgeryProcedure createSurgery_data
       stored_row fmap option_fmap option_map
       SurgeryProcedure.id SurgeryProcedure.patientId
       SurgeryProcedure.procedureCode SurgeryProcedure.procedureName
       SurgeryProcedure.category SurgeryProcedure.complexity
       SurgeryProcedure.status SurgeryProcedure.basePrice
       SurgeryProcedure.estimatedDuration
       SurgeryProcedure.requiresAuthorization
       SurgeryProcedure.authorizationStatus SurgeryProcedure.auditStatus
       SurgeryProcedure.scheduledDate SurgeryProcedure.surgeonId
       SurgeryProcedure.surgeonName SurgeryProcedure.createdBy
       SurgeryProcedure.patientName
       Procedure.id Procedure.patientId Procedure.code Procedure.name
       Procedure.category Procedure.complexity Procedure.status
       Procedure.basePrice Procedure.estimatedDuration
       Procedure.requiresAuthorization Procedure.scheduledDate
       decimal_or_zero patients].
  rewrite Decimal_10_2_calculateBasePrice.
  repeat (split; [reflexivity |]).
  split.
  { rewrite or_number_Some by reflexivity. now apply is_Int_Int_of. }
  repeat (split; [reflexivity |]).
  split.
  { rewrite <- requiresAudit_spec.
    destruct (requiresAudit (CreateSurgeryRequest.complexity data));
      split; congruence. }
  repeat (split; [reflexivity |]).
  intros Hname. rewrite Hp. cbn. apply String.eqb_neq in Hname.
  now rewrite Hname.
Qed.

Lemma createSurgery_then_getSurgeryById_witness :
  let data := sample_request "31005039" PORTE_2 75%Q in
  let w := sample_world bus_up in
  patients w !! CreateSurgeryRequest.patientId data = Some sample_patient
  /\ match createSurgery data w with
     | (Return resp, w') =>
         exists created read,
           ApiResponse.data resp = Some created
           /\ fst (getSurgeryById (SurgeryProcedure.id created) w')
              = Return (success_response read
                          "Surgery procedure retrieved successfully")
           /\ SurgeryProcedure.basePrice read
              = SurgeryProcedure.basePrice created
           /\ SurgeryProcedure.auditStatus created = PENDING_AUDIT
           /\ SurgeryProcedure.auditStatus read <> PENDING_AUDIT
     | (Throw _, _) => False
     end.
Proof.
  intros data w. split; [reflexivity |].
  destruct (createSurgery data w) as [[resp | e] w'] eqn:E.
  - destruct (createSurgery_then_getSurgeryById data w sample_patient resp w'
                eq_refl E)
      as (created & read & Hd & Hget & _ & _ & _ & _ & _ & Hc & _ & Hprice
          & _ & _ & _ & Haudit & _).
    exists created, read. split; [exact Hd |].
    split; [now rewrite Hget |]. split; [exact Hprice |].
    vm_compute in E. injection E as Hresp _. subst resp.
    cbn in Hd. injection Hd as Hcreated.
    assert (Hpending : SurgeryProcedure.auditStatus created = PENDING_AUDIT)
      by now rewrite <- Hcreated.
    split; [exact Hpending |].
    intros Hread. rewrite <- Hpending in Hread. apply Haudit in Hread.
    rewrite <- Hcreated in Hread. cbn in Hread.
    repeat (apply elem_of_cons in Hread as [Hread | Hread];
            [discriminate |]).
    inversion Hread.
  - vm_compute in E. discriminate.
Defined.

Lemma startsWith_nonempty (s : string) :
  startsWith s "room-" = true -> String.eqb s "" = false.
Proof. destruct s; [discriminate | reflexivity]. Qed.

Lemma includes_nonempty (s : string) :
  includes s "hospital" = true -> String.eqb s "" = false.
Proof. destruct s; [discriminate | reflexivity]. Qed.

Lemma location_of_created_row (data : CreateSurgeryRequest.t)
    (basePrice : number) (id : string) (patient : option Patient) :
  let read :=
    mapProcedureToSurgery (createSurgery_data data basePrice id, patient) in
  let category := CreateSurgeryRequest.category data in
  let hospital := CreateSurgeryRequest.hospital data in
  SurgeryProcedure.operatingRoom read =
    Some (if startsWith category "room-" then category
          else if startsWith hospital "room-" then hospital
          else "Sala 1")
  /\ SurgeryProcedure.hospital read =
     (if includes category "hospital" then category
      else if includes hospital "hospital" then hospital
      else "Hospital Principal").
Proof.
  intros read category hospital. subst read.
  cbn [mapProcedureToSurgery SurgeryProcedure.operatingRoom
       SurgeryProcedure.hospital createSurgery_data Procedure.tags List.find].
  fold category hospital.
  change (startsWith "surgery" "room-") with false.
  change (includes "surgery" "hospital") with false.
  replace (startsWith (Complexity_label (CreateSurgeryRequest.complexity data))
             "room-") with false
    by (destruct (CreateSurgeryRequest.complexity data); reflexivity).
  replace (includes (Complexity_label (CreateSurgeryRequest.complexity data))
             "hospital") with false
    by (destruct (CreateSurgeryRequest.complexity data); reflexivity).
  cbn iota. split.
  - f_equal. unfold or_string.
    destruct (startsWith category "room-") eqn:E1;
      [now rewrite (startsWith_nonempty _ E1) |].
    destruct (startsWith hospital "room-") eqn:E2;
      [now rewrite (startsWith_nonempty _ E2) | reflexivity].
  - unfold or_string.
    destruct (includes category "hospital") eqn:E1;
      [now rewrite (includes_nonempty _ E1) |].
    destruct (includes hospital "hospital") eqn:E2;
      [now rewrite (includes_nonempty _ E2) | reflexivity].
Qed.

(** X5. The operating room of a creation request is not stored. What is
    read back as operating room is the category if it starts with "room-",
    else the hospital if it starts with "room-", else "Sala 1"; what is
    read back as hospital is the category if it contains "hospital", else
    the submitted hospital if it contains "hospital", else "Hospital
    Principal". So the hospital survives the round trip when it contains
    "hospital" and the category does not. *)
Theorem location_read_back :
  forall data w patient resp w',
    patients w !! CreateSurgeryRequest.patientId data = Some patient ->
    createSurgery data w = (Return resp, w') ->
    let category := CreateSurgeryRequest.category data in
    let hospital := CreateSurgeryRequest.hospital data in
    exists created read,
      ApiResponse.data resp = Some created
      /\ getSurgeryById (SurgeryProcedure.id created) w' =
         (Return (success_response read
                    "Surgery procedure retrieved successfully"), w')
      /\ SurgeryProcedure.operatingRoom read =
         Some (if startsWith category "room-" then category
               else if startsWith hospital "room-" then hospital
               else "Sala 1")
      /\ SurgeryProcedure.hospital read =
         (if includes category "hospital" then category
          else if includes hospital "hospital" then hospital
          else "Hospital Principal")
      /\ (includes category "hospital" = false ->
          includes hospital "hospital" = true ->
          SurgeryProcedure.hospital read = SurgeryProcedure.hospital created).
Proof.
  intros data w patient resp w' Hp Hrun category hospital.
  rewrite (createSurgery_run data w patient Hp) in Hrun.
  destruct (negb (_ && _)); [discriminate |].
  destruct (negb (fits_Decimal_10_2 _)); [discriminate |].
  destruct (code_taken _ _); [discriminate |].
  destruct (busAccepts w _); [| discriminate].
  injection Hrun as <- <-.
  eexists _, _. split; [reflexivity |].
  split.
  { apply getSurgeryById_run. cbn [procedures SurgeryProcedure.id
      createSurgery_surgeryProcedure createSurgery_data stored_row
      Procedure.id].
    apply lookup_insert_eq. }
  destruct (location_of_created_row data
              (calculateBasePrice (CreateSurgeryRequest.complexity data)
                 (CreateSurgeryRequest.estimatedDuration data))
              (fresh (dom (procedures w)))
              (patients w !! CreateSurgeryRequest.patientId data))
    as [Hroom Hhosp].
  split; [exact Hroom |]. split; [exact Hhosp |].
  intros H1 H2. cbv zeta in Hhosp. fold category hospital in Hhosp.
  etransitivity; [exact Hhosp |]. rewrite H1, H2. reflexivity.
Qed.

Lemma location_read_back_witness :
  let data := sample_request "31005039" PORTE_2 75%Q in
  let w := sample_world bus_up in
  patients w !! CreateSurgeryRequest.patientId data = Some sample_patient
  /\ CreateSurgeryRequest.operatingRoom data = Some "room-2"
  /\ match createSurgery data w with
     | (Return resp, w') =>
         exists created read,
           ApiResponse.data resp = Some created
           /\ fst (getSurgeryById (SurgeryProcedure.id created) w')
              = Return (success_response read
                          "Surgery procedure retrieved successfully")
           /\ SurgeryProcedure.operatingRoom read = Some "Sala 1"
           /\ SurgeryProcedure.hospital read = "hospital-central"
     | (Throw _, _) => False
     end.
Proof.
  intros data w. split; [reflexivity |]. split; [reflexivity |].
  destruct (createSurgery data w) as [[resp | e] w'] eqn:E.
  - destruct (location_read_back data w sample_patient resp w' eq_refl E)
      as (created & read & Hd & Hget & Hroom & Hhosp & _).
    exists created, read. split; [exact Hd |].
    split; [now rewrite Hget |]. split; [exact Hroom | exact Hhosp].
  - vm_compute in E. discriminate.
Defined.

(** ** Status updates and confirmations *)

(** X6. A status update of a stored procedure is accepted from every
    status to every status (COMPLETED and CANCELLED included: no transition
    is refused). It rewrites the status of that row and its [updatedAt],
    which becomes the instant of the call, and nothing else in the table;
    it appends exactly one audit entry holding the old and the new status,
    and emits exactly one SurgeryStatusUpdated event, whether or not the
    bus takes it. *)
Theorem updateSurgeryStatus_effect :
  forall id status updatedBy now w row,
    procedures w !! id = Some row ->
    let w' := snd (updateSurgeryStatus id status updatedBy now w) in
    exists row' log dto,
      procedures w' = <[id := row']> (procedures w)
      /\ Procedure.status row' = status
      /\ Procedure.updatedAt row' = Some now
      /\ (Procedure.id row', Procedure.code row', Procedure.name row',
          Procedure.category row', Procedure.complexity row',
          Procedure.estimatedDuration row', Procedure.basePrice row',
          Procedure.patientId row', Procedure.requiresAuthorization row',
          Procedure.suggestedPort row', Procedure.tags row',
          Procedure.scheduledDate row', Procedure.performedDate row',
          Procedure.duration row', Procedure.hospitalId row')
         = (Procedure.id row, Procedure.code row, Procedure.name row,
            Procedure.category row, Procedure.complexity row,
            Procedure.estimatedDuration row, Procedure.basePrice row,
            Procedure.patientId row, Procedure.requiresAuthorization row,
            Procedure.suggestedPort row, Procedure.tags row,
            Procedure.scheduledDate row, Procedure.performedDate row,
            Procedure.duration row, Procedure.hospitalId row)
      /\ (forall other, other <> id ->
            procedures w' !! other = procedures w !! other)
      /\ auditLogs w' = (auditLogs w ++ [log])%list
      /\ AuditLog.oldValues log = StatusValues (Procedure.status row)
      /\ AuditLog.newValues log = StatusValues status
      /\ AuditLog.userId log = updatedBy
      /\ outbox w' = (outbox w ++ [SurgeryStatusUpdated dto])%list
      /\ SurgeryProcedure.status dto = status
      /\ (busAccepts w (SurgeryStatusUpdated dto) = true ->
          fst (updateSurgeryStatus id status updatedBy now w)
          = Return (success_response dto
                      "Surgery status updated successfully")).
Proof.
  intros id status updatedBy now w row Hrow w'. subst w'.
  rewrite (updateSurgeryStatus_run id status updatedBy now w row Hrow).
  eexists _, _, _.
  destruct (busAccepts w _) eqn:Hbus; cbn [snd fst procedures auditLogs outbox].
  all: split; [reflexivity |].
  all: split; [reflexivity |].
  all: split; [reflexivity |].
  all: split; [reflexivity |].
  all: split; [intros other Hne; now apply lookup_insert_ne |].
  all: repeat (split; [reflexivity |]).
  all: intros H; first [reflexivity | congruence].
Qed.

Lemma updateSurgeryStatus_effect_witness :
  let w := snd (updateSurgeryStatus "0" COMPLETED "nurse-3" sample_now
                  (sample_world_1 bus_up)) in
  (Procedure.status <$> procedures w !! "0") = Some COMPLETED
  /\ exists row' log dto,
       procedures
         (snd (updateSurgeryStatus "0" SCHEDULED "nurse-3"
                 (sample_now + 60000) w))
       = <[ "0" := row' ]> (procedures w)
       /\ Procedure.status row' = SCHEDULED
       /\ Procedure.updatedAt row' = Some (sample_now + 60000)
       /\ AuditLog.oldValues log = StatusValues COMPLETED
       /\ outbox (snd (updateSurgeryStatus "0" SCHEDULED "nurse-3"
                         (sample_now + 60000) w))
          = (outbox w ++ [SurgeryStatusUpdated dto])%list.
Proof.
  intros w.
  assert (Hstatus : (Procedure.status <$> procedures w !! "0")
                    = Some COMPLETED) by (vm_compute; reflexivity).
  split; [exact Hstatus |].
  destruct (procedures w !! "0") as [row |] eqn:E; [| discriminate].
  injection Hstatus as Hstatus.
  destruct (updateSurgeryStatus_effect "0" SCHEDULED "nurse-3"
              (sample_now + 60000) w row E)
    as (row' & log & dto & Htbl & Hnew & Hat & _ & _ & _ & Hold & _ & _ & Hout
        & _).
  exists row', log, dto. rewrite Hstatus in Hold. repeat split; assumption.
Defined.

(** X7. A confirmation of the porte of a stored procedure is written when
    its duration is a whole number of 32 bits and its price within the
    range of the DECIMAL(10,2) column. It then rewrites the complexity,
    the duration, the price (rounded to two decimals) and [updatedAt]
    (the instant of the call) of the row and nothing else (the status
    stays), appends exactly one audit entry holding the classification
    before and the confirmation as submitted, with the action
    PORTE_CONFIRMED, and emits exactly one event, PorteConfirmed: no audit
    request is emitted, also when the confirmed complexity is one that
    requires an audit at creation. The audit status of the procedure
    returned is PENDING_AUDIT if and only if the confirmed complexity is
    PORTE_3, PORTE_4 or PORTE_ESPECIAL. Any other confirmation is refused
    with a throw: no row is written, no audit entry, no event. *)
Theorem confirmPorte_effect :
  forall id confirmation now w row,
    procedures w !! id = Some row ->
    let w' := snd (confirmPorte id confirmation now w) in
    let minutes := ConfirmPorteRequest.estimatedDuration confirmation in
    let price := ConfirmPorteRequest.basePrice confirmation in
    (is_Int minutes = true ->
     fits_Decimal_10_2 price = true ->
     exists row' log dto,
       procedures w' = <[id := row']> (procedures w)
       /\ Procedure.complexity row'
          = ConfirmPorteRequest.complexity confirmation
       /\ Procedure.estimatedDuration row' = Some (Int_of minutes)
       /\ (Int_of minutes == minutes)%Q
       /\ Procedure.basePrice row' = Some (Decimal_10_2 price)
       /\ Procedure.updatedAt row' = Some now
       /\ Procedure.status row' = Procedure.status row
       /\ (Procedure.id row', Procedure.code row', Procedure.name row',
           Procedure.category row', Procedure.patientId row',
           Procedure.requiresAuthorization row', Procedure.suggestedPort row',
           Procedure.tags row', Procedure.scheduledDate row',
           Procedure.performedDate row', Procedure.duration row',
           Procedure.hospitalId row')
          = (Procedure.id row, Procedure.code row, Procedure.name row,
             Procedure.category row, Procedure.patientId row,
             Procedure.requiresAuthorization row, Procedure.suggestedPort row,
             Procedure.tags row, Procedure.scheduledDate row,
             Procedure.performedDate row, Procedure.duration row,
             Procedure.hospitalId row)
       /\ (forall other, other <> id ->
             procedures w' !! other = procedures w !! other)
       /\ auditLogs w' = (auditLogs w ++ [log])%list
       /\ AuditLog.oldValues log =
          ClassificationValues (Procedure.complexity row)
            (Procedure.estimatedDuration row) (Procedure.basePrice row)
       /\ AuditLog.newValues log =
          ConfirmationValues (ConfirmPorteRequest.complexity confirmation)
            minutes price (ConfirmPorteRequest.notes confirmation)
            "PORTE_CONFIRMED"
       /\ outbox w' = (outbox w ++ [PorteConfirmed dto])%list
       /\ (SurgeryProcedure.auditStatus dto = PENDING_AUDIT
           <-> ConfirmPorteRequest.complexity confirmation
               ∈ [PORTE_3; PORTE_4; PORTE_ESPECIAL]))
    /\ (is_Int minutes = false \/ fits_Decimal_10_2 price = false ->
        w' = w
        /\ exists code,
             fst (confirmPorte id confirmation now w)
             = Throw (PrismaError code)).
Proof.
  intros id confirmation now w row Hrow w' minutes price. subst w'.
  rewrite (confirmPorte_run id confirmation now w row Hrow).
  fold minutes price. split.
  - intros Hminutes Hfits. rewrite Hminutes, Hfits. cbn [negb].
    eexists _, _, _.
    assert (Haudit :
      SurgeryProcedure.auditStatus
        (mapProcedureToSurgery
           (updated_row (confirmPorte_data confirmation now) row,
            patients w !! Procedure.patientId
                            (updated_row (confirmPorte_data confirmation now)
                                         row)))
      = PENDING_AUDIT
      <-> ConfirmPorteRequest.complexity confirmation
          ∈ [PORTE_3; PORTE_4; PORTE_ESPECIAL]).
    { rewrite <- requiresAudit_spec. cbn.
      destruct (requiresAudit (ConfirmPorteRequest.complexity confirmation));
        split; congruence. }
    destruct (busAccepts w _); cbn [snd procedures auditLogs outbox].
    all: repeat (split; [reflexivity |]).
    all: split; [now apply is_Int_Int_of |].
    all: repeat (split; [reflexivity |]).
    all: split; [intros other Hne; now apply lookup_insert_ne |].
    all: repeat (split; [reflexivity |]).
    all: exact Haudit.
  - intros [Hno | Hno].
    + rewrite Hno. cbn [negb snd fst]. eauto.
    + rewrite Hno. destruct (is_Int minutes); cbn [negb snd fst]; eauto.
Qed.

Lemma confirmPorte_effect_witness :
  let w := sample_world_1 bus_up in
  let confirmation :=
    {| ConfirmPorteRequest.complexity := PORTE_4;
       ConfirmPorteRequest.estimatedDuration := 240%Q;
       ConfirmPorteRequest.basePrice := (2000049 # 100)%Q;
       ConfirmPorteRequest.confirmedBy := "surgeon-7";
       ConfirmPorteRequest.notes := Some "reclassified" |} in
  is_Some (procedures w !! "0")
  /\ exists row' dto,
       procedures (snd (confirmPorte "0" confirmation sample_now w)) !! "0"
       = Some row'
       /\ Procedure.updatedAt row' = Some sample_now
       /\ outbox (snd (confirmPorte "0" confirmation sample_now w))
          = (outbox w ++ [PorteConfirmed dto])%list
       /\ SurgeryProcedure.auditStatus dto = PENDING_AUDIT.
Proof.
  intros w confirmation.
  destruct (procedures w !! "0") as [row |] eqn:E;
    [| vm_compute in E; discriminate].
  split; [eauto |].
  destruct (proj1 (confirmPorte_effect "0" confirmation sample_now w row E))
    as (row' & log & dto & Htbl & _ & _ & _ & _ & Hat & _ & _ & _ & _ & _ & _
        & Hout & Haudit);
    [vm_compute; reflexivity | vm_compute; reflexivity |].
  exists row', dto. split; [rewrite Htbl; apply lookup_insert_eq |].
  split; [exact Hat |]. split; [exact Hout |]. apply Haudit.
  cbn. do 1 right. left.
Defined.

Lemma alter_stored (tbl : gmap string Procedure.t) (id : string)
    (row : Procedure.t) (f : Procedure.t -> Procedure.t) :
  tbl !! id = Some row -> <[id := f row]> tbl = alter f id tbl.
Proof.
  intros H. apply map_eq. intros k. rewrite lookup_insert, lookup_alter.
  destruct (decide (id = k)) as [<- |]; [now rewrite H | reflexivity].
Qed.

Lemma alter_missing (tbl : gmap string Procedure.t) (id : string)
    (f : Procedure.t -> Procedure.t) :
  tbl !! id = None -> tbl = alter f id tbl.
Proof.
  intros H. apply map_eq. intros k. rewrite lookup_alter.
  destruct (decide (id = k)) as [<- |]; [now rewrite H | reflexivity].
Qed.

Lemma procedures_after_updateSurgeryStatus (id : string) (status : Status)
    (updatedBy : string) (now : Z) (w : World) :
  procedures (snd (handle (UpdateStatus id status updatedBy now) w))
  = alter (updated_row (updateSurgeryStatus_data status now)) id
          (procedures w).
Proof.
  rewrite snd_handle. destruct (procedures w !! id) as [row |] eqn:Hrow.
  - rewrite (updateSurgeryStatus_run id status updatedBy now w row Hrow).
    destruct (busAccepts w _); cbn [snd procedures]; now apply alter_stored.
  - unfold updateSurgeryStatus. rewrite update_unknown by exact Hrow.
    now apply alter_missing.
Qed.

(** What a confirmation does to a row: it writes its [data] if the
    database takes them, and nothing otherwise. *)
Lemma procedures_after_confirmPorte (id : string)
    (confirmation : ConfirmPorteRequest.t) (now : Z) (w : World) :
  procedures (snd (handle (ConfirmPorte id confirmation now) w))
  = alter (fun row =>
             if update_accepted (confirmPorte_data confirmation now)
             then updated_row (confirmPorte_data confirmation now) row
             else row)
          id (procedures w).
Proof.
  rewrite snd_handle. destruct (procedures w !! id) as [row |] eqn:Hrow.
  - destruct (update_accepted (confirmPorte_data confirmation now)) eqn:Hacc.
    + rewrite (confirmPorte_accepted id confirmation now w row Hrow Hacc).
      now apply alter_stored.
    + destruct (confirmPorte_refused id confirmation now w row Hrow Hacc)
        as [code ->]. cbn [snd].
      apply map_eq. intros k. rewrite lookup_alter.
      destruct (decide (id = k)) as [<- |]; [now rewrite Hrow | reflexivity].
  - unfold confirmPorte. rewrite update_unknown by exact Hrow.
    now apply alter_missing.
Qed.

Lemma alter_twice (tbl : gmap string Procedure.t) (id1 id2 : string)
    (f g h : Procedure.t -> Procedure.t) :
  (forall row, f (g row) = h row) ->
  (id1 <> id2 -> False) ->
  alter f id1 (alter g id2 tbl) = alter h id1 tbl.
Proof.
  intros Hfg Heq. destruct (decide (id1 = id2)) as [<- | Hne];
    [| now destruct (Heq Hne)].
  apply map_eq. intros k. rewrite !lookup_alter.
  repeat case_decide; try congruence; subst.
  all: destruct (tbl !! _); simpl; try reflexivity; f_equal; apply Hfg.
Qed.

Lemma alter_swap (tbl : gmap string Procedure.t) (id1 id2 : string)
    (f g : Procedure.t -> Procedure.t) :
  (id1 = id2 -> forall row, f (g row) = g (f row)) ->
  alter f id1 (alter g id2 tbl) = alter g id2 (alter f id1 tbl).
Proof.
  intros Hfg. apply map_eq. intros k. rewrite !lookup_alter.
  repeat case_decide; try congruence; subst.
  all: destruct (tbl !! _); simpl; try reflexivity; f_equal; now apply Hfg.
Qed.

(** Two orders of writing agree on every column but [updatedAt] when the
    functions written do. *)
Lemma alter_swap_without_updatedAt (tbl : gmap string Procedure.t)
    (id1 id2 : string) (f g f' g' : Procedure.t -> Procedure.t) :
  (forall row, without_updatedAt (f row) = without_updatedAt (f' row)) ->
  (forall row, without_updatedAt (g row) = without_updatedAt (g' row)) ->
  (forall row, without_updatedAt (f (g row))
               = without_updatedAt (g' (f' row))) ->
  without_updatedAt <$> alter f id1 (alter g id2 tbl)
  = without_updatedAt <$> alter g' id2 (alter f' id1 tbl).
Proof.
  intros Hf Hg Hfg. apply map_eq. intros k.
  rewrite !lookup_fmap, !lookup_alter.
  repeat case_decide; try congruence; subst.
  all: destruct (tbl !! _); simpl; try reflexivity; f_equal;
    first [apply Hfg | apply Hf | apply Hg].
Qed.

(** X8. On the table of procedures, a status update and a porte
    confirmation, served one after the other at two instants, leave the
    same in every column but [updatedAt] in either order: whatever the two
    ids (equal or not, stored or not), whether or not the database takes
    the confirmation, and whatever the bus does. With different ids, and
    each request served at its own instant, the two orders leave the same
    table, [updatedAt] included. Serving the same update or the same
    confirmation a second time leaves the table as serving it once, at
    the instant of the second; and of two status updates of one
    procedure, the second wins. *)
Theorem updates_and_confirmations_compose :
  forall w id1 status updatedBy id2 confirmation t1 t2,
    let update := UpdateStatus id1 status updatedBy in
    let confirm := ConfirmPorte id2 confirmation in
    (without_updatedAt <$> procedures (serve [update t1; confirm t2] w))
    = (without_updatedAt <$> procedures (serve [confirm t1; update t2] w))
    /\ (id1 <> id2 ->
        procedures (serve [update t1; confirm t2] w)
        = procedures (serve [confirm t2; update t1] w))
    /\ procedures (serve [update t1; update t2] w)
       = procedures (serve [update t2] w)
    /\ procedures (serve [confirm t1; confirm t2] w)
       = procedures (serve [confirm t2] w)
    /\ (forall status' updatedBy',
          procedures
            (serve [UpdateStatus id1 status' updatedBy' t1; update t2] w)
          = procedures (serve [update t2] w)).
Proof.
  intros w id1 status updatedBy id2 confirmation t1 t2 update confirm.
  subst update confirm. unfold serve. cbn [fold_left].
  rewrite !procedures_after_updateSurgeryStatus,
    !procedures_after_confirmPorte, !procedures_after_updateSurgeryStatus.
  change (update_accepted (confirmPorte_data confirmation t2))
    with (update_accepted (confirmPorte_data confirmation t1)).
  destruct (update_accepted (confirmPorte_data confirmation t1)).
  all: split; [| split; [| split; [| split]]].
  all: try (apply alter_swap_without_updatedAt; reflexivity).
  all: try (intros Hne; symmetry; apply alter_swap; congruence).
  all: try (apply alter_twice; [reflexivity | congruence]).
  all: intros status' updatedBy';
    rewrite !procedures_after_updateSurgeryStatus;
    apply alter_twice; [reflexivity | congruence].
Qed.

(** ** The summary of pending surgeries *)

Lemma filter_length_bounds {A : Type} (f : A -> bool) (l : list A) :
  0 <= filter_length f l <= Z.of_nat (length l).
Proof.
  unfold filter_length. pose proof (filter_length_le f l). lia.
Qed.

Lemma filter_length_ext {A : Type} (f g : A -> bool) (l : list A) :
  (forall x, In x l -> f x = g x) -> filter_length f l = filter_length g l.
Proof.
  intros H. unfold filter_length. now rewrite (filter_ext_in f g l H).
Qed.

Lemma filter_length_mono {A : Type} (f g : A -> bool) (l : list A) :
  (forall x, f x = true -> g x = true) ->
  filter_length f l <= filter_length g l.
Proof.
  intros H. unfold filter_length. induction l as [| x l IH]; [reflexivity |].
  cbn [List.filter]. destruct (f x) eqn:Hf.
  - rewrite (H x Hf). cbn [length]. lia.
  - destruct (g x); cbn [length]; lia.
Qed.

Lemma startOfDay_bounds (now : Z) :
  startOfDay now <= now < startOfDay now + day_ms
  /\ startOfDay now mod day_ms = 0.
Proof.
  unfold startOfDay.
  pose proof (Z.mod_pos_bound now day_ms eq_refl) as Hm.
  split; [lia |].
  rewrite Zminus_mod, Zmod_mod, Z.sub_diag. reflexivity.
Qed.

(** X9. In the summary of pending surgeries the counts are ordered:
    scheduled today <= scheduled this week <= total, and neither the
    procedures needing authorization nor those needing an audit exceed the
    total; the recent activity holds the first ten rows of the query, in
    the order of the query, each as [mapProcedureToSurgery] maps it, and
    nothing else. No count reads the scheduled date of a procedure: "scheduled today"
    counts the procedures created during the day before today, and, as no
    procedure is created in the future, "scheduled this week" counts the
    procedures created since the midnight before last. *)
Theorem pendingSummary_counts :
  forall procedures now,
    let s := pendingSummaryOf procedures now in
    let today := startOfDay now in
    let total := Z.of_nat (length procedures) in
    PendingSurgerySummary.totalPending s = total
    /\ 0 <= PendingSurgerySummary.scheduledToday s
       <= PendingSurgerySummary.scheduledThisWeek s
    /\ PendingSurgerySummary.scheduledThisWeek s <= total
    /\ 0 <= PendingSurgerySummary.pendingAuthorization s <= total
    /\ 0 <= PendingSurgerySummary.pendingAudit s <= total
    /\ length (PendingSurgerySummary.recentActivity s)
       = Nat.min 10 (length procedures)
    /\ (forall i : nat,
          PendingSurgerySummary.recentActivity s !! i =
          if decide (i < 10)%nat
          then (fun p => mapProcedureToSurgery
                           (PendingRow.row p, PendingRow.patient p))
                 <$> procedures !! i
          else None)
    /\ PendingSurgerySummary.pendingAudit s =
       filter_length
         (fun p => bool_decide (Procedure.complexity (PendingRow.row p)
                                ∈ [PORTE_3; PORTE_4; PORTE_ESPECIAL]))
         procedures
    /\ PendingSurgerySummary.scheduledToday s =
       filter_length
         (fun p => (today - day_ms <=? PendingRow.createdAt p)
                   && (PendingRow.createdAt p <? today))
         procedures
    /\ ((forall p, In p procedures -> PendingRow.createdAt p <= now) ->
        PendingSurgerySummary.scheduledThisWeek s =
        filter_length (fun p => today - day_ms <=? PendingRow.createdAt p)
                      procedures).
Proof.
  intros procedures now s today total. subst s.
  unfold pendingSummaryOf. fold today.
  cbn [PendingSurgerySummary.totalPending PendingSurgerySummary.scheduledToday
       PendingSurgerySummary.scheduledThisWeek
       PendingSurgerySummary.pendingAuthorization
       PendingSurgerySummary.pendingAudit
       PendingSurgerySummary.recentActivity].
  split; [reflexivity |].
  split.
  { split; [apply filter_length_bounds |].
    apply filter_length_mono. intros p Hp.
    apply andb_true_iff in Hp as [H1 H2]. apply andb_true_iff.
    split; [exact H1 |]. apply Z.ltb_lt in H2. apply Z.ltb_lt. lia. }
  split; [apply filter_length_bounds |].
  split; [apply filter_length_bounds |].
  split; [apply filter_length_bounds |].
  split.
  { rewrite length_fmap, length_firstn. reflexivity. }
  split.
  { intros i. rewrite list_lookup_fmap. destruct (decide (i < 10)%nat).
    - now rewrite lookup_take_lt.
    - rewrite lookup_take_ge by lia. reflexivity. }
  split; [reflexivity |].
  split.
  - apply filter_length_ext. intros p _. unfold day_ms.
    destruct (Z.leb_spec today (PendingRow.createdAt p + 24 * 60 * 60 * 1000)),
             (Z.leb_spec (today - 24 * 60 * 60 * 1000) (PendingRow.createdAt p));
      try lia; cbn [andb]; try reflexivity;
      destruct (Z.ltb_spec (PendingRow.createdAt p + 24 * 60 * 60 * 1000)
                           (today + 24 * 60 * 60 * 1000)),
               (Z.ltb_spec (PendingRow.createdAt p) today);
      lia || reflexivity.
  - intros Hpast. apply filter_length_ext. intros p Hp.
    specialize (Hpast p Hp).
    destruct (startOfDay_bounds now) as [[_ Hnow] _]. fold today in Hnow.
    unfold day_ms in *.
    destruct (Z.leb_spec today (PendingRow.createdAt p + 24 * 60 * 60 * 1000)),
             (Z.leb_spec (today - 24 * 60 * 60 * 1000) (PendingRow.createdAt p));
      try lia; cbn [andb]; try reflexivity; try (apply Z.ltb_lt; lia).
Qed.

Lemma pendingSummary_counts_witness :
  let s := pendingSummaryOf sample_pending sample_now in
  (forall p, In p sample_pending -> PendingRow.createdAt p <= sample_now)
  /\ PendingSurgerySummary.totalPending s = 3
  /\ PendingSurgerySummary.scheduledToday s = 1
  /\ PendingSurgerySummary.scheduledThisWeek s = 2
  /\ (SurgeryProcedure.id <$> PendingSurgerySummary.recentActivity s !! 1%nat)
     = Some "b"
  /\ PendingSurgerySummary.recentActivity s !! 10%nat = None.
Proof.
  intros s.
  assert (Hpast : forall p, In p sample_pending ->
                            PendingRow.createdAt p <= sample_now).
  { intros p [<- | [<- | [<- | []]]]; vm_compute; discriminate. }
  split; [exact Hpast |].
  destruct (pendingSummary_counts sample_pending sample_now)
    as (Htotal & _ & _ & _ & _ & _ & Hrecent & _ & Htoday & Hweek).
  fold s in Htotal, Hrecent, Htoday, Hweek.
  split; [rewrite Htotal; reflexivity |].
  split; [rewrite Htoday; reflexivity |].
  split; [rewrite (Hweek Hpast); reflexivity |].
  split; rewrite Hrecent; reflexivity.
Defined.

(** ** Pagination *)

Lemma ceil_div_bounds (total limit : Z) :
  0 < limit ->
  (ceil_div total limit - 1) * limit < total <= ceil_div total limit * limit.
Proof.
  intros Hlimit. unfold ceil_div, Math_ceil.
  pose proof (Qle_ceiling (inject_Z total / inject_Z limit)) as Hle.
  pose proof (Qceiling_lt (inject_Z total / inject_Z limit)) as Hlt.
  set (c := Qceiling (inject_Z total / inject_Z limit)) in *.
  destruct limit as [| p | p]; try lia.
  unfold Qle, Qlt, Qdiv, Qmult, Qinv, inject_Z in Hle, Hlt.
  cbn [Qnum Qden] in Hle, Hlt.
  rewrite ?Z.mul_1_r, ?Pos.mul_1_l in Hle, Hlt. lia.
Qed.

Lemma ceil_div_gt (page total limit : Z) :
  0 < limit -> (page <? ceil_div total limit) = (page * limit <? total).
Proof.
  intros Hlimit. pose proof (ceil_div_bounds total limit Hlimit).
  destruct (Z.ltb_spec page (ceil_div total limit)),
           (Z.ltb_spec (page * limit) total); try reflexivity; nia.
Qed.

(** X10. With a page of at least 1 and a limit of at least 1, the
    pagination of a search is consistent with the window of its query:
    the pages cover the matches exactly (the last page is not empty and
    none is missing), hasNext holds if and only if matches lie beyond the
    window, hasPrev if and only if the window skips some, and a page beyond
    the last has an empty window. A page or a limit that is missing or 0
    counts as 1 and as 10; through [SurgeryController.list] neither is ever
    missing or 0, and a missing or non-numeric limit is 20. *)
Theorem searchSurgeries_pagination_consistent :
  (forall pagination total,
     let info := searchSurgeries_pagination pagination total in
     let skip := searchSurgeries_skip pagination in
     let take := searchSurgeries_take pagination in
     1 <= PaginationInfo.page info ->
     1 <= PaginationInfo.limit info ->
     0 <= total ->
     skip = (PaginationInfo.page info - 1) * PaginationInfo.limit info
     /\ take = PaginationInfo.limit info
     /\ 0 <= PaginationInfo.totalPages info
     /\ (PaginationInfo.totalPages info - 1) * take < total
        <= PaginationInfo.totalPages info * take
     /\ (PaginationInfo.hasNext info = true <-> skip + take < total)
     /\ (PaginationInfo.hasPrev info = true <-> 0 < skip)
     /\ (PaginationInfo.totalPages info < PaginationInfo.page info ->
         total <= skip))
  /\ (forall total,
        searchSurgeries_pagination (PaginationParams.mk None None) total
        = searchSurgeries_pagination
            (PaginationParams.mk (Some 1) (Some 10)) total
        /\ searchSurgeries_pagination
             (PaginationParams.mk (Some 0) (Some 0)) total
           = searchSurgeries_pagination
               (PaginationParams.mk (Some 1) (Some 10)) total)
  /\ (forall page limit,
        let pagination := SurgeryController_list_pagination page limit in
        (exists p l,
           PaginationParams.page pagination = Some p /\ p <> 0
           /\ PaginationParams.limit pagination = Some l /\ l <> 0
           /\ searchSurgeries_take pagination = l)
        /\ (parseInt limit = None -> searchSurgeries_take pagination = 20)).
Proof.
  split; [| split].
  - intros pagination total info skip take Hpage Hlimit Htotal.
    subst info skip take.
    unfold searchSurgeries_pagination, searchSurgeries_skip,
      searchSurgeries_take in *.
    cbn [PaginationInfo.page PaginationInfo.limit PaginationInfo.totalPages
         PaginationInfo.hasNext PaginationInfo.hasPrev] in *.
    set (page := or_integer (PaginationParams.page pagination) 1) in *.
    set (limit := or_integer (PaginationParams.limit pagination) 10) in *.
    assert (Hl : 0 < limit) by lia.
    pose proof (ceil_div_bounds total limit Hl) as Hb.
    split; [reflexivity |]. split; [reflexivity |].
    split; [nia |]. split; [exact Hb |].
    split.
    { rewrite (ceil_div_gt page total limit Hl), Z.ltb_lt. split; nia. }
    split.
    { rewrite Z.ltb_lt. split; nia. }
    intros Hbeyond. nia.
  - intros total. split; reflexivity.
  - intros page limit pagination. subst pagination.
    unfold SurgeryController_list_pagination, searchSurgeries_take.
    cbn [PaginationParams.page PaginationParams.limit].
    assert (Hnz : forall x d, d <> 0 -> or_integer x d <> 0).
    { intros [v |] d Hd; cbn; [| exact Hd].
      destruct (v =? 0) eqn:E; [exact Hd | now apply Z.eqb_neq]. }
    assert (Hid : forall v, v <> 0 -> or_integer (Some v) 10 = v).
    { intros v Hv. cbn. apply Z.eqb_neq in Hv. now rewrite Hv. }
    split.
    + eexists _, _. split; [reflexivity |].
      split; [apply Hnz; lia |]. split; [reflexivity |].
      split; [apply Hnz; lia |]. apply Hid, Hnz. lia.
    + intros Hnan. rewrite Hnan. reflexivity.
Qed.

Lemma searchSurgeries_pagination_consistent_witness :
  let pagination := PaginationParams.mk (Some 3) (Some 20) in
  let info := searchSurgeries_pagination pagination 45 in
  1 <= PaginationInfo.page info
  /\ 1 <= PaginationInfo.limit info
  /\ 0 <= 45
  /\ PaginationInfo.totalPages info = 3
  /\ searchSurgeries_skip pagination = 40
  /\ PaginationInfo.hasNext info = false
  /\ PaginationInfo.hasPrev info = true.
Proof.
  intros pagination info.
  assert (H1 : 1 <= PaginationInfo.page info) by (vm_compute; discriminate).
  assert (H2 : 1 <= PaginationInfo.limit info) by (vm_compute; discriminate).
  assert (H3 : 0 <= 45) by lia.
  repeat (split; [assumption |]).
  destruct (proj1 searchSurgeries_pagination_consistent pagination 45
              H1 H2 H3) as (Hskip & Htake & Hpos & Hpages & Hnext & Hprev & _).
  fold info in Hskip, Htake, Hpos, Hpages, Hnext, Hprev.
  assert (Hs : searchSurgeries_skip pagination = 40) by reflexivity.
  assert (Ht : searchSurgeries_take pagination = 20) by reflexivity.
  rewrite Hs, Ht in *.
  split; [lia |]. split; [reflexivity |].
  split.
  - destruct (PaginationInfo.hasNext info); [| reflexivity].
    pose proof (proj1 Hnext eq_refl). lia.
  - apply (proj2 Hprev). lia.
Defined.

(** ** The window of a period *)

Lemma civil_round_trip (z : Z) :
  let '(y, m, d) := civil_from_days z in
  days_from_civil y m d = z /\ 1 <= m <= 12 /\ 1 <= d <= 31.
Proof.
  unfold civil_from_days, days_from_civil. cbv zeta.
  set (z' := z + 719468).
  set (era := z' / 146097).
  set (doe := z' - era * 146097).
  assert (Hdoe : 0 <= doe < 146097)
    by (subst doe era; Z.div_mod_to_equations; lia).
  set (yoe := (doe - doe / 1460 + doe / 36524 - doe / 146096) / 365).
  set (doy := doe - (365 * yoe + yoe / 4 - yoe / 100)).
  assert (Hy : 0 <= yoe <= 399 /\ 0 <= doy <= 365)
    by (subst doy yoe; Z.div_mod_to_equations; lia).
  set (mp := (5 * doy + 2) / 153).
  assert (Hmp : 0 <= mp <= 11) by (subst mp; Z.div_mod_to_equations; lia).
  set (d := doy - (153 * mp + 2) / 5 + 1).
  assert (Hd : 1 <= d <= 31) by (subst d mp; Z.div_mod_to_equations; lia).
  assert (Hera : (yoe + era * 400) / 400 = era)
    by (Z.div_mod_to_equations; lia).
  assert (Hdoy : (153 * mp + 2) / 5 + d - 1 = doy) by (subst d; lia).
  destruct (Z.ltb_spec mp 10).
  - assert (Hm : (mp + 3 <=? 2) = false) by (apply Z.leb_gt; lia).
    assert (Hm2 : (2 <? mp + 3) = true) by (apply Z.ltb_lt; lia).
    rewrite Hm, Hm2. split; [| lia].
    replace (mp + 3 - 3) with mp by lia.
    rewrite Hera. replace (yoe + era * 400 - era * 400) with yoe by lia.
    rewrite Hdoy. subst doy doe z'. lia.
  - assert (Hm : (mp - 9 <=? 2) = true) by (apply Z.leb_le; lia).
    assert (Hm2 : (2 <? mp - 9) = false) by (apply Z.ltb_ge; lia).
    rewrite Hm, Hm2. split; [| lia].
    replace (mp - 9 + 9) with mp by lia.
    replace (yoe + era * 400 + 1 - 1) with (yoe + era * 400) by lia.
    rewrite Hera. replace (yoe + era * 400 - era * 400) with yoe by lia.
    rewrite Hdoy. subst doy doe z'. lia.
Qed.

Lemma days_from_civil_day (y m d : Z) :
  days_from_civil y m d = days_from_civil y m 1 + d - 1.
Proof. unfold days_from_civil. cbv zeta. lia. Qed.

Lemma days_from_civil_closed (y m d : Z) :
  days_from_civil y m d =
  (let y' := if m <=? 2 then y - 1 else y in
   365 * y' + leap_days y'
   + (153 * (if 2 <? m then m - 3 else m + 9) + 2) / 5 + d - 1 - 719468).
Proof.
  unfold days_from_civil, leap_days. cbv zeta.
  set (y' := if m <=? 2 then y - 1 else y).
  set (c := (153 * (if 2 <? m then m - 3 else m + 9) + 2) / 5).
  clearbody y' c. clear.
  set (era := y' / 400).
  assert (H4 : (y' - era * 400) / 4 = y' / 4 - era * 100)
    by (subst era; Z.div_mod_to_equations; lia).
  assert (H100 : (y' - era * 400) / 100 = y' / 100 - era * 4)
    by (subst era; Z.div_mod_to_equations; lia).
  rewrite H4, H100. lia.
Qed.

Lemma leap_days_step (y : Z) : 0 <= leap_days y - leap_days (y - 1) <= 1.
Proof.
  unfold leap_days.
  assert (H400 : y / 400 = (y / 100) / 4) by (rewrite Z.div_div by lia; reflexivity).
  assert (H400' : (y - 1) / 400 = ((y - 1) / 100) / 4) by (rewrite Z.div_div by lia; reflexivity).
  rewrite H400, H400'.
  Z.div_mod_to_equations. lia.
Qed.

Ltac eval_month_args :=
  repeat match goal with
         | |- context [days_from_civil (?y + ?q / 12) (?r mod 12 + 1) 1] =>
             let q' := eval vm_compute in (q / 12) in
             let r' := eval vm_compute in (r mod 12 + 1) in
             change (days_from_civil (y + q / 12) (r mod 12 + 1) 1)
               with (days_from_civil (y + q') r' 1)
         end.

Lemma months_back_span (y m : Z) :
  1 <= m <= 12 ->
  let first k := days_from_civil (y + (m - k - 1) / 12) ((m - k - 1) mod 12 + 1) 1 in
  28 <= days_from_civil y m 1 - first 1 <= 31
  /\ 89 <= days_from_civil y m 1 - first 3 <= 92
  /\ 365 <= days_from_civil y m 1 - days_from_civil (y - 1) m 1 <= 366.
Proof.
  intros Hm first. subst first. cbv beta.
  pose proof (leap_days_step y) as L0.
  pose proof (leap_days_step (y - 1)) as L1.
  replace (y - 1 - 1) with (y - 2) in L1 by lia.
  assert (Hcases : m = 1 \/ m = 2 \/ m = 3 \/ m = 4 \/ m = 5 \/ m = 6 \/ m = 7
                   \/ m = 8 \/ m = 9 \/ m = 10 \/ m = 11 \/ m = 12) by lia.
  clear Hm.
  repeat destruct Hcases as [-> | Hcases]; try subst m;
    eval_month_args; rewrite !days_from_civil_closed; cbv zeta;
    repeat match goal with
           | |- context [?a <=? ?b] =>
               let v := eval vm_compute in (a <=? b) in change (a <=? b) with v
           | |- context [?a <? ?b] =>
               let v := eval vm_compute in (a <? b) in change (a <? b) with v
           end; cbv iota;
    rewrite ?Z.add_0_r;
    change (y + -1) with (y - 1);
    replace (y - 1 - 1) with (y - 2) in * by lia;
    generalize dependent (leap_days y);
    generalize dependent (leap_days (y - 1));
    generalize dependent (leap_days (y - 2));
    intros; Z.div_mod_to_equations; lia.
Qed.

Lemma startOfDay_div (date : Z) :
  startOfDay date = date / day_ms * day_ms
  /\ startOfDay date / day_ms = date / day_ms.
Proof.
  unfold startOfDay.
  assert (H : date - date mod day_ms = date / day_ms * day_ms)
    by (pose proof (Z.div_mod date day_ms); unfold day_ms in *; lia).
  rewrite H. split; [reflexivity |].
  apply Z.div_mul. discriminate.
Qed.

Lemma months_back (date : Z) :
  let s := startOfDay date in
  (exists n, 28 <= n <= 31 /\ minus_months 1 s = s - n * day_ms)
  /\ (exists n, 89 <= n <= 92 /\ minus_months 3 s = s - n * day_ms)
  /\ (exists n, 365 <= n <= 366 /\ minus_years 1 s = s - n * day_ms).
Proof.
  cbv zeta. unfold minus_months, minus_years.
  destruct (startOfDay_div date) as [Hs ->].
  pose proof (civil_round_trip (date / day_ms)) as Hrt.
  destruct (civil_from_days (date / day_ms)) as [[y m] d].
  destruct Hrt as (Hday & Hm & _).
  rewrite days_from_civil_day in Hday.
  destruct (months_back_span y m Hm) as (H1 & H3 & H12).
  unfold make_day.
  assert (Hq : (m - 1) / 12 = 0) by (Z.div_mod_to_equations; lia).
  assert (Hr : (m - 1) mod 12 + 1 = m) by (Z.div_mod_to_equations; lia).
  rewrite Hq, Hr, Z.add_0_r, Hs.
  repeat split.
  - eexists; split; [exact H1 | lia].
  - eexists; split; [exact H3 | lia].
  - eexists; split; [exact H12 | lia].
Qed.

Lemma dias_of_window (s dias : Z) :
  1 <= dias ->
  Math_ceil (inject_Z (s + day_ms - 1 - (s - (dias - 1) * day_ms))
             / inject_Z (1000 * 60 * 60 * 24))%Q = dias.
Proof.
  intros Hn.
  pose proof (ceil_div_bounds (s + day_ms - 1 - (s - (dias - 1) * day_ms))
                day_ms eq_refl) as Hb.
  unfold ceil_div in Hb. change (1000 * 60 * 60 * 24) with day_ms.
  set (c := Math_ceil _) in *. clearbody c. unfold day_ms in *. lia.
Qed.

(** X11. The window of a period token, in the time zone UTC. An unknown
    token raises the error "Período inválido" with the token; for each of
    the five tokens the window ends with the last millisecond of the day
    of date, begins at a midnight, contains the date, and spans a whole
    number of days: 1 for day, 8 for week, 29 to 32 for month, 90 to 93 for
    quarter, 366 or 367 for year. That number is the divisor [dias] of the
    efficiency metrics, so over a window of [getPeriodDates] the
    procedures per day are the row count divided by it and the room
    utilisation is a finite number. *)
Theorem getPeriodDates_window (period : string) (date : Z) :
  match getPeriodDates period date with
  | Throw e =>
      e = Error ("Período inválido: " ++ period)
      /\ ~ In period ["day"; "week"; "month"; "quarter"; "year"]
  | Return (startDate, endDate) =>
      exists dias,
        (period = "day" /\ dias = 1
         \/ period = "week" /\ dias = 8
         \/ period = "month" /\ 29 <= dias <= 32
         \/ period = "quarter" /\ 90 <= dias <= 93
         \/ period = "year" /\ 366 <= dias <= 367)
        /\ startDate = startOfDay date - (dias - 1) * day_ms
        /\ endDate = startOfDay date + day_ms - 1
        /\ startDate <= date <= endDate
        /\ forall procedures,
             ProcedureEfficiency.procedimentos_por_dia
               (efficiencyOf procedures startDate endDate)
             = (inject_Z (Z.of_nat (length procedures)) / inject_Z dias)%Q
             /\ ProcedureEfficiency.utilizacao_sala
                  (efficiencyOf procedures startDate endDate) <> None
  end.
Proof.
  pose proof (startOfDay_bounds date) as [Hb _].
  destruct (months_back date) as ((n1 & Hn1 & E1) & (n3 & Hn3 & E3)
                                  & (n12 & Hn12 & E12)).
  assert (Hwin : forall dias n, 0 <= n -> dias = n + 1 ->
      startOfDay date - n * day_ms
      = startOfDay date - (dias - 1) * day_ms
      /\ startOfDay date + (day_ms - 1) = startOfDay date + day_ms - 1
      /\ startOfDay date - n * day_ms <= date
         <= startOfDay date + (day_ms - 1)
      /\ forall procedures,
           ProcedureEfficiency.procedimentos_por_dia
             (efficiencyOf procedures (startOfDay date - n * day_ms)
                           (startOfDay date + (day_ms - 1)))
           = (inject_Z (Z.of_nat (length procedures)) / inject_Z dias)%Q
           /\ ProcedureEfficiency.utilizacao_sala
                (efficiencyOf procedures (startOfDay date - n * day_ms)
                              (startOfDay date + (day_ms - 1))) <> None).
  { intros dias n Hn ->. replace (n + 1 - 1) with n by lia.
    split; [reflexivity |]. split; [lia |].
    split; [unfold day_ms in *; lia |].
    intros procedures. unfold efficiencyOf. cbv zeta.
    cbn [ProcedureEfficiency.procedimentos_por_dia
         ProcedureEfficiency.utilizacao_sala].
    rewrite Z.add_sub_assoc.
    replace (startOfDay date - n * day_ms)
      with (startOfDay date - (n + 1 - 1) * day_ms)
      by (f_equal; f_equal; lia).
    rewrite (dias_of_window _ (n + 1)) by lia.
    assert (H0 : (0 <? n + 1) = true) by (apply Z.ltb_lt; lia).
    assert (H1 : (n + 1 =? 0) = false) by (apply Z.eqb_neq; lia).
    rewrite H0, H1. split; [reflexivity | discriminate]. }
  unfold getPeriodDates. cbv zeta.
  change (23 * 3600000 + 59 * 60000 + 59 * 1000 + 999) with (day_ms - 1).
  destruct (String.eqb_spec period "day") as [-> | Hd].
  { exists 1. split; [tauto |].
    pose proof (Hwin 1 0 ltac:(lia) eq_refl) as H.
    rewrite Z.mul_0_l, Z.sub_0_r in H. exact H. }
  destruct (String.eqb_spec period "week") as [-> | Hw].
  { exists 8. split; [tauto |]. apply Hwin; lia. }
  destruct (String.eqb_spec period "month") as [-> | Hm].
  { exists (n1 + 1). rewrite E1.
    split; [right; right; left; split; [reflexivity | lia] |].
    apply Hwin; lia. }
  destruct (String.eqb_spec period "quarter") as [-> | Hq].
  { exists (n3 + 1). rewrite E3.
    split; [right; right; right; left; split; [reflexivity | lia] |].
    apply Hwin; lia. }
  destruct (String.eqb_spec period "year") as [-> | Hy].
  { exists (n12 + 1). rewrite E12.
    split; [right; right; right; right; split; [reflexivity | lia] |].
    apply Hwin; lia. }
  split; [reflexivity |]. cbn [In]. intuition congruence.
Qed.

(** ** Ranges of the efficiency metrics *)

Lemma count_on_time_late (procedures : list Procedure.t) :
  0 <= count on_time procedures
  /\ 0 <= count late procedures
  /\ count on_time procedures + count late procedures
     <= Z.of_nat (length procedures).
Proof.
  split; [unfold count; lia |]. split; [unfold count; lia |].
  induction procedures as [| proc l IH]; [reflexivity |].
  rewrite !count_cons. cbn [length].
  assert (Hhead : (if on_time proc then 1 else 0)
                  + (if late proc then 1 else 0) <= 1).
  { unfold on_time, late. destruct (delay_ms proc) as [d |]; [| lia].
    rewrite late_not_on_time. destruct (d <=? one_hour_ms); simpl; lia. }
  lia.
Qed.

Lemma late_delay_hours (proc : Procedure.t) :
  late proc = true -> (1 < delay_hours proc)%Q.
Proof.
  unfold late, delay_hours. destruct (delay_ms proc) as [d |]; [| discriminate].
  intros H%Z.ltb_lt. apply Qlt_shift_div_l; [reflexivity |].
  rewrite Qmult_1_l. rewrite <- Zlt_Qlt. exact H.
Qed.

Lemma late_delays_exceed_count (procedures : list Procedure.t) :
  (inject_Z (count late procedures)
   <= Qsum (map delay_hours (List.filter late procedures)))%Q
  /\ (0 < count late procedures ->
      (inject_Z (count late procedures)
       < Qsum (map delay_hours (List.filter late procedures)))%Q).
Proof.
  induction procedures as [| proc l [IHle IHlt]].
  - split; [apply Qle_refl | unfold count; simpl; lia].
  - rewrite count_cons. cbn [List.filter].
    destruct (late proc) eqn:Hlate; [| exact (conj IHle IHlt)].
    pose proof (late_delay_hours proc Hlate) as Hd.
    cbn [map Qsum fold_right]. fold (Qsum (map delay_hours (List.filter late l))).
    rewrite inject_Z_plus.
    set (s := Qsum (map delay_hours (List.filter late l))) in *.
    set (c := inject_Z (count late l)) in *.
    set (x := delay_hours proc) in *. clearbody s c x.
    change (inject_Z 1) with 1%Q. split; [| intros _]; lra.
Qed.

Lemma tally_step_duracao (acc : Tally.t) (proc : Procedure.t) :
  (Tally.total_duracao (tally_step acc proc)
   == Tally.total_duracao acc + or_number (Procedure.duration proc) 0)%Q.
Proof.
  unfold tally_step, or_number.
  destruct (Procedure.scheduledDate proc) as [scheduled |],
           (Procedure.performedDate proc) as [performed |];
    try destruct (Qle_bool _ 1);
    destruct (Procedure.duration proc) as [duration |];
    try destruct (Qeq_bool duration 0);
    cbn [Tally.total_duracao]; try reflexivity;
    symmetry; apply Qplus_0_r.
Qed.

Lemma tally_fold_duracao (procs : list Procedure.t) :
  forall acc : Tally.t,
    (Tally.total_duracao (fold_left tally_step procs acc)
     == Tally.total_duracao acc
        + Qsum (map (fun proc => or_number (Procedure.duration proc) 0) procs))%Q.
Proof.
  induction procs as [| proc procs IH]; intros acc; cbn [fold_left map].
  - symmetry. apply Qplus_0_r.
  - rewrite IH, tally_step_duracao. cbn [Qsum fold_right].
    now rewrite Qplus_assoc.
Qed.

Lemma percentage_range (a t : Z) :
  0 <= a <= t -> 0 < t ->
  (0 <= inject_Z a / inject_Z t * 100)%Q
  /\ (inject_Z a / inject_Z t * 100 <= 100)%Q.
Proof.
  intros Ha Ht.
  assert (Ht' : (0 < inject_Z t)%Q) by (change 0%Q with (inject_Z 0); now rewrite <- Zlt_Qlt).
  assert (H0 : (0 <= inject_Z a / inject_Z t)%Q).
  { apply Qle_shift_div_l; [exact Ht' |]. rewrite Qmult_0_l.
    change 0%Q with (inject_Z 0). rewrite <- Zle_Qle. lia. }
  assert (H1 : (inject_Z a / inject_Z t <= 1)%Q).
  { apply Qle_shift_div_r; [exact Ht' |]. rewrite Qmult_1_l.
    rewrite <- Zle_Qle. lia. }
  set (x := (inject_Z a / inject_Z t)%Q) in *. clearbody x. split; lra.
Qed.

(** X12. Ranges of the efficiency metrics, for any rows and any window.
    The two counters are not negative and together count at most the rows;
    the punctuality rate lies between 0 and 100; the average delay is 0
    when no row is late and exceeds one hour otherwise; [dias] is the
    length of the window in days, rounded up; the room utilisation is a
    number exactly when [dias] is not 0, and is then the sum of the
    durations (a missing duration counting 0) over the minutes of [dias]
    days, times 100; the procedures per day times [dias] give the row
    count when [dias] is positive, and are 0 otherwise. *)
Theorem efficiencyOf_ranges (procedures : list Procedure.t)
    (startDate endDate : Z) :
  let m := efficiencyOf procedures startDate endDate in
  let total := Z.of_nat (length procedures) in
  let dias := ceil_div (endDate - startDate) day_ms in
  0 <= ProcedureEfficiency.procedimentos_no_prazo m
  /\ 0 <= ProcedureEfficiency.procedimentos_atrasados m
  /\ ProcedureEfficiency.procedimentos_no_prazo m
     + ProcedureEfficiency.procedimentos_atrasados m <= total
  /\ (0 <= ProcedureEfficiency.taxa_pontualidade m)%Q
  /\ (ProcedureEfficiency.taxa_pontualidade m <= 100)%Q
  /\ (ProcedureEfficiency.procedimentos_atrasados m = 0
      /\ ProcedureEfficiency.tempo_medio_atraso m = 0%Q
      \/ 0 < ProcedureEfficiency.procedimentos_atrasados m
         /\ (1 < ProcedureEfficiency.tempo_medio_atraso m)%Q)
  /\ (dias - 1) * day_ms < endDate - startDate <= dias * day_ms
  /\ match ProcedureEfficiency.utilizacao_sala m with
     | Some u =>
         dias <> 0
         /\ (u == Qsum (map (fun proc => or_number (Procedure.duration proc) 0)
                            procedures)
                 / inject_Z (dias * 24 * 60) * 100)%Q
     | None => dias = 0
     end
  /\ (0 < dias
      /\ (ProcedureEfficiency.procedimentos_por_dia m * inject_Z dias
          == inject_Z total)%Q
      \/ dias <= 0 /\ ProcedureEfficiency.procedimentos_por_dia m = 0%Q).
Proof.
  intros m total dias.
  destruct (tally_fold procedures (Tally.mk 0 0 0%Q 0%Q)) as (Hon & Hlate & Hsum).
  pose proof (tally_fold_duracao procedures (Tally.mk 0 0 0%Q 0%Q)) as Hdur.
  cbv zeta in Hon, Hlate, Hsum.
  cbn [Tally.procedimentos_no_prazo Tally.procedimentos_atrasados
       Tally.total_atraso Tally.total_duracao] in Hon, Hlate, Hsum, Hdur.
  rewrite Z.add_0_l in Hon, Hlate. rewrite Qplus_0_l in Hsum, Hdur.
  destruct (count_on_time_late procedures) as (Hc1 & Hc2 & Hc3).
  destruct (late_delays_exceed_count procedures) as [_ Hgt].
  subst m. unfold efficiencyOf. cbv zeta.
  cbn [ProcedureEfficiency.procedimentos_no_prazo
       ProcedureEfficiency.procedimentos_atrasados
       ProcedureEfficiency.taxa_pontualidade
       ProcedureEfficiency.tempo_medio_atraso
       ProcedureEfficiency.utilizacao_sala
       ProcedureEfficiency.procedimentos_por_dia].
  change (1000 * 60 * 60 * 24) with day_ms.
  fold (ceil_div (endDate - startDate) day_ms). fold dias. fold total.
  rewrite Hon, Hlate.
  split; [exact Hc1 |]. split; [exact Hc2 |]. split; [exact Hc3 |].
  assert (Hrate : (0 <= (if 0 <? total
                         then inject_Z (count on_time procedures)
                              / inject_Z total * 100 else 0)
                   /\ (if 0 <? total
                       then inject_Z (count on_time procedures)
                            / inject_Z total * 100 else 0) <= 100)%Q).
  { destruct (Z.ltb_spec 0 total) as [Ht | Ht].
    - apply percentage_range; lia.
    - split; [apply Qle_refl | discriminate]. }
  split; [apply Hrate |]. split; [apply Hrate |].
  split.
  { destruct (Z.ltb_spec 0 (count late procedures)) as [Hl | Hl].
    - right. split; [exact Hl |]. rewrite Hsum.
      apply Qlt_shift_div_l.
      + change 0%Q with (inject_Z 0). now rewrite <- Zlt_Qlt.
      + rewrite Qmult_1_l. apply Hgt, Hl.
    - left. split; [lia | reflexivity]. }
  split; [apply (ceil_div_bounds (endDate - startDate) day_ms eq_refl) |].
  split.
  { destruct (Z.eqb_spec dias 0) as [Hd | Hd]; [exact Hd |].
    split; [exact Hd |]. now rewrite Hdur. }
  destruct (Z.ltb_spec 0 dias) as [Hd | Hd].
  - left. split; [exact Hd |].
    unfold Qdiv. rewrite <- Qmult_assoc, (Qmult_comm (/ _)), Qmult_inv_r.
    + apply Qmult_1_r.
    + intros H. apply (inject_Z_injective dias 0) in H. lia.
  - right. split; [exact Hd | reflexivity].
Qed.

(** ** The analysis of a category *)

Lemma fold_left_Qsum {A : Type} (f : A -> number) (l : list A) :
  forall a : number,
    (fold_left (fun sum p => sum + f p) l a == a + Qsum (map f l))%Q.
Proof.
  induction l as [| x l IH]; intros a; cbn [fold_left map Qsum fold_right].
  - symmetry. apply Qplus_0_r.
  - rewrite IH. fold (Qsum (map f l)). now rewrite Qplus_assoc.
Qed.

Lemma Qsum_Permutation (l l' : list number) :
  Permutation l l' -> (Qsum l == Qsum l')%Q.
Proof.
  induction 1 as [| x l l' _ IH | x y l | l l' l'' _ IH1 _ IH2];
    cbn [Qsum fold_right].
  - reflexivity.
  - fold (Qsum l) (Qsum l'). now rewrite IH.
  - fold (Qsum l). rewrite !Qplus_assoc, (Qplus_comm y x). reflexivity.
  - now rewrite IH1.
Qed.

Lemma List_filter_Permutation {A : Type} (f : A -> bool) (l l' : list A) :
  Permutation l l' -> Permutation (List.filter f l) (List.filter f l').
Proof.
  induction 1 as [| x l l' _ IH | x y l | l l' l'' _ IH1 _ IH2];
    cbn [List.filter].
  - constructor.
  - destruct (f x); [constructor |]; exact IH.
  - destruct (f x), (f y); try reflexivity. constructor.
  - now transitivity (List.filter f l').
Qed.

Lemma filter_length_Permutation {A : Type} (f : A -> bool) (l l' : list A) :
  Permutation l l' -> filter_length f l = filter_length f l'.
Proof.
  intros H. unfold filter_length. f_equal.
  apply Permutation_length, List_filter_Permutation, H.
Qed.

Lemma Qsum_map_Permutation {A : Type} (f : A -> number) (l l' : list A) :
  Permutation l l' -> (Qsum (map f l) == Qsum (map f l'))%Q.
Proof.
  intros H. apply Qsum_Permutation, Permutation_map, H.
Qed.

(** X13. The analysis of a category, for any rows the query returns. The
    total is the number of rows; the complex procedures, those whose
    complexity is HIGH, number between 0 and the total; the total value
    is the sum of the prices and the total duration the sum of the
    durations, a missing one counting 0; the complication rate lies
    between 0 and 100. Without rows every figure is 0; otherwise the mean
    duration times the total is the total duration, and the complication
    rate is the share of rows with a non-empty complications text. *)
Theorem categoryAnalysisOf_ranges (category : string)
    (procedures : list CategoryRow.t) :
  let a := categoryAnalysisOf category procedures in
  let total := CategoryAnalysis.total_procedimentos a in
  CategoryAnalysis.categoria a = category
  /\ total = Z.of_nat (length procedures)
  /\ 0 <= CategoryAnalysis.procedimentos_complexos a <= total
  /\ (CategoryAnalysis.valor_total a
      == Qsum (map (fun p => decimal_or_zero (CategoryRow.basePrice p))
                   procedures))%Q
  /\ (CategoryAnalysis.duracao_total a
      == Qsum (map (fun p => or_number (CategoryRow.duration p) 0)
                   procedures))%Q
  /\ (0 <= CategoryAnalysis.taxa_complicacoes a)%Q
  /\ (CategoryAnalysis.taxa_complicacoes a <= 100)%Q
  /\ (procedures = []
      /\ a = CategoryAnalysis.mk category 0 0%Q 0%Q 0%Q 0 0%Q
      \/ 0 < total
         /\ (CategoryAnalysis.duracao_media a * inject_Z total
             == CategoryAnalysis.duracao_total a)%Q
         /\ (CategoryAnalysis.taxa_complicacoes a * inject_Z total
             == inject_Z (filter_length
                            (fun p => truthy_text (CategoryRow.complications p))
                            procedures) * 100)%Q).
Proof.
  intros a total. subst total a. unfold categoryAnalysisOf. cbv zeta.
  cbn [CategoryAnalysis.categoria CategoryAnalysis.total_procedimentos
       CategoryAnalysis.procedimentos_complexos CategoryAnalysis.valor_total
       CategoryAnalysis.duracao_total CategoryAnalysis.duracao_media
       CategoryAnalysis.taxa_complicacoes].
  split; [reflexivity |]. split; [reflexivity |].
  split; [apply filter_length_bounds |].
  split; [rewrite fold_left_Qsum; apply Qplus_0_l |].
  split; [rewrite fold_left_Qsum; apply Qplus_0_l |].
  pose proof (filter_length_bounds
                (fun p => truthy_text (CategoryRow.complications p)) procedures)
    as Hc.
  set (c := filter_length _ procedures) in *. clearbody c.
  destruct procedures as [| p l].
  - cbn [length Z.of_nat]. change (0 <? 0) with false. cbv iota.
    split; [apply Qle_refl |]. split; [discriminate |].
    left. split; reflexivity.
  - set (total := Z.of_nat (length (p :: l))) in *.
    assert (Ht : 0 < total) by (subst total; cbn [length]; lia).
    assert (Hlt : (0 <? total) = true) by (now apply Z.ltb_lt).
    rewrite Hlt.
    destruct (percentage_range c total Hc Ht) as [H0 H100].
    split; [exact H0 |]. split; [exact H100 |].
    right. split; [exact Ht |].
    assert (Hne : ~ (inject_Z total == 0)%Q).
    { intros H. apply (inject_Z_injective total 0) in H. lia. }
    split.
    + unfold Qdiv. rewrite <- Qmult_assoc, (Qmult_comm (/ _)), Qmult_inv_r
        by exact Hne. apply Qmult_1_r.
    + set (t := inject_Z total) in *. clearbody t.
      set (x := inject_Z c) in *. clearbody x. field. exact Hne.
Qed.

(** X14. Neither query of the analytics orders its rows. What the
    efficiency metrics and the analysis of a category count does not
    depend on the order of the rows: for two lists of rows that are
    permutations of each other the counters (on time, late, total,
    complex) agree, and so do the rates computed from counters alone
    (punctuality, procedures per day, complications). The totals of
    minutes, and with them the use of the room and the mean duration,
    agree as well when every duration is a whole number of 32 bits, as
    the INTEGER columns hold them, and the rows are fewer than 2^21, so
    that every partial sum is a whole number below 2^53. Nothing is
    stated of the sums of numbers with a fraction (the hours of delay,
    the prices), which are added in the order of the rows. *)
Theorem analytics_order_independent
    (procedures procedures' : list Procedure.t) (startDate endDate : Z)
    (category : string) (rows rows' : list CategoryRow.t) :
  Permutation procedures procedures' ->
  Permutation rows rows' ->
  let m := efficiencyOf procedures startDate endDate in
  let m' := efficiencyOf procedures' startDate endDate in
  let a := categoryAnalysisOf category rows in
  let a' := categoryAnalysisOf category rows' in
  ProcedureEfficiency.procedimentos_no_prazo m'
  = ProcedureEfficiency.procedimentos_no_prazo m
  /\ ProcedureEfficiency.procedimentos_atrasados m'
     = ProcedureEfficiency.procedimentos_atrasados m
  /\ ProcedureEfficiency.taxa_pontualidade m'
     = ProcedureEfficiency.taxa_pontualidade m
  /\ ProcedureEfficiency.procedimentos_por_dia m'
     = ProcedureEfficiency.procedimentos_por_dia m
  /\ (Forall (fun p => is_Int_or_null (Procedure.duration p) = true)
             procedures ->
      Z.of_nat (length procedures) < 2 ^ 21 ->
      match ProcedureEfficiency.utilizacao_sala m',
            ProcedureEfficiency.utilizacao_sala m with
      | Some u', Some u => (u' == u)%Q
      | None, None => True
      | _, _ => False
      end)
  /\ CategoryAnalysis.total_procedimentos a'
     = CategoryAnalysis.total_procedimentos a
  /\ CategoryAnalysis.procedimentos_complexos a'
     = CategoryAnalysis.procedimentos_complexos a
  /\ CategoryAnalysis.taxa_complicacoes a'
     = CategoryAnalysis.taxa_complicacoes a
  /\ (Forall (fun r => is_Int_or_null (CategoryRow.duration r) = true) rows ->
      Z.of_nat (length rows) < 2 ^ 21 ->
      (CategoryAnalysis.duracao_total a' == CategoryAnalysis.duracao_total a)%Q
      /\ (CategoryAnalysis.duracao_media a'
          == CategoryAnalysis.duracao_media a)%Q).
Proof.
  intros Hp Hr m m' a a'.
  destruct (tally_fold procedures (Tally.mk 0 0 0%Q 0%Q)) as (Hon & Hlate & _).
  destruct (tally_fold procedures' (Tally.mk 0 0 0%Q 0%Q))
    as (Hon' & Hlate' & _).
  pose proof (tally_fold_duracao procedures (Tally.mk 0 0 0%Q 0%Q)) as Hdur.
  pose proof (tally_fold_duracao procedures' (Tally.mk 0 0 0%Q 0%Q)) as Hdur'.
  cbv zeta in Hon, Hlate, Hon', Hlate'.
  assert (Eon : count on_time procedures' = count on_time procedures)
    by (symmetry; apply (filter_length_Permutation on_time _ _ Hp)).
  assert (Elate : count late procedures' = count late procedures)
    by (symmetry; apply (filter_length_Permutation late _ _ Hp)).
  assert (Elen : length procedures' = length procedures)
    by (symmetry; apply Permutation_length, Hp).
  assert (Erows : length rows' = length rows)
    by (symmetry; apply Permutation_length, Hr).
  rewrite Eon in Hon'. rewrite Elate in Hlate'.
  rewrite <- (Qsum_map_Permutation _ _ _ Hp) in Hdur'.
  rewrite <- Hon in Hon'. rewrite <- Hlate in Hlate'.
  rewrite <- Hdur in Hdur'.
  subst m m' a a'. unfold efficiencyOf, categoryAnalysisOf. cbv zeta.
  cbn [ProcedureEfficiency.procedimentos_no_prazo
       ProcedureEfficiency.procedimentos_atrasados
       ProcedureEfficiency.taxa_pontualidade
       ProcedureEfficiency.utilizacao_sala
       ProcedureEfficiency.procedimentos_por_dia
       CategoryAnalysis.total_procedimentos
       CategoryAnalysis.procedimentos_complexos
       CategoryAnalysis.duracao_total CategoryAnalysis.duracao_media
       CategoryAnalysis.taxa_complicacoes].
  rewrite Elen, Erows, Hon', Hlate'.
  rewrite <- !(filter_length_Permutation _ _ _ Hr).
  assert (Ev : forall f : CategoryRow.t -> number,
             (fold_left (fun sum p => sum + f p) rows' 0
              == fold_left (fun sum p => sum + f p) rows 0)%Q).
  { intros f. rewrite !fold_left_Qsum.
    now rewrite (Qsum_map_Permutation f _ _ Hr). }
  split; [reflexivity |]. split; [reflexivity |]. split; [reflexivity |].
  split; [reflexivity |].
  split.
  { intros _ _. destruct (_ =? 0); [exact I |]. now rewrite Hdur'. }
  split; [reflexivity |]. split; [reflexivity |].
  split; [reflexivity |].
  intros _ _. split; [apply Ev |].
  destruct (0 <? _); [| reflexivity]. apply Qmult_comp; [apply Ev | reflexivity].
Qed.

Lemma analytics_order_independent_witness :
  let m := efficiencyOf sample_day 0 86399999 in
  let m' := efficiencyOf (rev sample_day) 0 86399999 in
  let a := categoryAnalysisOf "GENERAL_SURGERY" sample_category_rows in
  let a' := categoryAnalysisOf "GENERAL_SURGERY" (rev sample_category_rows) in
  Permutation sample_day (rev sample_day)
  /\ Permutation sample_category_rows (rev sample_category_rows)
  /\ ProcedureEfficiency.procedimentos_atrasados m = 1
  /\ ProcedureEfficiency.procedimentos_atrasados m' = 1
  /\ ProcedureEfficiency.utilizacao_sala m <> None
  /\ match ProcedureEfficiency.utilizacao_sala m',
           ProcedureEfficiency.utilizacao_sala m with
     | Some u', Some u => (u' == u)%Q
     | None, None => True
     | _, _ => False
     end
  /\ CategoryAnalysis.procedimentos_complexos a = 1
  /\ CategoryAnalysis.procedimentos_complexos a' = 1
  /\ (CategoryAnalysis.duracao_total a == 215)%Q
  /\ (CategoryAnalysis.duracao_total a' == 215)%Q.
Proof.
  intros m m' a a'.
  destruct (analytics_order_independent
              sample_day (rev sample_day) 0 86399999 "GENERAL_SURGERY"
              sample_category_rows (rev sample_category_rows)
              (Permutation_rev _) (Permutation_rev _))
    as (_ & Hlate & _ & _ & Hroom & _ & Hcomplex & _ & Hminutes).
  fold m m' in Hlate, Hroom. fold a a' in Hcomplex, Hminutes.
  split; [apply Permutation_rev |]. split; [apply Permutation_rev |].
  split; [reflexivity |]. split; [rewrite Hlate; reflexivity |].
  split; [discriminate |].
  split.
  { apply Hroom; [| reflexivity].
    repeat (constructor; [reflexivity |]). constructor. }
  split; [reflexivity |]. split; [rewrite Hcomplex; reflexivity |].
  split; [reflexivity |].
  destruct Hminutes as [Htotal _]; [| reflexivity |].
  { repeat (constructor; [reflexivity |]). constructor. }
  rewrite Htotal. reflexivity.
Defined.

(** ** [ProcedureController]: soft delete and update *)

Lemma findFirst_live_Some (id : string) (db : Database)
    (existing : StoredProcedure.t) :
  findFirst_live id db = Some existing
  <-> table db !! id = Some existing
      /\ StoredProcedure.deletedAt existing = None.
Proof.
  unfold findFirst_live. destruct (table db !! id) as [r |].
  - destruct (StoredProcedure.deletedAt r) eqn:E; split.
    + discriminate.
    + intros [[= ->] Hd]. congruence.
    + intros [= ->]. now split.
    + intros [[= ->] _]. reflexivity.
  - split; [discriminate | intros [[=] _]].
Qed.



(** *** Update *)














(** *** What no request changes *)

Lemma same_identity_refl (r : StoredProcedure.t) : same_identity r r.
Proof. split; [reflexivity | now right]. Qed.

Lemma same_identity_trans (a b c : StoredProcedure.t) :
  same_identity a b -> same_identity b c -> same_identity a c.
Proof.
  intros [Hab Dab] [Hbc Dbc]. split; [congruence |].
  destruct Dab as [Ha | ->]; [now left |].
  destruct Dbc as [Hb | ->]; [now left | now right].
Qed.

Lemma evolves_refl (db : Database) : evolves db db.
Proof.
  split; [reflexivity |]. intros id.
  destruct (table db !! id); [apply same_identity_refl | exact I].
Qed.

Lemma evolves_trans (a b c : Database) :
  evolves a b -> evolves b c -> evolves a c.
Proof.
  intros [Rab Hab] [Rbc Hbc]. split; [congruence |]. intros id.
  specialize (Hab id). specialize (Hbc id).
  destruct (table a !! id), (table b !! id), (table c !! id);
    try tauto. eapply same_identity_trans; eassumption.
Qed.

Lemma evolves_insert (db : Database) (id : string)
    (existing stored : StoredProcedure.t) :
  table db !! id = Some existing ->
  same_identity existing stored ->
  evolves db (mkDatabase (<[id := stored]> (table db)) (reachable db)).
Proof.
  intros Hrow Hsame. split; [reflexivity |]. intros id'. cbn [table].
  destruct (decide (id' = id)) as [-> | Hne].
  - now rewrite lookup_insert_eq, Hrow.
  - rewrite lookup_insert_ne by congruence.
    destruct (table db !! id'); [apply same_identity_refl | exact I].
Qed.

Lemma handle_evolves (Date_parse : string -> option Z)
    (request : ProcedureRequest) (db : Database) :
  evolves db (ProcedureController_handle Date_parse request db).
Proof.
  destruct request as [id | id body | id now]; cbn [ProcedureController_handle].
  - unfold ProcedureController_getById.
    destruct (reachable db), (findFirst_live id db); apply evolves_refl.
  - unfold ProcedureController_update.
    destruct (reachable db) eqn:Hup; [| apply evolves_refl].
    destruct (findFirst_live id db) as [existing |] eqn:Hfind;
      [| apply evolves_refl].
    apply findFirst_live_Some in Hfind as [Hrow Hlive].
    destruct (update_rejected Date_parse body); [apply evolves_refl |].
    rewrite <- Hup.
    cbn [snd]. apply (evolves_insert _ _ existing); [exact Hrow |].
    split; [reflexivity | now left].
  - unfold ProcedureController_delete.
    destruct (reachable db) eqn:Hup; [| apply evolves_refl].
    destruct (findFirst_live id db) as [existing |] eqn:Hfind;
      [| apply evolves_refl].
    apply findFirst_live_Some in Hfind as [Hrow Hlive].
    rewrite <- Hup. cbn [snd]. apply (evolves_insert _ _ existing); [exact Hrow |].
    split; [reflexivity | now left].
Qed.

(** X17. Over any sequence of reads, updates and deletions the table
    keeps its keys, every row keeps the columns that no [data] of the
    controller names (id, code, category, complexity, estimated duration,
    price, patient, authorization flag, suggested port, tags, scheduled
    date, hospital), and a row that is deleted at the start is afterwards
    exactly what it was, and still answers 404 when read. *)
Theorem deleted_rows_are_frozen (Date_parse : string -> option Z)
    (requests : list ProcedureRequest) (db : Database) :
  let db' := ProcedureController_serve Date_parse requests db in
  reachable db' = reachable db
  /\ dom (table db') = dom (table db)
  /\ forall id existing,
       table db !! id = Some existing ->
       exists stored,
         table db' !! id = Some stored
         /\ same_identity existing stored
         /\ (forall when,
               StoredProcedure.deletedAt existing = Some when ->
               stored = existing
               /\ ProcedureController_getById id db'
                  = (sendError "Procedure not found" 404, db')).
Proof.
  cbv zeta.
  assert (Hev : evolves db (ProcedureController_serve Date_parse requests db)).
  { unfold ProcedureController_serve. revert db.
    induction requests as [| request requests IH]; intros db; cbn [fold_left].
    - apply evolves_refl.
    - eapply evolves_trans; [apply handle_evolves | apply IH]. }
  set (db' := ProcedureController_serve Date_parse requests db) in *.
  clearbody db'. destruct Hev as [Hup Hrows].
  split; [exact Hup |]. split.
  { apply set_eq. intros id. rewrite !elem_of_dom. specialize (Hrows id).
    destruct (table db !! id), (table db' !! id); try tauto;
      split; intros [? ?]; eauto; discriminate. }
  intros id existing Hrow. specialize (Hrows id). rewrite Hrow in Hrows.
  destruct (table db' !! id) as [stored |] eqn:Hrow'; [| tauto].
  exists stored. split; [reflexivity |]. split; [exact Hrows |].
  intros when Hdel. destruct Hrows as [_ [Hnone | ->]]; [congruence |].
  split; [reflexivity |].
  unfold ProcedureController_getById, findFirst_live.
  rewrite Hrow', Hdel. now destruct (reachable db').
Qed.

(** *** Error answers *)

(** X18. The error answers of the three endpoints. When the database
    cannot be reached, or the id is not stored, or its row is deleted,
    nothing is written; [getById] answers 404 "Procedure not found" in all
    three cases, so it never reports a failure of the database as such,
    while [update] and [delete] answer 404 for a missing or deleted row and
    500 with their own message when the database cannot be reached. *)
Theorem ProcedureController_errors (Date_parse : string -> option Z)
    (id : string) (body : UpdateProcedureBody.t) (now : Z) (db : Database) :
  reachable db = false
  \/ table db !! id = None
  \/ (exists stored when,
        table db !! id = Some stored
        /\ StoredProcedure.deletedAt stored = Some when) ->
  ProcedureController_getById id db
  = (sendError "Procedure not found" 404, db)
  /\ ProcedureController_update Date_parse id body db
     = (if reachable db
        then sendError "Procedure not found" 404
        else sendError "Failed to update procedure" 500, db)
  /\ ProcedureController_delete id now db
     = (if reachable db
        then sendError "Procedure not found" 404
        else sendError "Failed to delete procedure" 500, db).
Proof.
  intros H.
  unfold ProcedureController_getById, ProcedureController_update,
    ProcedureController_delete.
  destruct (reachable db) eqn:Hup; [| repeat split].
  assert (Hfind : findFirst_live id db = None).
  { unfold findFirst_live.
    destruct H as [H | [-> | (stored & when & -> & ->)]];
      [discriminate | reflexivity | reflexivity]. }
  rewrite Hfind. repeat split.
Qed.

Lemma ProcedureController_errors_witness :
  ProcedureController_getById "p2" sample_database
  = (sendError "Procedure not found" 404, sample_database).
Proof.
  apply (ProcedureController_errors (fun _ => None) "p2" sample_update 0
           sample_database).
  right; left. reflexivity.
Defined.

(** *** The port validation written at creation *)

Lemma as_int_Some (x : JsValue) (n : Z) :
  as_int x = Some n -> x = JNum n /\ is_int32 n = true.
Proof.
  destruct x; try discriminate. cbn [as_int].
  destruct (is_int32 n0) eqn:E; [| discriminate]. now intros [= <-].
Qed.

Lemma js_or_first (a b c : JsValue) :
  js_or (js_or a b) c
  = if truthy a then a else if truthy b then b else c.
Proof.
  unfold js_or. destruct (truthy a) eqn:Ta.
  - now rewrite Ta.
  - reflexivity.
Qed.

Lemma truthy_JNum_nonzero (n : Z) : truthy (JNum n) = true -> n <> 0.
Proof. cbn. intros H ->. discriminate. Qed.

(** X19. Every port validation that [create] writes says valid: the
    verdict [isValid] of the body is kept only when it is true, and a
    falsy one, [false] included, is replaced by [true]. The row carries
    the id of the procedure, the validator "system" and the instant of the
    call; its ports are not 0. When the body gives both ports, the
    suggested port is the validated one, the actual port the reported one,
    and the discrepancy their distance. When it gives only one, both
    ports of the row are that one, and yet the discrepancy is its
    magnitude, not 0. *)
Theorem create_portValidation_record (procedureId : string) (now : Z)
    (reportedPorte validatedPorte : JsValue)
    (porteValidation : option (JsValue * JsValue))
    (record : PortValidation.t) :
  create_portValidation procedureId now reportedPorte validatedPorte
    porteValidation = Some record ->
  PortValidation.isValid record = true
  /\ (exists isValid reason,
        porteValidation = Some (isValid, reason)
        /\ (isValid = JBool true \/ truthy isValid = false)
        /\ (reason = JStr (default "" (PortValidation.reason record))
            /\ PortValidation.reason record <> None
            \/ truthy reason = false /\ PortValidation.reason record = None))
  /\ (PortValidation.procedureId record, PortValidation.validatedBy record,
      PortValidation.validatedAt record) = (procedureId, "system", now)
  /\ PortValidation.suggestedPort record <> 0
  /\ PortValidation.actualPort record <> 0
  /\ (validatedPorte = JNum (PortValidation.suggestedPort record)
      /\ reportedPorte = JNum (PortValidation.actualPort record)
      /\ PortValidation.discrepancy record
         = Z.abs (PortValidation.suggestedPort record
                  - PortValidation.actualPort record)
      \/ (truthy validatedPorte = false
          /\ reportedPorte = JNum (PortValidation.actualPort record)
          \/ truthy reportedPorte = false
             /\ validatedPorte = JNum (PortValidation.suggestedPort record))
         /\ PortValidation.suggestedPort record
            = PortValidation.actualPort record
         /\ PortValidation.discrepancy record
            = Z.abs (PortValidation.actualPort record)).
Proof.
  unfold create_portValidation.
  destruct porteValidation as [[isValid reason] |]; [| discriminate].
  destruct (truthy reportedPorte || truthy validatedPorte) eqn:Hany;
    [| discriminate].
  destruct (as_int (js_or (js_or validatedPorte reportedPorte) (JNum 1)))
    as [suggested |] eqn:Hs; [| discriminate].
  destruct (as_int (js_or (js_or reportedPorte validatedPorte) (JNum 1)))
    as [actual |] eqn:Ha; [| discriminate].
  apply as_int_Some in Hs as [Hs _]. apply as_int_Some in Ha as [Ha _].
  assert (Hvalid : forall b, js_or isValid (JBool true) = JBool b ->
                     b = true
                     /\ (isValid = JBool true \/ truthy isValid = false)).
  { unfold js_or. destruct (truthy isValid) eqn:Ht.
    - intros b ->. cbn in Ht. subst b. split; [reflexivity | now left].
    - intros b [= <-]. split; [reflexivity | now right]. }
  destruct (js_or isValid (JBool true)) as [| | b | | |] eqn:Hv;
    try discriminate.
  destruct (Hvalid b eq_refl) as [-> HisValid].
  assert (Hreason : forall r, js_or reason JNull = r ->
            match r with
            | JStr s => reason = JStr s /\ s <> ""
            | JNull => truthy reason = false
            | _ => True
            end).
  { unfold js_or. destruct (truthy reason) eqn:Ht; intros r <-.
    - destruct reason; try exact I; try discriminate.
      split; [reflexivity |]. intros ->. discriminate.
    - reflexivity. }
  specialize (Hreason _ eq_refl).
  assert (Hports :
    suggested <> 0 /\ actual <> 0
    /\ (validatedPorte = JNum suggested /\ reportedPorte = JNum actual
        /\ Z.abs (or_zero validatedPorte - or_zero reportedPorte)
           = Z.abs (suggested - actual)
        \/ (truthy validatedPorte = false /\ reportedPorte = JNum actual
            \/ truthy reportedPorte = false /\ validatedPorte = JNum suggested)
           /\ suggested = actual
           /\ Z.abs (or_zero validatedPorte - or_zero reportedPorte)
              = Z.abs actual)).
  { rewrite js_or_first in Hs, Ha.
    destruct (truthy validatedPorte) eqn:Tv, (truthy reportedPorte) eqn:Tr;
      try discriminate.
    - subst. split; [now apply truthy_JNum_nonzero |].
      split; [now apply truthy_JNum_nonzero |]. left. now repeat split.
    - rewrite Hs in Ha. injection Ha as <-. subst validatedPorte.
      split; [now apply truthy_JNum_nonzero |].
      split; [now apply truthy_JNum_nonzero |]. right.
      split; [right; now split |]. split; [reflexivity |].
      assert (or_zero reportedPorte = 0) as ->
        by (destruct reportedPorte as [| | | n | |]; try reflexivity;
            cbn in Tr; cbn; destruct (Z.eqb_spec n 0);
            [assumption | discriminate]).
      cbn [or_zero]. f_equal. lia.
    - rewrite Ha in Hs. injection Hs as ->. subst reportedPorte.
      split; [now apply truthy_JNum_nonzero |].
      split; [now apply truthy_JNum_nonzero |]. right.
      split; [left; now split |]. split; [reflexivity |].
      assert (or_zero validatedPorte = 0) as ->
        by (destruct validatedPorte as [| | | n | |]; try reflexivity;
            cbn in Tv; cbn; destruct (Z.eqb_spec n 0);
            [assumption | discriminate]).
      cbn [or_zero]. lia. }
  destruct Hports as (Hs0 & Ha0 & Hcases).
  destruct (js_or reason JNull) as [| | | | | s] eqn:Hr; try discriminate;
    (destruct (is_int32 _); [| discriminate]); intros [= <-];
    cbn [PortValidation.isValid PortValidation.reason
         PortValidation.procedureId PortValidation.validatedBy
         PortValidation.validatedAt PortValidation.suggestedPort
         PortValidation.actualPort PortValidation.discrepancy default].
  - split; [reflexivity |]. split.
    { exists isValid, reason. split; [reflexivity |]. split; [exact HisValid |].
      right. now split. }
    split; [reflexivity |]. split; [exact Hs0 |]. split; [exact Ha0 |].
    exact Hcases.
  - split; [reflexivity |]. split.
    { exists isValid, reason. split; [reflexivity |]. split; [exact HisValid |].
      left. split; [apply Hreason | discriminate]. }
    split; [reflexivity |]. split; [exact Hs0 |]. split; [exact Ha0 |].
    exact Hcases.
Qed.

Lemma create_portValidation_record_witness :
  exists record,
    create_portValidation "p1" 1700000000000 (JNum 2) (JNum 4)
      (Some (JBool false, JStr "porte abaixo do esperado")) = Some record
    /\ PortValidation.isValid record = true.
Proof.
  destruct (create_portValidation "p1" 1700000000000 (JNum 2) (JNum 4)
              (Some (JBool false, JStr "porte abaixo do esperado")))
    as [record |] eqn:E; [| vm_compute in E; discriminate].
  exists record. split; [reflexivity |].
  exact (proj1 (create_portValidation_record _ _ _ _ _ _ E)).
Defined.

(** ** The two publishers *)

Lemma EventBus_call_without_client
    (sendMessages_error : string -> string -> option Exn)
    (sender_close_error : string -> option Exn)
    (client_close_error : option Exn)
    (call : BusCall) (delivered : list (string * string)) :
  EventBus_call sendMessages_error sender_close_error client_close_error call
    (EventBus.mk false false [] delivered)
  = (Return tt, EventBus.mk false false [] delivered).
Proof. destruct call; reflexivity. Qed.

Lemma EventBus_run_without_client
    (sendMessages_error : string -> string -> option Exn)
    (sender_close_error : string -> option Exn)
    (client_close_error : option Exn)
    (calls : list BusCall) (delivered : list (string * string)) :
  EventBus_run sendMessages_error sender_close_error client_close_error calls
    (EventBus.mk false false [] delivered)
  = (map (fun _ => Return tt) calls, EventBus.mk false false [] delivered).
Proof.
  induction calls as [| call calls IH]; [reflexivity |].
  cbn [EventBus_run map]. rewrite EventBus_call_without_client, IH.
  reflexivity.
Qed.

Lemma EventBus_call_grows
    (sendMessages_error : string -> string -> option Exn)
    (sender_close_error : string -> option Exn)
    (client_close_error : option Exn)
    (call : BusCall) (bus : EventBus.t) :
  let bus' := snd (EventBus_call sendMessages_error sender_close_error
                     client_close_error call bus) in
  EventBus.delivered bus `prefix_of` EventBus.delivered bus'
  /\ (NoDup (EventBus.senders bus) -> NoDup (EventBus.senders bus'))
  /\ (EventBus.client bus = false -> EventBus.client bus' = false).
Proof.
  destruct call as [| | topic message]; cbn [EventBus_call].
  - unfold EventBus_connect. destruct (EventBus.client bus) eqn:Hc;
      cbn [snd EventBus.delivered EventBus.senders EventBus.client];
      repeat split; auto; congruence.
  - unfold EventBus_disconnect.
    destruct (close_senders sender_close_error (EventBus.senders bus));
      [cbn [snd]; repeat split; auto |].
    destruct (EventBus.client bus); [destruct client_close_error |];
      cbn [snd EventBus.delivered EventBus.senders EventBus.client];
      repeat split; auto using NoDup_nil_2; discriminate.
  - unfold EventBus_publishEvent.
    destruct (negb (EventBus.client bus) || negb (EventBus.isConnected bus));
      [cbn [snd]; repeat split; auto |].
    assert (Hs : NoDup (EventBus.senders bus) ->
                 NoDup (if existsb (String.eqb topic) (EventBus.senders bus)
                        then EventBus.senders bus
                        else (EventBus.senders bus ++ [topic])%list)).
    { intros Hnd. destruct (existsb _ _) eqn:E; [exact Hnd |].
      apply NoDup_app. split; [exact Hnd |]. split; [| apply NoDup_singleton].
      intros x Hx Hin%list_elem_of_singleton. subst x.
      assert (existsb (String.eqb topic) (EventBus.senders bus) = true);
        [| congruence].
      apply existsb_exists. exists topic. split; [| apply String.eqb_refl].
      now apply list_elem_of_In. }
    destruct (sendMessages_error topic message);
      cbn [snd EventBus.delivered EventBus.senders EventBus.client];
      (split; [| split; [exact Hs | auto]]).
    + reflexivity.
    + now apply prefix_app_r.
Qed.

(** X20. An event bus that has been disconnected stays silent. When
    [disconnect] returns, nothing more has been delivered, the bus reports
    unhealthy, and whatever is called on it afterwards, [connect]
    included, returns normally and changes nothing: [disconnect] sets the
    client to null and [connect] returns early without one, so the bus
    cannot be connected again and every later publication is skipped
    without an error. The same holds for a bus constructed with an empty
    connection string. [KafkaService.publishEvent], in contrast, throws
    the error "Kafka is not connected" when it is not connected. *)
Theorem disconnected_bus_is_silent
    (sendMessages_error : string -> string -> option Exn)
    (sender_close_error : string -> option Exn)
    (client_close_error : option Exn)
    (bus bus' : EventBus.t) (calls : list BusCall) :
  EventBus_disconnect sender_close_error client_close_error bus
  = (Return tt, bus') ->
  EventBus.delivered bus' = EventBus.delivered bus
  /\ EventBus_isHealthy bus' = false
  /\ EventBus_run sendMessages_error sender_close_error client_close_error
       calls bus'
     = (map (fun _ => Return tt) calls, bus')
  /\ EventBus_run sendMessages_error sender_close_error client_close_error
       calls (EventBus_new "")
     = (map (fun _ => Return tt) calls, EventBus_new "")
  /\ forall producer_send_error topic message key kafka,
       Kafka.isConnected kafka = false ->
       KafkaService_publishEvent producer_send_error topic message key kafka
       = (Throw (Error "Kafka is not connected"), kafka).
Proof.
  intros Hd.
  assert (Hbus' : bus' = EventBus.mk false false [] (EventBus.delivered bus)).
  { unfold EventBus_disconnect in Hd.
    destruct (close_senders _ _); [discriminate |].
    destruct (EventBus.client bus); [destruct client_close_error |];
      congruence. }
  subst bus'. split; [reflexivity |]. split; [reflexivity |].
  split; [apply EventBus_run_without_client |].
  split; [apply EventBus_run_without_client |].
  intros P topic message key kafka Hk. unfold KafkaService_publishEvent.
  now rewrite Hk.
Qed.

Lemma disconnected_bus_is_silent_witness :
  fst (EventBus_run (fun _ _ => None) (fun _ => None) None
         [BusConnect; BusPublish "ai-request.created" "{}"]
         (snd (EventBus_disconnect (fun _ => None) None
                 (EventBus.mk true true ["ai-request.created"] []))))
  = [Return tt; Return tt]
  /\ EventBus.delivered
       (snd (EventBus_run (fun _ _ => None) (fun _ => None) None
               [BusConnect; BusPublish "ai-request.created" "{}"]
               (snd (EventBus_disconnect (fun _ => None) None
                       (EventBus.mk true true ["ai-request.created"] [])))))
     = [].
Proof.
  destruct (disconnected_bus_is_silent (fun _ _ => None) (fun _ => None) None
              (EventBus.mk true true ["ai-request.created"] [])
              (EventBus.mk false false [] [])
              [BusConnect; BusPublish "ai-request.created" "{}"] eq_refl)
    as (_ & _ & Hrun & _).
  change (snd (EventBus_disconnect (fun _ => None) None
                 (EventBus.mk true true ["ai-request.created"] [])))
    with (EventBus.mk false false [] []).
  rewrite Hrun. split; reflexivity.
Defined.

(** X21. Over any sequence of calls on an event bus the list of delivered
    messages only grows at its end, the bus keeps at most one sender per
    topic, and a bus without a client never gets one. A publication
    either is skipped (it returns normally and changes nothing), or the
    bus has a client and is connected and the message is handed to the
    sender of its topic: then it throws the error of [sendMessages] and
    delivers nothing, or returns and appends the message to the delivered
    ones. So on a bus that is not connected every publication is
    skipped. *)
Theorem EventBus_delivers_in_order
    (sendMessages_error : string -> string -> option Exn)
    (sender_close_error : string -> option Exn)
    (client_close_error : option Exn)
    (calls : list BusCall) (bus : EventBus.t) :
  let bus' := snd (EventBus_run sendMessages_error sender_close_error
                     client_close_error calls bus) in
  EventBus.delivered bus `prefix_of` EventBus.delivered bus'
  /\ (NoDup (EventBus.senders bus) -> NoDup (EventBus.senders bus'))
  /\ (EventBus.client bus = false -> EventBus.client bus' = false)
  /\ (forall topic message,
        EventBus_publishEvent sendMessages_error topic message bus
        = (Return tt, bus)
        \/ EventBus.client bus = true /\ EventBus.isConnected bus = true
           /\ match sendMessages_error topic message with
              | Some error =>
                  fst (EventBus_publishEvent sendMessages_error topic message
                         bus) = Throw error
                  /\ EventBus.delivered
                       (snd (EventBus_publishEvent sendMessages_error topic
                               message bus))
                     = EventBus.delivered bus
              | None =>
                  fst (EventBus_publishEvent sendMessages_error topic message
                         bus) = Return tt
                  /\ EventBus.delivered
                       (snd (EventBus_publishEvent sendMessages_error topic
                               message bus))
                     = (EventBus.delivered bus ++ [(topic, message)])%list
              end).
Proof.
  cbv zeta. split; [| split; [| split]].
  - revert bus. induction calls as [| call calls IH]; intros bus;
      cbn [EventBus_run]; [reflexivity |].
    pose proof (EventBus_call_grows sendMessages_error sender_close_error
                  client_close_error call bus) as (Hp & _).
    destruct (EventBus_call _ _ _ call bus) as [answer bus1].
    specialize (IH bus1). destruct (EventBus_run _ _ _ calls bus1).
    cbn [snd] in *. now transitivity (EventBus.delivered bus1).
  - revert bus. induction calls as [| call calls IH]; intros bus;
      cbn [EventBus_run]; [auto |].
    pose proof (EventBus_call_grows sendMessages_error sender_close_error
                  client_close_error call bus) as (_ & Hn & _).
    destruct (EventBus_call _ _ _ call bus) as [answer bus1].
    specialize (IH bus1). destruct (EventBus_run _ _ _ calls bus1).
    cbn [snd] in *. auto.
  - revert bus. induction calls as [| call calls IH]; intros bus;
      cbn [EventBus_run]; [auto |].
    pose proof (EventBus_call_grows sendMessages_error sender_close_error
                  client_close_error call bus) as (_ & _ & Hc).
    destruct (EventBus_call _ _ _ call bus) as [answer bus1].
    specialize (IH bus1). destruct (EventBus_run _ _ _ calls bus1).
    cbn [snd] in *. auto.
  - intros topic message. unfold EventBus_publishEvent.
    destruct (EventBus.client bus), (EventBus.isConnected bus);
      cbn [negb orb]; try (now left).
    right. split; [reflexivity |]. split; [reflexivity |].
    destruct (sendMessages_error topic message); now split.
Qed.

(** ** The statistics of a window *)

Lemma Zsum_map_add {A : Type} (f g : A -> Z) (l : list A) :
  Zsum (map (fun x => f x + g x) l) = Zsum (map f l) + Zsum (map g l).
Proof.
  unfold Zsum. induction l as [| x l IH]; [reflexivity |].
  cbn [map fold_right] in *. lia.
Qed.

Lemma Zsum_indicator {K : Type} `{EqDecision K} (k : K) (keys : list K) :
  NoDup keys ->
  Zsum (map (fun k' => if bool_decide (k = k') then 1 else 0) keys)
  = if bool_decide (k ∈ keys) then 1 else 0.
Proof.
  unfold Zsum. induction 1 as [| k' keys Hnotin Hnd IH]; [reflexivity |].
  cbn [map fold_right]. rewrite IH.
  destruct (decide (k = k')) as [<- | Hne].
  - rewrite bool_decide_eq_true_2 by reflexivity.
    rewrite (bool_decide_eq_false_2 (k ∈ keys)) by exact Hnotin.
    rewrite bool_decide_eq_true_2 by left. reflexivity.
  - rewrite (bool_decide_eq_false_2 (k = k')) by exact Hne.
    destruct (decide (k ∈ keys)) as [Hin | Hout].
    + rewrite !bool_decide_eq_true_2; [reflexivity | now right | exact Hin].
    + rewrite !bool_decide_eq_false_2; [reflexivity | | exact Hout].
      intros [-> | Hin]%elem_of_cons; tauto.
Qed.

Lemma filter_length_cons {A : Type} (f : A -> bool) (x : A) (l : list A) :
  filter_length f (x :: l) = (if f x then 1 else 0) + filter_length f l.
Proof.
  unfold filter_length. cbn [List.filter]. destruct (f x); cbn [length]; lia.
Qed.

Lemma counts_partition {A K : Type} `{EqDecision K} (key : A -> K)
    (keys : list K) (rows : list A) :
  NoDup keys ->
  (forall r, r ∈ rows -> key r ∈ keys) ->
  Zsum (map (fun k => filter_length (fun r => bool_decide (key r = k)) rows)
            keys)
  = Z.of_nat (length rows).
Proof.
  intros Hnd. induction rows as [| r rows IH]; intros Hin.
  - cbn [length]. unfold Zsum. clear. induction keys as [| k keys IHk];
      [reflexivity |].
    cbn [map fold_right]. rewrite IHk. reflexivity.
  - rewrite (List.map_ext _ (fun k =>
               (if bool_decide (key r = k) then 1 else 0)
               + filter_length (fun r => bool_decide (key r = k)) rows))
      by (intros k;
          apply (filter_length_cons (fun r0 => bool_decide (key r0 = k)))).
    rewrite Zsum_map_add, IH, Zsum_indicator by
      (try exact Hnd; intros r' Hr'; apply Hin; now right).
    rewrite bool_decide_eq_true_2 by (apply Hin; left).
    cbn [length]. lia.
Qed.

Lemma groupBy_count_keys {A K : Type} `{EqDecision K} (key : A -> K)
    (rows : list A) :
  map fst (groupBy_count key rows) = remove_dups (map key rows).
Proof.
  unfold groupBy_count. rewrite map_map. cbn [fst]. apply map_id.
Qed.

Lemma groupBy_count_partition {A K : Type} `{EqDecision K} (key : A -> K)
    (rows : list A) :
  NoDup (map fst (groupBy_count key rows))
  /\ Zsum (map snd (groupBy_count key rows)) = Z.of_nat (length rows)
  /\ Forall (fun g => 1 <= snd g) (groupBy_count key rows).
Proof.
  split; [rewrite groupBy_count_keys; apply NoDup_remove_dups |].
  split.
  - unfold groupBy_count. rewrite map_map. cbn [snd].
    apply counts_partition; [apply NoDup_remove_dups |].
    intros r Hr. apply elem_of_remove_dups.
    apply list_elem_of_In, in_map, list_elem_of_In, Hr.
  - unfold groupBy_count. apply Forall_map, Forall_forall.
    intros k Hk. rewrite elem_of_remove_dups in Hk. cbn [snd].
    apply list_elem_of_In, in_map_iff in Hk as (r & <- & Hr).
    clear -Hr. induction rows as [| r' rows IH]; [destruct Hr |].
    rewrite filter_length_cons. destruct Hr as [-> | Hr].
    + rewrite bool_decide_eq_true_2 by reflexivity.
      pose proof (filter_length_bounds
                    (fun r0 => bool_decide (key r0 = key r)) rows). lia.
    + specialize (IH Hr). destruct (bool_decide _); lia.
Qed.

Lemma percentual_sum (realizados : Z) (counts : list Z) :
  0 < realizados ->
  (Qsum (map (percentual realizados) counts)
   == inject_Z (Zsum counts) / inject_Z realizados * 100)%Q.
Proof.
  intros Hr. unfold percentual.
  assert (Hlt : (0 <? realizados) = true) by now apply Z.ltb_lt.
  rewrite Hlt.
  assert (Hne : ~ (inject_Z realizados == 0)%Q).
  { intros H. apply (inject_Z_injective realizados 0) in H. lia. }
  induction counts as [| q counts IH]; cbn [map Qsum Zsum fold_right].
  - unfold Qdiv. now rewrite !Qmult_0_l.
  - fold (Qsum (map (fun q => inject_Z q / inject_Z realizados * 100)%Q counts)).
    fold (Zsum counts). rewrite IH, inject_Z_plus.
    set (r := inject_Z realizados) in *. clearbody r.
    set (a := inject_Z q). set (b := inject_Z (Zsum counts)).
    clearbody a b. field. exact Hne.
Qed.

Lemma percentual_total (realizados : Z) (counts : list Z) :
  0 < realizados -> Zsum counts = realizados ->
  (Qsum (map (percentual realizados) counts) == 100)%Q.
Proof.
  intros Hr Hs. rewrite percentual_sum, Hs by exact Hr.
  assert (Hne : ~ (inject_Z realizados == 0)%Q).
  { intros H. apply (inject_Z_injective realizados 0) in H. lia. }
  set (r := inject_Z realizados) in *. clearbody r. field. exact Hne.
Qed.

(** X22. The statistics of a window, when the queries see the same rows.
    The cancelled procedures are among the total. The two breakdowns, by
    category and by complexity, partition the performed procedures: no
    group occurs twice, each has at least one procedure, the quantities
    add up to [realizados], and the percentages add up to 100 unless
    nothing was performed, in which case both breakdowns are empty. The
    rate [taxa_realizacao] is not negative; it is at most 100 when every
    procedure performed in the window was also created in it, which the
    queries do not ensure: the total counts by [createdAt], the performed
    ones by [performedDate]. *)
Theorem getProcedureStats_breakdowns (hId : string) (startDate endDate : Z)
    (rows : list PendingRow.t) :
  let stats := getProcedureStats hId startDate endDate rows in
  let realizados := ProcedureStats.realizados stats in
  let categorias := ProcedureStats.por_categoria stats in
  let complexidades := ProcedureStats.por_complexidade stats in
  0 <= ProcedureStats.cancelados stats
       <= ProcedureStats.total_procedimentos stats
  /\ 0 <= ProcedureStats.agendados stats
  /\ realizados
     = filter_length (performed_in hId startDate endDate) rows
  /\ NoDup (map (fun g => fst (fst g)) categorias)
  /\ NoDup (map (fun g => fst (fst g)) complexidades)
  /\ Forall (fun g => 1 <= snd (fst g)
                      /\ snd g = percentual realizados (snd (fst g)))
            categorias
  /\ Forall (fun g => 1 <= snd (fst g)
                      /\ snd g = percentual realizados (snd (fst g)))
            complexidades
  /\ Zsum (map (fun g => snd (fst g)) categorias) = realizados
  /\ Zsum (map (fun g => snd (fst g)) complexidades) = realizados
  /\ (realizados = 0 /\ categorias = [] /\ complexidades = []
      \/ 0 < realizados
         /\ (Qsum (map snd categorias) == 100)%Q
         /\ (Qsum (map snd complexidades) == 100)%Q)
  /\ (0 <= ProcedureStats.taxa_realizacao stats)%Q
  /\ ((forall r, In r rows ->
         performed_in hId startDate endDate r = true ->
         created_in hId startDate endDate r = true) ->
      (ProcedureStats.taxa_realizacao stats <= 100)%Q).
Proof.
  cbv zeta. unfold getProcedureStats. cbv zeta.
  cbn [ProcedureStats.cancelados ProcedureStats.total_procedimentos
       ProcedureStats.agendados ProcedureStats.realizados
       ProcedureStats.por_categoria ProcedureStats.por_complexidade
       ProcedureStats.taxa_realizacao].
  set (performed := List.filter (performed_in hId startDate endDate) rows).
  set (realizados := Z.of_nat (length performed)).
  set (total := filter_length (created_in hId startDate endDate) rows).
  destruct (groupBy_count_partition
              (fun r => Procedure.category (PendingRow.row r)) performed)
    as (Nc & Sc & Fc).
  destruct (groupBy_count_partition
              (fun r => Procedure.complexity (PendingRow.row r)) performed)
    as (Nx & Sx & Fx).
  set (gc := groupBy_count
               (fun r => Procedure.category (PendingRow.row r)) performed)
    in *.
  set (gx := groupBy_count
               (fun r => Procedure.complexity (PendingRow.row r)) performed)
    in *.
  assert (Hkeys : forall (K : Type) (g : list (K * Z)),
            map (fun g0 => fst (fst g0))
                (map (fun g0 => (fst g0, snd g0,
                                 percentual realizados (snd g0))) g)
            = map fst g)
    by (intros; rewrite map_map; reflexivity).
  assert (Hcounts : forall (K : Type) (g : list (K * Z)),
            map (fun g0 => snd (fst g0))
                (map (fun g0 => (fst g0, snd g0,
                                 percentual realizados (snd g0))) g)
            = map snd g)
    by (intros; rewrite map_map; reflexivity).
  assert (Hpercent : forall (K : Type) (g : list (K * Z)),
            map snd
                (map (fun g0 => (fst g0, snd g0,
                                 percentual realizados (snd g0))) g)
            = map (percentual realizados) (map snd g))
    by (intros; rewrite !map_map; reflexivity).
  assert (Hall : forall (K : Type) (g : list (K * Z)),
            Forall (fun g0 => 1 <= snd g0) g ->
            Forall (fun g0 => 1 <= snd (fst g0)
                              /\ snd g0 = percentual realizados (snd (fst g0)))
                   (map (fun g0 => (fst g0, snd g0,
                                    percentual realizados (snd g0))) g)).
  { intros K g Hg. apply Forall_map. eapply Forall_impl; [exact Hg |].
    intros g0 H0. cbn [fst snd]. now split. }
  split.
  { split; [apply filter_length_bounds |].
    apply filter_length_mono. unfold cancelled_in.
    intros r Hr. now apply andb_true_iff in Hr as [Hr _]. }
  split; [apply filter_length_bounds |].
  split; [reflexivity |].
  split; [rewrite Hkeys; exact Nc |]. split; [rewrite Hkeys; exact Nx |].
  split; [apply Hall, Fc |]. split; [apply Hall, Fx |].
  split; [rewrite Hcounts; exact Sc |]. split; [rewrite Hcounts; exact Sx |].
  split.
  { destruct (Z.ltb_spec 0 realizados) as [Hr | Hr].
    - right. split; [exact Hr |]. rewrite !Hpercent.
      split; apply percentual_total; assumption.
    - left. assert (Hnil : performed = [])
        by (destruct performed; [reflexivity | cbn in realizados; lia]).
      split; [subst realizados; lia |].
      subst gc gx. rewrite Hnil. split; reflexivity. }
  assert (H0 : 0 <= realizados) by (subst realizados; lia).
  assert (Ht : 0 <= total) by apply filter_length_bounds.
  split.
  { destruct (Z.ltb_spec 0 total) as [Hlt | Hge]; [| apply Qle_refl].
    assert (Hpos : (0 < inject_Z total)%Q)
      by (change 0%Q with (inject_Z 0); now rewrite <- Zlt_Qlt).
    assert (Hq : (0 <= inject_Z realizados / inject_Z total)%Q).
    { apply Qle_shift_div_l; [exact Hpos |]. rewrite Qmult_0_l.
      change 0%Q with (inject_Z 0). now rewrite <- Zle_Qle. }
    set (x := (inject_Z realizados / inject_Z total)%Q) in *. clearbody x.
    lra. }
  intros Himp.
  assert (Hle : realizados <= total).
  { subst realizados total performed. fold (filter_length (performed_in hId startDate endDate) rows).
    unfold filter_length.
    assert (H : (length (List.filter (performed_in hId startDate endDate) rows)
                 <= length (List.filter (created_in hId startDate endDate) rows))%nat).
    { clear -Himp. induction rows as [| r rows IH]; [reflexivity |].
      cbn [List.filter].
      assert (IH' : (length (List.filter (performed_in hId startDate endDate) rows)
                     <= length (List.filter (created_in hId startDate endDate) rows))%nat)
        by (apply IH; intros r' Hr'; apply Himp; now right).
      destruct (performed_in hId startDate endDate r) eqn:Hp.
      - rewrite (Himp r (or_introl eq_refl) Hp). cbn [length]. lia.
      - destruct (created_in hId startDate endDate r); cbn [length]; lia. }
    lia. }
  destruct (Z.ltb_spec 0 total) as [Hlt | Hge]; [| discriminate].
  apply percentage_range; lia.
Qed.

(** ** The efficiency endpoint *)

Lemma getPeriodDates_tokens (period : string) (date : Z) :
  match getPeriodDates period date with
  | Return _ => In period ["day"; "week"; "month"; "quarter"; "year"]
  | Throw _ => ~ In period ["day"; "week"; "month"; "quarter"; "year"]
  end.
Proof.
  unfold getPeriodDates. cbv zeta. cbn [In].
  destruct (String.eqb_spec period "day") as [-> | ?]; [tauto |].
  destruct (String.eqb_spec period "week") as [-> | ?]; [tauto |].
  destruct (String.eqb_spec period "month") as [-> | ?]; [tauto |].
  destruct (String.eqb_spec period "quarter") as [-> | ?]; [tauto |].
  destruct (String.eqb_spec period "year") as [-> | ?]; [tauto |].
  intuition congruence.
Qed.

(** X23. The efficiency endpoint answers 200 or 500. It answers 200
    exactly when the date is valid, the period, "month" when the query
    has none, is one of the five tokens, and the database answers the
    query; the body then carries the metrics of the hospital of the
    service over the window of that period, and echoes the period and the
    UTC day of the date. Otherwise (an invalid date, an unknown period, or
    a query the database rejects) it answers 500 with one fixed error
    text and no data: neither the message of [getPeriodDates] about the
    invalid period nor the error of the database reaches the client. *)
Theorem getEfficiency_answers (period : option string)
    (targetDate : option Z) (reachable : bool) (w : World) :
  let '(statusCode, body) :=
    AnalyticsController_getEfficiency period targetDate reachable w in
  let token := default "month" period in
  statusCode = 200
  /\ AnalyticsResponse.success body = true
  /\ AnalyticsResponse.error body = None
  /\ AnalyticsResponse.period body = Some token
  /\ In token ["day"; "week"; "month"; "quarter"; "year"]
  /\ reachable = true
  /\ (exists t startDate endDate,
        targetDate = Some t
        /\ getPeriodDates token t = Return (startDate, endDate)
        /\ AnalyticsResponse.date body = Some (iso_date t)
        /\ AnalyticsResponse.data body
           = Some (getEfficiencyMetrics "hosp_sagrada_familia_001"
                     startDate endDate w))
  \/ statusCode = 500
     /\ body = AnalyticsResponse.mk false None None None
                 (Some "Erro ao buscar métricas de eficiência")
     /\ (targetDate = None
         \/ ~ In token ["day"; "week"; "month"; "quarter"; "year"]
         \/ reachable = false).
Proof.
  unfold AnalyticsController_getEfficiency. cbv zeta.
  destruct targetDate as [t |];
    [| right; split; [reflexivity |]; split; [reflexivity |]; now left].
  unfold getEfficiencyMetrics_for.
  pose proof (getPeriodDates_tokens (default "month" period) t) as Htok.
  destruct (getPeriodDates (default "month" period) t) as [[s e] | err] eqn:E.
  - destruct reachable.
    + left. split; [reflexivity |]. split; [reflexivity |].
      split; [reflexivity |]. split; [reflexivity |]. split; [exact Htok |].
      split; [reflexivity |].
      exists t, s, e. split; [reflexivity |]. split; [exact E |].
      split; reflexivity.
    + right. split; [reflexivity |]. split; [reflexivity |]. now do 2 right.
  - right. split; [reflexivity |]. split; [reflexivity |]. right. now left.
Qed.

Lemma getEfficiency_sample :
  AnalyticsController_getEfficiency None (Some 1700000000000) true
    (sample_world bus_up)
  = (200,
     AnalyticsResponse.mk true
       (Some (getEfficiencyMetrics "hosp_sagrada_familia_001"
                1697241600000 1700006399999 (sample_world bus_up)))
       (Some "month") (Some "2023-11-14") None)
  /\ fst (AnalyticsController_getEfficiency None (Some 1700000000000) false
            (sample_world bus_up)) = 500
  /\ fst (AnalyticsController_getEfficiency (Some "decade")
            (Some 1700000000000) true (sample_world bus_up)) = 500.
Proof. repeat split; vm_compute; reflexivity. Qed.

(** ** The authentication middleware *)

Lemma substring_all (s : string) :
  String.substring 0 (String.length s) s = s.
Proof.
  induction s as [| a s IH]; [reflexivity |].
  cbn [String.length String.substring]. now rewrite IH.
Qed.

Lemma startsWith_Bearer (authHeader : string) :
  startsWith authHeader "Bearer " = true ->
  authHeader
  = String.append "Bearer "
      (String.substring 7 (String.length authHeader - 7) authHeader).
Proof.
  unfold startsWith.
  do 7 (destruct authHeader as [| ? authHeader]; [discriminate |];
        cbn [String.prefix];
        match goal with
        | |- context [ascii_dec ?a ?b] =>
            destruct (ascii_dec a b) as [<- |]; [| discriminate]
        end).
  intros _. cbn [String.append String.length Nat.sub String.substring].
  now rewrite Nat.sub_0_r, substring_all.
Qed.

(** X24. The authentication chain. [authMiddleware] calls [next] exactly
    when the header is "Bearer " followed by a token that [jwt.verify]
    decodes, and attaches the decoded payload; [requireRole] then lets
    the request pass if the role of the payload is the required one and
    answers 403 otherwise, while [requirePermission] lets it pass whatever
    the permission. A request that [authMiddleware] did not let pass was
    answered 401 for a header that is missing or does not start with
    "Bearer ", 401 for an expired or invalid token, 500 for any other
    error of the verification; without a user both guards answer 401. *)
Theorem auth_chain (jwt_verify : string -> JwtVerified)
    (authorization : option string) (role permission : string) :
  let outcome := authMiddleware jwt_verify authorization in
  match outcome with
  | Next decoded =>
      (exists token,
         authorization = Some (String.append "Bearer " token)
         /\ jwt_verify token = JwtDecoded decoded)
      /\ requirePermission permission (req_user outcome) = Next tt
      /\ (JWTPayload.role decoded = role
          /\ requireRole role (req_user outcome) = Next tt
          \/ JWTPayload.role decoded <> role
             /\ requireRole role (req_user outcome)
                = Answers 403 "Insufficient permissions")
  | Answers statusCode message =>
      requireRole role (req_user outcome)
      = Answers 401 "Authentication required"
      /\ requirePermission permission (req_user outcome)
         = Answers 401 "Authentication required"
      /\ ((statusCode, message) = (401, "Access token is required")
          /\ (forall token,
                authorization <> Some (String.append "Bearer " token))
          \/ exists token,
               authorization = Some (String.append "Bearer " token)
               /\ match jwt_verify token with
                  | JwtDecoded _ => False
                  | JwtTokenExpiredError =>
                      (statusCode, message) = (401, "Token has expired")
                  | JwtJsonWebTokenError =>
                      (statusCode, message) = (401, "Invalid token")
                  | JwtOtherError =>
                      (statusCode, message) = (500, "Authentication error")
                  end)
  end.
Proof.
  cbv zeta. unfold authMiddleware.
  destruct authorization as [authHeader |].
  2: { split; [reflexivity |]. split; [reflexivity |]. left.
       split; [reflexivity | discriminate]. }
  destruct (negb (String.eqb authHeader "") && startsWith authHeader "Bearer ")
    eqn:Hcheck.
  - apply andb_true_iff in Hcheck as [_ Hpre].
    pose proof (startsWith_Bearer authHeader Hpre) as Hheader.
    set (token := String.substring 7 (String.length authHeader - 7) authHeader)
      in *.
    destruct (jwt_verify token) as [decoded | | |] eqn:Hv.
    + split; [exists token; split; [now f_equal | exact Hv] |].
      split; [reflexivity |]. cbn [req_user requireRole].
      destruct (String.eqb_spec (JWTPayload.role decoded) role);
        [left | right]; now split.
    + split; [reflexivity |]. split; [reflexivity |]. right.
      exists token. split; [now f_equal |]. now rewrite Hv.
    + split; [reflexivity |]. split; [reflexivity |]. right.
      exists token. split; [now f_equal |]. now rewrite Hv.
    + split; [reflexivity |]. split; [reflexivity |]. right.
      exists token. split; [now f_equal |]. now rewrite Hv.
  - split; [reflexivity |]. split; [reflexivity |]. left.
    split; [reflexivity |]. intros token [= ->].
    vm_compute in Hcheck. destruct token; discriminate.
Qed.
